(** * Checkout, order assembly and payment confirmation of the storefront

    A shallow embedding of the checkout page ([src/pages/Products.tsx], second
    document: [Checkout]), the payment confirmation page
    ([PaymentConfirmation]), the product detail page (add to cart, reviews)
    and the admin product and category pages, together with the properties
    of the checkout, order and payment-confirmation lifecycle.

    Modelling conventions.
    - A JavaScript [number] that holds an amount of money, a quantity or a
      percentage is an exact rational ([Q]); rounding of IEEE doubles and
      the values [NaN] and [-0] are outside the model.  [Infinity] occurs in
      the source only as the second argument of [Math.min] and is modelled
      by [Js.Infinity].
    - A value that may be [null] or [undefined] is an [option].
    - The hosted relational store is a record of tables, each a list of
      rows.  A call to the store is given the response of the backend as an
      argument ([Backend.resp]): the page code decides nothing about it.
    - A statement on one table writes that table only.  The one foreign-key
      action that the migrations at hand declare ([products.category_id],
      [ON DELETE SET NULL]) is part of the delete of a category; the
      declarations of the other tables are not among the sources, and no
      trigger or cascade is assumed for them.
    - An [async] function of the pages is a function in the monad [M]: it
      threads the store and either returns or throws.  Writes made before a
      [throw] stay in the store, as they do in the source, which never
      compensates. *)

From Stdlib Require Import QArith Qround Qminmax Lqa ZArith Lia Ascii String.
From stdpp Require Import base option list strings pretty.

Local Open Scope Q_scope.

(** ** JavaScript values *)

Module Js.

(** [x ? .. : ..], [!x] and [x || y] on a number: [0] is falsy. *)
Definition truthy (q : Q) : bool := negb (Qeq_bool q 0).

(** [x || y] where [x] is [number | null | undefined]. *)
Definition or (x y : option Q) : option Q :=
  match x with
  | Some q => if truthy q then Some q else y
  | None => y
  end.

(** [x || d] where [d] is a number literal. *)
Definition or_num (x : option Q) (d : Q) : Q :=
  match x with
  | Some q => if truthy q then q else d
  | None => d
  end.

(** [x && ..] on [number | null]: the guard holds when [x] is a non-zero
    number. *)
Definition truthy_opt (x : option Q) : bool :=
  match x with
  | Some q => truthy q
  | None => false
  end.

(** [s || t] where [s] is [string | null | undefined]: [''] is falsy. *)
Definition truthy_str (s : string) : bool := negb (String.eqb s "").

Definition or_str (x y : option string) : option string :=
  match x with
  | Some s => if truthy_str s then Some s else y
  | None => y
  end.

(** [s || null]. *)
Definition or_null (x : option string) : option string := or_str x None.

(** [s || ''] . *)
Definition or_empty (x : option string) : string :=
  match or_null x with
  | Some s => s
  | None => ""
  end.

(** The second argument of [Math.min] in the discount computation. *)
Inductive bound := Finite (q : Q) | Infinity.

(** [x || Infinity]. *)
Definition or_Infinity (x : option Q) : bound :=
  match x with
  | Some q => if truthy q then Finite q else Infinity
  | None => Infinity
  end.

(** [Math.min(x, b)]. *)
Definition Math_min (x : Q) (b : bound) : Q :=
  match b with
  | Finite m => Qmin x m
  | Infinity => x
  end.

(** [String.prototype.toUpperCase], on the ASCII letters. *)
Definition upper_ascii (c : ascii) : ascii :=
  let n := nat_of_ascii c in
  if (97 <=? n)%nat && (n <=? 122)%nat then ascii_of_nat (n - 32) else c.

Fixpoint toUpperCase (s : string) : string :=
  match s with
  | EmptyString => EmptyString
  | String c r => String (upper_ascii c) (toUpperCase r)
  end.

(** [String.prototype.trim], on the ASCII white space. *)
Definition is_space (c : ascii) : bool :=
  let n := nat_of_ascii c in
  (n =? 32)%nat || ((9 <=? n)%nat && (n <=? 13)%nat).

Fixpoint trimStart (s : string) : string :=
  match s with
  | EmptyString => EmptyString
  | String c r => if is_space c then trimStart r else s
  end.

Definition trim (s : string) : string :=
  String.rev (trimStart (String.rev (trimStart s))).

(** [Array.prototype.reduce] with an initial value. *)
Definition reduce {A B : Type} (f : B -> A -> B) (init : B) (l : list A) : B :=
  fold_left f l init.

(** [String.prototype.toLowerCase], on the ASCII letters. *)
Definition lower_ascii (c : ascii) : ascii :=
  let n := nat_of_ascii c in
  if (65 <=? n)%nat && (n <=? 90)%nat then ascii_of_nat (n + 32) else c.

Fixpoint toLowerCase (s : string) : string :=
  match s with
  | EmptyString => EmptyString
  | String c r => String (lower_ascii c) (toLowerCase r)
  end.

(** [Math.round]: the nearest integer, a half going up. *)
Definition Math_round (x : Q) : Z := Qfloor (x + (1 # 2)).

(** [Math.max] of two numbers. *)
Definition Math_max (x y : Q) : Q := Qmax x y.

(** [Array.prototype.filter] with a callback that also takes the index. *)
Fixpoint filter_from {A : Type} (keep : A -> nat -> bool) (i : nat) (l : list A) : list A :=
  match l with
  | [] => []
  | x :: r =>
      if keep x i then x :: filter_from keep (S i) r else filter_from keep (S i) r
  end.

Definition filter_indexed {A : Type} (keep : A -> nat -> bool) (l : list A) : list A :=
  filter_from keep 0 l.

(** [String.prototype.includes]. *)
Fixpoint includes (s sub : string) : bool :=
  if String.prefix sub s then true
  else match s with
       | EmptyString => false
       | String _ r => includes r sub
       end.


End Js.

(** ** Rows of the store *)

(** Identifiers are the UUID strings of the store. *)
Definition Id := string.

(** Instants are milliseconds since the epoch, as [Date.now()] gives them. *)
Definition Instant := Z.

(** A variant choice: [{ label, image_url }]. *)
Module VariantOption.
Record t := {
  label : string;
  image_url : option string;
}.
End VariantOption.

Module Product.
Record t := {
  id : Id;
  name : string;
  description : option string;
  image_url : option string;
  price_per_litre : option Q;
  offer_price_per_litre : option Q;
  stock_quantity : Z;
  category_id : option Id;
  variant_enabled : bool;
  variant_title : option string;
  variant_values : option (list VariantOption.t);
  measurement_enabled : bool;
  measurement_title : option string;
  measurement_values : option (list string);
  is_active : bool;
  featured_in_offers : bool;
}.
End Product.

Module Category.
Record t := {
  id : Id;
  name : string;
  slug : string;
  description : option string;
  is_active : bool;
  updated_at : option Instant;
}.
End Category.

Module CartItem.
Record t := {
  user_id : Id;
  product_id : Id;
  quantity_litres : Q;
  variant_selection : option VariantOption.t;
  measurement_label : option string;
  measurement_value : option string;
}.
End CartItem.

Module Coupon.
Record t := {
  code : string;
  discount_type : string;
  discount_value : Q;
  min_order_amount : option Q;
  max_discount_amount : option Q;
  valid_until : option Instant;
  is_active : bool;
}.
End Coupon.

Module Order.
Record t := {
  id : Id;
  user_id : Id;
  order_number : string;
  total_amount : Q;
  discount_amount : Q;
  final_amount : Q;
  coupon_code : option string;
  shipping_address : string;
  status : string;
  payment_status : string;
}.
End Order.

Module OrderItem.
Record t := {
  order_id : Id;
  product_id : Id;
  product_name : string;
  quantity_litres : Q;
  price_per_litre : Q;
  total_price : Q;
  variant_selection : option VariantOption.t;
  measurement_label : option string;
  measurement_value : option string;
}.
End OrderItem.

Module Review.
Record t := {
  product_id : Id;
  user_id : Id;
  rating : Z;
  comment : string;
}.
End Review.

(** ** The store *)

Module Store.

Record t := {
  products : list Product.t;
  product_categories : list Category.t;
  cart_items : list CartItem.t;
  coupons : list Coupon.t;
  orders : list Order.t;
  order_items : list OrderItem.t;
  reviews : list Review.t;
}.

Definition with_products (f : list Product.t -> list Product.t) (s : t) : t :=
  {| products := f (products s); product_categories := product_categories s;
     cart_items := cart_items s; coupons := coupons s; orders := orders s;
     order_items := order_items s; reviews := reviews s |}.

Definition with_product_categories (f : list Category.t -> list Category.t) (s : t) : t :=
  {| products := products s; product_categories := f (product_categories s);
     cart_items := cart_items s; coupons := coupons s; orders := orders s;
     order_items := order_items s; reviews := reviews s |}.

Definition with_cart_items (f : list CartItem.t -> list CartItem.t) (s : t) : t :=
  {| products := products s; product_categories := product_categories s;
     cart_items := f (cart_items s); coupons := coupons s; orders := orders s;
     order_items := order_items s; reviews := reviews s |}.

Definition with_orders (f : list Order.t -> list Order.t) (s : t) : t :=
  {| products := products s; product_categories := product_categories s;
     cart_items := cart_items s; coupons := coupons s; orders := f (orders s);
     order_items := order_items s; reviews := reviews s |}.

Definition with_order_items (f : list OrderItem.t -> list OrderItem.t) (s : t) : t :=
  {| products := products s; product_categories := product_categories s;
     cart_items := cart_items s; coupons := coupons s; orders := orders s;
     order_items := f (order_items s); reviews := reviews s |}.

Definition with_reviews (f : list Review.t -> list Review.t) (s : t) : t :=
  {| products := products s; product_categories := product_categories s;
     cart_items := cart_items s; coupons := coupons s; orders := orders s;
     order_items := order_items s; reviews := f (reviews s) |}.

End Store.

(** ** Errors and the monad of the page functions *)

(** The error object of the store client. *)
Definition PostgrestError := string.

(** What a page function throws: [new Error(message)], one constructor per
    message of the sources, or the error object of the store.
    - [PleaseLogin]: 'Please login'
    - [CartIsEmpty]: 'Cart is empty'
    - [AddressTooShort]: 'Address must be at least 10 characters'
    - [InvalidCouponCode]: 'Invalid coupon code'
    - [MinimumOrderAmount m]: 'Minimum order amount is m'
    - [CouponHasExpired]: 'Coupon has expired'
    - [ProductNotFound]: 'Product not found'
    - [PleaseSelect t]: 'Please select a t'
    - [FillRequiredFields]: 'Please fill in all required fields'
    - [VariantTitleRequired], [VariantOptionRequired],
      [MeasurementTitleRequired], [MeasurementOptionRequired]: the four
      messages of the admin product form
    - [CategoryNameRequired]: 'Category name is required'
    - [CategoryExists]: 'A category with this name or slug already exists'
    - [CategoryInUse n names]: 'Cannot delete category. It is being used by
      n product(s): names' *)
Inductive Exn :=
| PleaseLogin
| CartIsEmpty
| AddressTooShort
| InvalidCouponCode
| MinimumOrderAmount (m : Q)
| CouponHasExpired
| ProductNotFound
| PleaseSelect (title : string)
| FillRequiredFields
| VariantTitleRequired
| VariantOptionRequired
| MeasurementTitleRequired
| MeasurementOptionRequired
| CategoryNameRequired
| CategoryExists
| CategoryInUse (n : nat) (names : list string)
| StoreError (e : PostgrestError).

Inductive outcome (A : Type) :=
| Return (a : A)
| Throw (e : Exn).
Arguments Return {A} a.
Arguments Throw {A} e.

Definition M (A : Type) : Type := Store.t -> Store.t * outcome A.

Definition ret {A} (a : A) : M A := fun s => (s, Return a).

Definition throw {A} (e : Exn) : M A := fun s => (s, Throw e).

Definition bind {A B} (c : M A) (k : A -> M B) : M B :=
  fun s =>
    match c s with
    | (s', Return a) => k a s'
    | (s', Throw e) => (s', Throw e)
    end.

Notation "'let*' x ':=' c 'in' k" := (bind c (fun x => k))
  (at level 10, x name, c at level 100, k at level 200).

Definition run {A} (c : M A) (s : Store.t) : Store.t * outcome A := c s.

(** ** Calls to the store

    Every call answers [{ data, error }]; [Backend.resp] is what the backend
    decides: no fault, or the error it reports.  A call that reports an error
    leaves the table as it was. *)

Module Backend.

Definition resp := option PostgrestError.

(** [{ data, error }]. *)
Inductive answer (A : Type) :=
| Data (a : A)
| Error (e : PostgrestError).
Arguments Data {A} a.
Arguments Error {A} e.

(** [.select()...] on rows already filtered. *)
Definition select {A} (rows : Store.t -> list A) (r : resp) : M (answer (list A)) :=
  fun s =>
    match r with
    | None => (s, Return (Data (rows s)))
    | Some e => (s, Return (Error e))
    end.

(** [.maybeSingle()]: no row gives [null], one row gives the row, more than
    one is an error of the store. *)
Definition maybeSingle {A} (a : answer (list A)) : answer (option A) :=
  match a with
  | Data [] => Data None
  | Data [x] => Data (Some x)
  | Data _ => Error "PGRST116"
  | Error e => Error e
  end.

(** [.single()]: exactly one row, or an error. *)
Definition single {A} (a : answer (list A)) : answer A :=
  match a with
  | Data [x] => Data x
  | Data _ => Error "PGRST116"
  | Error e => Error e
  end.

(** A write ([insert], [update], [upsert], [delete]): [w] is applied to
    the store unless the backend reports an error. *)
Definition write (w : Store.t -> Store.t) (r : resp) : M (answer ()) :=
  fun s =>
    match r with
    | None => (w s, Return (Data ()))
    | Some e => (s, Return (Error e))
    end.

End Backend.

(** ** The checkout page ([Checkout]) *)

Module Checkout.

(** The authenticated user of [useAuth()]. *)
Record User := { id : Id }.

(** A row of [cart_items] with its joined [products] row, as the query of
    the page selects them. *)
Record CartLine := {
  item : CartItem.t;
  products : option Product.t;
}.

(** What the environment decides during [createSupabaseOrder]:
    [Date.now()], [Math.random()], and the answers of the two inserts; the
    answer of the [orders] insert carries the identifier the store gives
    the new row. *)
Record Env := {
  now : Instant;
  random : Q;
  orders_insert : Id + PostgrestError;
  order_items_insert : Backend.resp;
}.

(** The state of the component. *)
Record State := {
  user : option User;
  address : string;
  couponCode : string;
  appliedCoupon : option Coupon.t;
  cartItems : option (list CartLine);
}.

(** The query ['cart']: the rows of the user, each with the product its
    [product_id] refers to. *)
Definition join (s : Store.t) (it : CartItem.t) : CartLine :=
  {| item := it;
     products := head (filter (fun p => Product.id p = CartItem.product_id it) (Store.products s)) |}.

Definition cart_query (u : option User) (s : Store.t) : list CartLine :=
  match u with
  | None => []
  | Some u =>
      join s <$> filter (fun it => CartItem.user_id it = id u) (Store.cart_items s)
  end.

(** [const subtotal = cartItems?.reduce(...) || 0]. *)
Definition subtotal (cartItems : option (list CartLine)) : Q :=
  Js.or_num
    (Js.reduce
       (fun sum item =>
          let price :=
            Js.or_num
              (Js.or (products item ≫= Product.offer_price_per_litre)
                     (products item ≫= Product.price_per_litre)) 0 in
          sum + price * CartItem.quantity_litres (Checkout.item item))
       0 <$> cartItems)
    0.

(** [const discount = appliedCoupon ? ... : 0]. *)
Definition discount (appliedCoupon : option Coupon.t) (subtotal : Q) : Q :=
  match appliedCoupon with
  | Some c =>
      if String.eqb (Coupon.discount_type c) "percentage"
      then Js.Math_min ((subtotal * Coupon.discount_value c) / 100)
                       (Js.or_Infinity (Coupon.max_discount_amount c))
      else Coupon.discount_value c
  | None => 0
  end.

(** [const total = subtotal - discount]. *)
Definition total (st : State) : Q :=
  subtotal (cartItems st) - discount (appliedCoupon st) (subtotal (cartItems st)).

(** [`ORD-${Date.now()}-${Math.floor(Math.random() * 1000)}`]. *)
Definition orderNumber (e : Env) : string :=
  "ORD-" +:+ pretty (now e) +:+ "-" +:+ pretty (Qfloor (random e * 1000)).

(** The object given to [.from('orders').insert(...)], with the identifier
    of the new row. *)
Definition order_row (st : State) (e : Env) (u : User) (oid : Id) : Order.t :=
  {| Order.id := oid;
     Order.user_id := id u;
     Order.order_number := orderNumber e;
     Order.total_amount := subtotal (cartItems st);
     Order.discount_amount := discount (appliedCoupon st) (subtotal (cartItems st));
     Order.final_amount := total st;
     Order.coupon_code := Coupon.code <$> appliedCoupon st;
     Order.shipping_address := address st;
     Order.status := "pending";
     Order.payment_status := "pending" |}.

(** [.from('orders').insert({...}).select().single()]. *)
Definition insert_order (st : State) (e : Env) (u : User) : M (Backend.answer Order.t) :=
  fun s =>
    match orders_insert e with
    | inl oid =>
        let order := order_row st e u oid in
        (Store.with_orders (fun l => l ++ [order]) s, Return (Backend.Data order))
    | inr err => (s, Return (Backend.Error err))
    end.

(** [cartItems.map((item) => ({ order_id: order.id, ... }))]. *)
Definition orderItems (order : Order.t) (cartItems : list CartLine) : list OrderItem.t :=
  (fun item =>
     {| OrderItem.order_id := Order.id order;
        OrderItem.product_id := CartItem.product_id (Checkout.item item);
        OrderItem.product_name := Js.or_empty (Product.name <$> products item);
        OrderItem.quantity_litres := CartItem.quantity_litres (Checkout.item item);
        OrderItem.price_per_litre :=
          Js.or_num
            (Js.or (products item ≫= Product.offer_price_per_litre)
                   (products item ≫= Product.price_per_litre)) 0;
        OrderItem.total_price :=
          Js.or_num
            (Js.or (products item ≫= Product.offer_price_per_litre)
                   (products item ≫= Product.price_per_litre)) 0
          * CartItem.quantity_litres (Checkout.item item);
        OrderItem.variant_selection := CartItem.variant_selection (Checkout.item item);
        OrderItem.measurement_label :=
          Js.or_null
            (Js.or_str (CartItem.measurement_label (Checkout.item item))
                       (products item ≫= Product.measurement_title));
        OrderItem.measurement_value :=
          Js.or_null (CartItem.measurement_value (Checkout.item item)) |})
  <$> cartItems.

(** [createSupabaseOrder]: the [orders] insert, then the [order_items]
    insert, each followed by [if (error) throw error]. *)
Definition createSupabaseOrder (st : State) (e : Env) : M Order.t :=
  match user st, cartItems st with
  | Some u, Some (l :: ls) =>
      let* a := insert_order st e u in
      match a with
      | Backend.Error orderError => throw (StoreError orderError)
      | Backend.Data order =>
          let* b :=
            Backend.write
              (Store.with_order_items (fun rows => rows ++ orderItems order (l :: ls)))
              (order_items_insert e) in
          match b with
          | Backend.Error itemsError => throw (StoreError itemsError)
          | Backend.Data _ => ret order
          end
      end
  | _, _ => throw CartIsEmpty
  end.

(** [checkoutSchema.parse({ address })] throws a [ZodError] exactly when
    the address has fewer than 10 characters ([couponCode] is optional). *)
Definition checkoutSchema_parse (address : string) : bool :=
  (10 <=? String.length address)%nat.

(** [placeOrderMutation.mutationFn]. *)
Definition placeOrder (st : State) (e : Env) : M Order.t :=
  match user st with
  | None => throw PleaseLogin
  | Some _ =>
      if negb (checkoutSchema_parse (address st)) then throw AddressTooShort
      else
        match cartItems st with
        | None | Some [] => throw CartIsEmpty
        | Some (_ :: _) => createSupabaseOrder st e
        end
  end.

(** [applyCouponMutation.mutationFn]; [now] is [new Date()] and [r] the
    answer of the backend to the query. *)
Definition applyCoupon (st : State) (now : Instant) (r : Backend.resp) : M Coupon.t :=
  let* a :=
    Backend.select
      (fun s =>
         filter (fun c => Coupon.code c = Js.toUpperCase (couponCode st)
                          /\ Coupon.is_active c = true)
                (Store.coupons s))
      r in
  match Backend.maybeSingle a with
  | Backend.Error error => throw (StoreError error)
  | Backend.Data None => throw InvalidCouponCode
  | Backend.Data (Some data) =>
      if Js.truthy_opt (Coupon.min_order_amount data)
         && negb (Qle_bool (default 0 (Coupon.min_order_amount data))
                           (subtotal (cartItems st)))
      then throw (MinimumOrderAmount (default 0 (Coupon.min_order_amount data)))
      else if match Coupon.valid_until data with
              | Some t => (t <? now)%Z
              | None => false
              end
      then throw CouponHasExpired
      else ret data
  end.

(** [onSuccess] of [applyCouponMutation]: [setAppliedCoupon(data)]. *)
Definition setAppliedCoupon (st : State) (c : option Coupon.t) : State :=
  {| user := user st; address := address st; couponCode := couponCode st;
     appliedCoupon := c; cartItems := cartItems st |}.

End Checkout.

(** ** The payment confirmation page ([PaymentConfirmation]) *)

Module PaymentConfirmation.

(** [completeMutation.mutationFn]: clear the cart of the user. *)
Definition completeMutation (user : option Checkout.User) (r : Backend.resp) : M () :=
  match user with
  | None => ret ()
  | Some u =>
      let* a :=
        Backend.write
          (Store.with_cart_items
             (filter (fun it => CartItem.user_id it <> Checkout.id u)))
          r in
      match a with
      | Backend.Error error => throw (StoreError error)
      | Backend.Data _ => ret ()
      end
  end.

(** The delay of [setTimeout(() => setCanComplete(true), 3000)]. *)
Definition delay : Z := 3000.

(** The component: its three [useState] cells, the pending timer of the
    effect (the instant at which it is due), [completeMutation.isPending],
    whether the page is still mounted, and the clock. *)
Record Page := {
  user : option Checkout.User;
  utr : string;
  sending : bool;
  canComplete : bool;
  timer : option Instant;
  isPending : bool;
  mounted : bool;
  clock : Instant;
}.

Definition initial (u : option Checkout.User) (t0 : Instant) : Page :=
  {| user := u; utr := ""; sending := false; canComplete := false;
     timer := None; isPending := false; mounted := true; clock := t0 |}.

(** What the user and the environment do. *)
Inductive Event :=
| Type_utr (v : string)         (* [onChange] of the input: [setUtr] *)
| Click_send                    (* the WhatsApp button *)
| Click_complete                (* the completion button *)
| Elapse (ms : Z)               (* time passes *)
| Timer_fires                   (* the callback of [setTimeout] runs *)
| Settle (r : Backend.resp).    (* the store answers the pending mutation *)

(** What the page does that is visible outside it. *)
Inductive Action :=
| Window_open (at_ : Instant) (reference : string)  (* [window.open(waLink)] *)
| Mutate (at_ : Instant).                           (* [completeMutation.mutate()] *)

(** [disabled={!utr || sending}]. *)
Definition send_disabled (p : Page) : bool :=
  negb (Js.truthy_str (utr p)) || sending p.

(** [disabled={!canComplete || completeMutation.isPending}]. *)
Definition complete_disabled (p : Page) : bool :=
  negb (canComplete p) || isPending p.

(** One step of the page on the store.  A click on a disabled button does
    nothing; the timer can fire only once it is due; after [navigate('/')]
    the page is unmounted, its timer cleared, and nothing happens there any
    more. *)
Definition step (ps : Page * Store.t) (ev : Event) : Page * Store.t * list Action :=
  let (p, s) := ps in
  if negb (mounted p) then (p, s, [])
  else
    match ev with
    | Type_utr v =>
        ({| user := user p; utr := v; sending := sending p;
            canComplete := canComplete p; timer := timer p;
            isPending := isPending p; mounted := true; clock := clock p |}, s, [])
    | Click_send =>
        if send_disabled p then (p, s, [])
        else
          ({| user := user p; utr := utr p; sending := true;
              canComplete := canComplete p;
              timer := Some (clock p + delay)%Z;
              isPending := isPending p; mounted := true; clock := clock p |},
           s, [Window_open (clock p) (utr p)])
    | Timer_fires =>
        match timer p with
        | Some due =>
            if (due <=? clock p)%Z
            then ({| user := user p; utr := utr p; sending := sending p;
                     canComplete := true; timer := None;
                     isPending := isPending p; mounted := true;
                     clock := clock p |}, s, [])
            else (p, s, [])
        | None => (p, s, [])
        end
    | Elapse ms =>
        ({| user := user p; utr := utr p; sending := sending p;
            canComplete := canComplete p; timer := timer p;
            isPending := isPending p; mounted := true;
            clock := (clock p + Z.max 0 ms)%Z |}, s, [])
    | Click_complete =>
        if complete_disabled p then (p, s, [])
        else
          ({| user := user p; utr := utr p; sending := sending p;
              canComplete := canComplete p; timer := timer p;
              isPending := true; mounted := true; clock := clock p |},
           s, [Mutate (clock p)])
    | Settle r =>
        if isPending p then
          match run (completeMutation (user p) r) s with
          | (s', Return _) =>
              (* onSuccess: navigate('/') *)
              ({| user := user p; utr := utr p; sending := sending p;
                  canComplete := canComplete p; timer := None;
                  isPending := false; mounted := false; clock := clock p |},
               s', [])
          | (s', Throw _) =>
              ({| user := user p; utr := utr p; sending := sending p;
                  canComplete := canComplete p; timer := timer p;
                  isPending := false; mounted := true; clock := clock p |},
               s', [])
          end
        else (p, s, [])
    end.

(** A run of the page: the final state and the actions, oldest first. *)
Fixpoint steps (ps : Page * Store.t) (evs : list Event) : Page * Store.t * list Action :=
  match evs with
  | [] => (ps, [])
  | ev :: evs' =>
      let '(ps', acts) := step ps ev in
      let '(ps'', acts') := steps ps' evs' in
      (ps'', acts ++ acts')
  end.

End PaymentConfirmation.

(** ** The product page ([ProductDetail]): add to cart, add a review *)

Module ProductDetail.

Record State := {
  id : Id;                                   (* [useParams()] *)
  user : option Checkout.User;
  product : option Product.t;
  quantity : Q;
  rating : Z;
  comment : string;
  selectedVariant : option VariantOption.t;
  selectedMeasurement : option string;
}.

(** [parseVariantOptions], on stored options that are objects. *)
Definition parseVariantOptions (values : option (list VariantOption.t)) : list VariantOption.t :=
  match values with
  | None => []
  | Some vs =>
      omap (fun v =>
              let l := Js.trim (VariantOption.label v) in
              if Js.truthy_str l
              then Some {| VariantOption.label := l;
                           VariantOption.image_url := Js.or_null (VariantOption.image_url v) |}
              else None) vs
  end.

Definition variantOptions (st : State) : list VariantOption.t :=
  parseVariantOptions (product st ≫= Product.variant_values).

Definition hasVariants (st : State) : bool :=
  match product st with
  | Some p => Product.variant_enabled p && (0 <? length (variantOptions st))%nat
  | None => false
  end.

Definition measurementValues (st : State) : list string :=
  default [] (product st ≫= Product.measurement_values).

Definition hasMeasurements (st : State) : bool :=
  match product st with
  | Some p => Product.measurement_enabled p && (0 <? length (measurementValues st))%nat
  | None => false
  end.

(** [.upsert({...}, { onConflict: 'user_id,product_id' })]. *)
Definition same_key (a b : CartItem.t) : bool :=
  bool_decide (CartItem.user_id a = CartItem.user_id b
               /\ CartItem.product_id a = CartItem.product_id b).

Definition upsert (row : CartItem.t) (rows : list CartItem.t) : list CartItem.t :=
  if existsb (same_key row) rows
  then (fun r => if same_key row r then row else r) <$> rows
  else rows ++ [row].

(** [addToCartMutation.mutationFn]. *)
Definition addToCart (st : State) (r : Backend.resp) : M () :=
  match user st, product st with
  | None, _ => throw PleaseLogin
  | Some _, None => throw ProductNotFound
  | Some u, Some p =>
      if hasVariants st && negb (bool_decide (is_Some (selectedVariant st)))
      then throw (PleaseSelect (default "variant" (Js.or_null (Product.variant_title p))))
      else if hasMeasurements st
              && negb (Js.truthy_str (default "" (selectedMeasurement st)))
      then throw (PleaseSelect
                    (default "measurement option" (Js.or_null (Product.measurement_title p))))
      else
        let variantPayload :=
          (fun v => {| VariantOption.label := VariantOption.label v;
                       VariantOption.image_url := VariantOption.image_url v |})
          <$> selectedVariant st in
        let* a :=
          Backend.write
            (Store.with_cart_items
               (upsert
                  {| CartItem.user_id := Checkout.id u;
                     CartItem.product_id := id st;
                     CartItem.quantity_litres := quantity st;
                     CartItem.variant_selection := variantPayload;
                     CartItem.measurement_label := Js.or_null (Product.measurement_title p);
                     CartItem.measurement_value := selectedMeasurement st |}))
            r in
        match a with
        | Backend.Error error => throw (StoreError error)
        | Backend.Data _ => ret ()
        end
  end.

(** [addReviewMutation.mutationFn]. *)
Definition addReview (st : State) (r : Backend.resp) : M () :=
  match user st with
  | None => throw PleaseLogin
  | Some u =>
      let* a :=
        Backend.write
          (Store.with_reviews
             (fun rows =>
                rows ++ [ {| Review.product_id := id st;
                             Review.user_id := Checkout.id u;
                             Review.rating := rating st;
                             Review.comment := Js.trim (comment st) |} ]))
          r in
      match a with
      | Backend.Error error => throw (StoreError error)
      | Backend.Data _ => ret ()
      end
  end.

(** [const [quantity, setQuantity] = useState(1)] and the three controls
    that set it: the minus button, the plus button and the number input,
    whose text [parseInt] reads ([None] is [NaN]). *)
Definition initialQuantity : Q := 1.

Inductive QuantityEvent :=
| Minus
| Plus
| Typed (parsed : option Z).

Definition setQuantity (quantity : Q) (ev : QuantityEvent) : Q :=
  match ev with
  | Minus => Js.Math_max 1 (quantity - 1)
  | Plus => quantity + 1
  | Typed parsed => Js.Math_max 1 (Js.or_num (inject_Z <$> parsed) 1)
  end.

Definition with_quantity (q : Q) (st : State) : State :=
  {| id := id st; user := user st; product := product st; quantity := q;
     rating := rating st; comment := comment st;
     selectedVariant := selectedVariant st;
     selectedMeasurement := selectedMeasurement st |}.

Definition with_selection (v : option VariantOption.t) (m : option string)
    (st : State) : State :=
  {| id := id st; user := user st; product := product st; quantity := quantity st;
     rating := rating st; comment := comment st;
     selectedVariant := v; selectedMeasurement := m |}.

(** The effect on [[hasVariants, variantOptions]]: keep the selected
    variant if its label is still offered, else take the first option. *)
Definition syncVariant (st : State) : State :=
  with_selection
    (if negb (hasVariants st) then None
     else
       match selectedVariant st with
       | Some prev =>
           if existsb (fun option =>
                         String.eqb (VariantOption.label option) (VariantOption.label prev))
                      (variantOptions st)
           then Some prev
           else head (variantOptions st)
       | None => head (variantOptions st)
       end)
    (selectedMeasurement st) st.

(** The effect on [[hasMeasurements, measurementValues]]. *)
Definition syncMeasurement (st : State) : State :=
  with_selection (selectedVariant st)
    (if negb (hasMeasurements st) then None
     else
       match selectedMeasurement st with
       | Some prev =>
           if Js.truthy_str prev && existsb (String.eqb prev) (measurementValues st)
           then Some prev
           else Js.or_null (head (measurementValues st))
       | None => Js.or_null (head (measurementValues st))
       end)
    st.

(** [selectionMissing], which disables the Add to Cart button. *)
Definition selectionMissing (st : State) : bool :=
  (hasVariants st && negb (bool_decide (is_Some (selectedVariant st))))
  || (hasMeasurements st && negb (Js.truthy_str (default "" (selectedMeasurement st)))).

(** [averageRating]. *)
Definition averageRating (reviews : option (list Review.t)) : Q :=
  match reviews with
  | Some (r :: rs) =>
      Js.reduce (fun acc r => acc + inject_Z (Review.rating r)) 0 (r :: rs)
      / inject_Z (Z.of_nat (length (r :: rs)))
  | _ => 0
  end.

(** [effectivePrice], [hasDiscount] and [discountPercentage] of the loaded
    product.  A list price that is [null] compares as 0, as in JavaScript;
    a division by 0, which the source can reach only with an offer price
    below 0, is outside the model. *)
Definition effectivePrice (p : Product.t) : option Q :=
  Js.or (Product.offer_price_per_litre p) (Product.price_per_litre p).

Definition hasDiscount (p : Product.t) : bool :=
  Js.truthy_opt (Product.offer_price_per_litre p)
  && negb (Qle_bool (default 0 (Product.price_per_litre p))
                    (default 0 (Product.offer_price_per_litre p))).

Definition discountPercentage (p : Product.t) : Z :=
  if hasDiscount p
  then Js.Math_round
         ((default 0 (Product.price_per_litre p)
           - default 0 (Product.offer_price_per_litre p))
          / default 0 (Product.price_per_litre p) * 100)
  else 0%Z.


End ProductDetail.

(** ** The admin product page ([AdminProducts]) *)

Module AdminProducts.

(** [ProductFormState].  The three numeric fields are strings in the
    source, tested for emptiness and then given to [parseFloat] or
    [parseInt]: here [None] is the empty string and [Some q] a string that
    parses to [q]. *)
Record ProductFormState := {
  name : string;
  description : string;
  price_per_litre : option Q;
  offer_price_per_litre : option Q;
  stock_quantity : option Z;
  image_url : string;
  category_id : string;
  variant_enabled : bool;
  variant_title : string;
  variant_values : list VariantOption.t;
  measurement_enabled : bool;
  measurement_title : string;
  measurement_values : list string;
  is_active : bool;
  featured_in_offers : bool;
}.

Record State := {
  editingProduct : option Product.t;
  formData : ProductFormState;
}.

(** The answers of the store: to the update, and to the insert (with the
    identifier of the new row). *)
Record Env := {
  update_resp : Backend.resp;
  insert_resp : Id + PostgrestError;
}.

(** [serializeVariantValues]. *)
Definition serializeVariantValues (values : list VariantOption.t) : list VariantOption.t :=
  (fun variant => {| VariantOption.label := VariantOption.label variant;
                     VariantOption.image_url := VariantOption.image_url variant |})
  <$> values.

(** The object given to [update] and to [insert]. *)
Definition payload (f : ProductFormState) (pid : Id) : Product.t :=
  {| Product.id := pid;
     Product.name := name f;
     Product.description := Js.or_null (Some (description f));
     Product.image_url := Js.or_null (Some (image_url f));
     Product.price_per_litre := price_per_litre f;
     Product.offer_price_per_litre := offer_price_per_litre f;
     Product.stock_quantity := default 0%Z (stock_quantity f);
     Product.category_id := Js.or_null (Some (category_id f));
     Product.variant_enabled := variant_enabled f;
     Product.variant_title :=
       if variant_enabled f && Js.truthy_str (variant_title f)
       then Some (variant_title f) else None;
     Product.variant_values :=
       if variant_enabled f && (0 <? length (variant_values f))%nat
       then Some (serializeVariantValues (variant_values f)) else None;
     Product.measurement_enabled := measurement_enabled f;
     Product.measurement_title :=
       if measurement_enabled f && Js.truthy_str (measurement_title f)
       then Some (measurement_title f) else None;
     Product.measurement_values :=
       if measurement_enabled f && (0 <? length (measurement_values f))%nat
       then Some (measurement_values f) else None;
     Product.is_active := is_active f;
     Product.featured_in_offers := featured_in_offers f |}.

(** The checks of the form, in the order of the source. *)
Definition validate (f : ProductFormState) : option Exn :=
  if negb (Js.truthy_str (name f))
     || negb (bool_decide (is_Some (price_per_litre f)))
     || negb (bool_decide (is_Some (stock_quantity f)))
  then Some FillRequiredFields
  else if variant_enabled f && negb (Js.truthy_str (Js.trim (variant_title f)))
  then Some VariantTitleRequired
  else if variant_enabled f && (length (variant_values f) =? 0)%nat
  then Some VariantOptionRequired
  else if measurement_enabled f && negb (Js.truthy_str (Js.trim (measurement_title f)))
  then Some MeasurementTitleRequired
  else if measurement_enabled f && (length (measurement_values f) =? 0)%nat
  then Some MeasurementOptionRequired
  else None.

(** [createProductMutation.mutationFn]: update the edited product, or
    insert a new one. *)
Definition saveProduct (st : State) (e : Env) : M () :=
  match validate (formData st) with
  | Some err => throw err
  | None =>
      match editingProduct st with
      | Some ep =>
          let* a :=
            Backend.write
              (Store.with_products
                 (fmap (fun p =>
                          if bool_decide (Product.id p = Product.id ep)
                          then payload (formData st) (Product.id p) else p)))
              (update_resp e) in
          match a with
          | Backend.Error error => throw (StoreError error)
          | Backend.Data _ => ret ()
          end
      | None =>
          match insert_resp e with
          | inl pid =>
              let* _ :=
                Backend.write
                  (Store.with_products (fun rows => rows ++ [payload (formData st) pid]))
                  None in
              ret ()
          | inr error => throw (StoreError error)
          end
      end
  end.

(** [deleteProductMutation.mutationFn]. *)
Definition deleteProduct (productId : Id) (r : Backend.resp) : M () :=
  let* a :=
    Backend.write
      (Store.with_products (filter (fun p => Product.id p <> productId)))
      r in
  match a with
  | Backend.Error error => throw (StoreError error)
  | Backend.Data _ => ret ()
  end.

(** [setFormData((prev) => ({ ...prev, variant_values: ... }))]. *)
Definition with_variant_values (vs : list VariantOption.t) (f : ProductFormState) :
    ProductFormState :=
  {| name := name f; description := description f;
     price_per_litre := price_per_litre f;
     offer_price_per_litre := offer_price_per_litre f;
     stock_quantity := stock_quantity f; image_url := image_url f;
     category_id := category_id f; variant_enabled := variant_enabled f;
     variant_title := variant_title f; variant_values := vs;
     measurement_enabled := measurement_enabled f;
     measurement_title := measurement_title f;
     measurement_values := measurement_values f;
     is_active := is_active f; featured_in_offers := featured_in_offers f |}.

Definition with_measurement_values (ms : list string) (f : ProductFormState) :
    ProductFormState :=
  {| name := name f; description := description f;
     price_per_litre := price_per_litre f;
     offer_price_per_litre := offer_price_per_litre f;
     stock_quantity := stock_quantity f; image_url := image_url f;
     category_id := category_id f; variant_enabled := variant_enabled f;
     variant_title := variant_title f; variant_values := variant_values f;
     measurement_enabled := measurement_enabled f;
     measurement_title := measurement_title f;
     measurement_values := ms;
     is_active := is_active f; featured_in_offers := featured_in_offers f |}.

(** [addVariantValue]: the form and the text of the input afterwards. *)
Definition addVariantValue (variantValueInput : string) (f : ProductFormState) :
    ProductFormState * string :=
  let label := Js.trim variantValueInput in
  if negb (Js.truthy_str label) then (f, variantValueInput)
  else if existsb
            (fun variant =>
               String.eqb (Js.toLowerCase (VariantOption.label variant))
                          (Js.toLowerCase label))
            (variant_values f)
  then (f, variantValueInput)
  else (with_variant_values
          (variant_values f
           ++ [ {| VariantOption.label := label; VariantOption.image_url := None |} ]) f,
        "").

(** [removeVariantValue]. *)
Definition removeVariantValue (index : nat) (f : ProductFormState) : ProductFormState :=
  with_variant_values
    (Js.filter_indexed (fun _ i => negb (i =? index)%nat) (variant_values f)) f.

(** [handleVariantLabelChange]. *)
Definition handleVariantLabelChange (index : nat) (label : string) (f : ProductFormState) :
    ProductFormState :=
  match variant_values f !! index with
  | None => f
  | Some v =>
      with_variant_values
        (<[index := {| VariantOption.label := label;
                       VariantOption.image_url := VariantOption.image_url v |}]>
           (variant_values f)) f
  end.

(** [clearVariantImage]. *)
Definition clearVariantImage (index : nat) (f : ProductFormState) : ProductFormState :=
  match variant_values f !! index with
  | None => f
  | Some v =>
      with_variant_values
        (<[index := {| VariantOption.label := VariantOption.label v;
                       VariantOption.image_url := None |}]>
           (variant_values f)) f
  end.

(** [addMeasurementValue]. *)
Definition addMeasurementValue (measurementValueInput : string) (f : ProductFormState) :
    ProductFormState * string :=
  if Js.truthy_str (Js.trim measurementValueInput)
  then (with_measurement_values
          (measurement_values f ++ [Js.trim measurementValueInput]) f, "")
  else (f, measurementValueInput).

(** [removeMeasurementValue]. *)
Definition removeMeasurementValue (index : nat) (f : ProductFormState) : ProductFormState :=
  with_measurement_values
    (Js.filter_indexed (fun _ i => negb (i =? index)%nat) (measurement_values f)) f.

(** [normalizeVariantValues], on stored options that are objects. *)
Definition normalizeVariantValues (values : option (list VariantOption.t)) :
    list VariantOption.t :=
  match values with
  | None => []
  | Some vs =>
      omap (fun value =>
              let label := Js.trim (VariantOption.label value) in
              if Js.truthy_str label
              then Some {| VariantOption.label := label;
                           VariantOption.image_url :=
                             Js.or_null (VariantOption.image_url value) |}
              else None) vs
  end.

(** The form that [handleEdit] fills from a product.  [toString] of a list
    price that is [null] throws: there is then no form ([None]). *)
Definition handleEdit (product : Product.t) : option ProductFormState :=
  match Product.price_per_litre product with
  | None => None
  | Some price =>
      Some {| name := Product.name product;
              description := Js.or_empty (Product.description product);
              price_per_litre := Some price;
              offer_price_per_litre := Product.offer_price_per_litre product;
              stock_quantity := Some (Product.stock_quantity product);
              image_url := Js.or_empty (Product.image_url product);
              category_id := Js.or_empty (Product.category_id product);
              variant_enabled := Product.variant_enabled product;
              variant_title := Js.or_empty (Product.variant_title product);
              variant_values := normalizeVariantValues (Product.variant_values product);
              measurement_enabled := Product.measurement_enabled product;
              measurement_title := Js.or_empty (Product.measurement_title product);
              measurement_values := default [] (Product.measurement_values product);
              is_active := Product.is_active product;
              featured_in_offers := Product.featured_in_offers product |}
  end.


End AdminProducts.

(** ** The admin category page ([AdminCategories]) *)

Module AdminCategories.

Record FormData := {
  name : string;
  slug : string;
  description : string;
  is_active : bool;
}.

Record State := {
  editingCategory : option Category.t;
  formData : FormData;
}.

Record Env := {
  now : Instant;                              (* [new Date()] *)
  select_resp : Backend.resp;
  write_resp : Backend.resp;
  insert_id : Id;
}.

(** [createCategoryMutation.mutationFn]. *)
Definition saveCategory (st : State) (e : Env) : M () :=
  let f := formData st in
  if negb (Js.truthy_str (Js.trim (name f))) then throw CategoryNameRequired
  else
    match editingCategory st with
    | Some ec =>
        let* a :=
          Backend.write
            (Store.with_product_categories
               (fmap (fun c =>
                        if bool_decide (Category.id c = Category.id ec)
                        then {| Category.id := Category.id c;
                                Category.name := Js.trim (name f);
                                Category.slug := Js.trim (slug f);
                                Category.description :=
                                  Js.or_null (Some (Js.trim (description f)));
                                Category.is_active := is_active f;
                                Category.updated_at := Some (now e) |}
                        else c)))
            (write_resp e) in
        match a with
        | Backend.Error error => throw (StoreError error)
        | Backend.Data _ => ret ()
        end
    | None =>
        let* existing :=
          Backend.select
            (fun s =>
               filter (fun c => Category.name c = Js.trim (name f)
                                \/ Category.slug c = Js.trim (slug f))
                      (Store.product_categories s))
            (select_resp e) in
        match Backend.single existing with
        | Backend.Data _ => throw CategoryExists
        | Backend.Error _ =>
            let* a :=
              Backend.write
                (Store.with_product_categories
                   (fun rows =>
                      rows ++ [ {| Category.id := insert_id e;
                                   Category.name := Js.trim (name f);
                                   Category.slug := Js.trim (slug f);
                                   Category.description :=
                                     Js.or_null (Some (Js.trim (description f)));
                                   Category.is_active := is_active f;
                                   Category.updated_at := None |} ]))
                (write_resp e) in
            match a with
            | Backend.Error error => throw (StoreError error)
            | Backend.Data _ => ret ()
            end
        end
    end.

(** The delete of a category row, with the action of the foreign key of
    [products.category_id] ([ON DELETE SET NULL], migration
    [create_product_categories]). *)
Definition delete_category (categoryId : Id) (s : Store.t) : Store.t :=
  Store.with_products
    (fmap (fun p =>
             if bool_decide (Product.category_id p = Some categoryId)
             then {| Product.id := Product.id p;
                     Product.name := Product.name p;
                     Product.description := Product.description p;
                     Product.image_url := Product.image_url p;
                     Product.price_per_litre := Product.price_per_litre p;
                     Product.offer_price_per_litre := Product.offer_price_per_litre p;
                     Product.stock_quantity := Product.stock_quantity p;
                     Product.category_id := None;
                     Product.variant_enabled := Product.variant_enabled p;
                     Product.variant_title := Product.variant_title p;
                     Product.variant_values := Product.variant_values p;
                     Product.measurement_enabled := Product.measurement_enabled p;
                     Product.measurement_title := Product.measurement_title p;
                     Product.measurement_values := Product.measurement_values p;
                     Product.is_active := Product.is_active p;
                     Product.featured_in_offers := Product.featured_in_offers p |}
             else p))
    (Store.with_product_categories
       (filter (fun c => Category.id c <> categoryId)) s).

(** [deleteCategoryMutation.mutationFn]. *)
Definition deleteCategory (categoryId : Id) (e : Env) : M () :=
  let* productsUsingCategory :=
    Backend.select
      (fun s => filter (fun p => Product.category_id p = Some categoryId) (Store.products s))
      (select_resp e) in
  match productsUsingCategory with
  | Backend.Data (p :: ps) =>
      throw (CategoryInUse (length (p :: ps)) (Product.name <$> (p :: ps)))
  | _ =>
      let* a := Backend.write (delete_category categoryId) (write_resp e) in
      match a with
      | Backend.Error error => throw (StoreError error)
      | Backend.Data _ => ret ()
      end
  end.

(** [generateSlug]: lower case, every run of characters other than
    [a-z0-9] replaced by one dash, the dashes at both ends removed. *)
Definition is_slug_char (c : ascii) : bool :=
  let n := nat_of_ascii c in
  ((97 <=? n)%nat && (n <=? 122)%nat) || ((48 <=? n)%nat && (n <=? 57)%nat).

(** [.replace(/[^a-z0-9]+/g, '-')]; [in_run] says that the run at hand
    has got its dash. *)
Fixpoint replace_runs (in_run : bool) (s : string) : string :=
  match s with
  | EmptyString => EmptyString
  | String c r =>
      if is_slug_char c then String c (replace_runs false r)
      else if in_run then replace_runs true r
      else String "-" (replace_runs true r)
  end.

(** [.replace(/^-+|-+$/g, '')]: the dashes at the start, then the dashes
    at the end. *)
Fixpoint strip_leading_dashes (s : string) : string :=
  match s with
  | String c r => if Ascii.eqb c "-" then strip_leading_dashes r else s
  | EmptyString => EmptyString
  end.

Fixpoint strip_trailing_dashes (s : string) : string :=
  match s with
  | EmptyString => EmptyString
  | String c r =>
      match strip_trailing_dashes r with
      | EmptyString => if Ascii.eqb c "-" then EmptyString else String c EmptyString
      | r' => String c r'
      end
  end.

Definition generateSlug (name : string) : string :=
  strip_trailing_dashes
    (strip_leading_dashes (replace_runs false (Js.toLowerCase name))).

(** [handleNameChange]: the name, and the slug made from it. *)
Definition handleNameChange (name : string) (f : FormData) : FormData :=
  {| AdminCategories.name := name; slug := generateSlug name;
     description := description f; is_active := is_active f |}.


End AdminCategories.

(** ** Every function of the pages that talks to the store *)

Inductive Op :=
| PlaceOrder (st : Checkout.State) (e : Checkout.Env)
| ApplyCoupon (st : Checkout.State) (now : Instant) (r : Backend.resp)
| CompletePayment (user : option Checkout.User) (r : Backend.resp)
| AddToCart (st : ProductDetail.State) (r : Backend.resp)
| AddReview (st : ProductDetail.State) (r : Backend.resp)
| SaveProduct (st : AdminProducts.State) (e : AdminProducts.Env)
| DeleteProduct (productId : Id) (r : Backend.resp)
| SaveCategory (st : AdminCategories.State) (e : AdminCategories.Env)
| DeleteCategory (categoryId : Id) (e : AdminCategories.Env).

(** The store after an operation, whether it returned or threw. *)
Definition exec (op : Op) (s : Store.t) : Store.t :=
  match op with
  | PlaceOrder st e => fst (run (Checkout.placeOrder st e) s)
  | ApplyCoupon st now r => fst (run (Checkout.applyCoupon st now r) s)
  | CompletePayment u r => fst (run (PaymentConfirmation.completeMutation u r) s)
  | AddToCart st r => fst (run (ProductDetail.addToCart st r) s)
  | AddReview st r => fst (run (ProductDetail.addReview st r) s)
  | SaveProduct st e => fst (run (AdminProducts.saveProduct st e) s)
  | DeleteProduct pid r => fst (run (AdminProducts.deleteProduct pid r) s)
  | SaveCategory st e => fst (run (AdminCategories.saveCategory st e) s)
  | DeleteCategory cid e => fst (run (AdminCategories.deleteCategory cid e) s)
  end.

Fixpoint exec_all (ops : list Op) (s : Store.t) : Store.t :=
  match ops with
  | [] => s
  | op :: ops' => exec_all ops' (exec op s)
  end.

(** ** Notions of the specification *)

(** The effective unit price of a cart line, by cases: the offer price when
    the product has one that is not zero; otherwise the list price; and 0
    when the line has no product or no price. *)
Definition effective_unit_price (l : Checkout.CartLine) : Q :=
  match Checkout.products l with
  | None => 0
  | Some p =>
      match Product.offer_price_per_litre p with
      | Some o => if Qeq_bool o 0 then default 0 (Product.price_per_litre p) else o
      | None => default 0 (Product.price_per_litre p)
      end
  end.

(** The effective unit price in the words of section 4.1: the offer price
    if present and lower than the list price, else the list price. *)
Definition claimed_unit_price (l : Checkout.CartLine) : Q :=
  match Checkout.products l with
  | None => 0
  | Some p =>
      match Product.offer_price_per_litre p, Product.price_per_litre p with
      | Some o, Some pr => if Qlt_le_dec o pr then o else pr
      | _, pr => default 0 pr
      end
  end.

(** The sum of [f] over the lines of a cart. *)
Definition sum_lines (f : Checkout.CartLine -> Q) (l : list Checkout.CartLine) : Q :=
  foldr (fun x acc => f x + acc) 0 l.

(** ** Sample data *)

Module Sample.

Definition product (pid : Id) (name : string) (list_price offer : option Q) : Product.t :=
  {| Product.id := pid; Product.name := name; Product.description := None;
     Product.image_url := None; Product.price_per_litre := list_price;
     Product.offer_price_per_litre := offer; Product.stock_quantity := 50%Z;
     Product.category_id := None; Product.variant_enabled := false;
     Product.variant_title := None; Product.variant_values := None;
     Product.measurement_enabled := false; Product.measurement_title := None;
     Product.measurement_values := None; Product.is_active := true;
     Product.featured_in_offers := false |}.

Definition cart_item (uid pid : Id) (quantity : Q) : CartItem.t :=
  {| CartItem.user_id := uid; CartItem.product_id := pid;
     CartItem.quantity_litres := quantity; CartItem.variant_selection := None;
     CartItem.measurement_label := None; CartItem.measurement_value := None |}.

Definition line (list_price offer : option Q) (quantity : Q) : Checkout.CartLine :=
  {| Checkout.item := cart_item "u1" "p1" quantity;
     Checkout.products := Some (product "p1" "Sunflower oil" list_price offer) |}.

(** A cart line whose product row is gone. *)
Definition orphan_line (quantity : Q) : Checkout.CartLine :=
  {| Checkout.item := cart_item "u1" "p9" quantity; Checkout.products := None |}.

Definition coupon (code type : string) (value : Q) (min_order max_discount : option Q)
    (valid_until : option Instant) (active : bool) : Coupon.t :=
  {| Coupon.code := code; Coupon.discount_type := type; Coupon.discount_value := value;
     Coupon.min_order_amount := min_order; Coupon.max_discount_amount := max_discount;
     Coupon.valid_until := valid_until; Coupon.is_active := active |}.

Definition alice : Checkout.User := {| Checkout.id := "u1" |}.

Definition env (items_resp : Backend.resp) : Checkout.Env :=
  {| Checkout.now := 1700000000000%Z; Checkout.random := 0.3456;
     Checkout.orders_insert := inl "o1"; Checkout.order_items_insert := items_resp |}.

Definition checkout (address : string) (c : option Coupon.t)
    (cart : option (list Checkout.CartLine)) : Checkout.State :=
  {| Checkout.user := Some alice; Checkout.address := address;
     Checkout.couponCode := ""; Checkout.appliedCoupon := c;
     Checkout.cartItems := cart |}.

Definition order (total discount : Q) (payment : string) : Order.t :=
  {| Order.id := "o0"; Order.user_id := "u1"; Order.order_number := "ORD-1-1";
     Order.total_amount := total; Order.discount_amount := discount;
     Order.final_amount := total - discount; Order.coupon_code := None;
     Order.shipping_address := "12 Mill Road, Salem"; Order.status := "pending";
     Order.payment_status := payment |}.

Definition order_item (oid : Id) (price quantity : Q) : OrderItem.t :=
  {| OrderItem.order_id := oid; OrderItem.product_id := "p1";
     OrderItem.product_name := "Sunflower oil"; OrderItem.quantity_litres := quantity;
     OrderItem.price_per_litre := price; OrderItem.total_price := price * quantity;
     OrderItem.variant_selection := None; OrderItem.measurement_label := None;
     OrderItem.measurement_value := None |}.

(** A store with one product, the carts of two users, three coupons and
    one earlier order with its item. *)
Definition store : Store.t :=
  {| Store.products := [product "p1" "Sunflower oil" (Some 500) None];
     Store.product_categories := [];
     Store.cart_items := [cart_item "u1" "p1" 2; cart_item "u2" "p1" 1;
                          cart_item "u1" "p2" 3];
     Store.coupons := [coupon "SAVE10" "percentage" 10 None None None true;
                       coupon "BIG200" "fixed" 200 (Some 500) None (Some 1000%Z) true;
                       coupon "OLD5" "percentage" 5 None None None false];
     Store.orders := [order 500 0 "pending"];
     Store.order_items := [order_item "o0" 500 1];
     Store.reviews := [] |}.

(** A form of the admin product page with two variants and two sizes. *)
Definition form : AdminProducts.ProductFormState :=
  {| AdminProducts.name := "Sunflower oil"; AdminProducts.description := "";
     AdminProducts.price_per_litre := Some 900;
     AdminProducts.offer_price_per_litre := None;
     AdminProducts.stock_quantity := Some 50%Z; AdminProducts.image_url := "";
     AdminProducts.category_id := ""; AdminProducts.variant_enabled := true;
     AdminProducts.variant_title := "Pack";
     AdminProducts.variant_values :=
       [ {| VariantOption.label := "Tin"; VariantOption.image_url := None |};
         {| VariantOption.label := "Pouch"; VariantOption.image_url := None |} ];
     AdminProducts.measurement_enabled := false;
     AdminProducts.measurement_title := "Size";
     AdminProducts.measurement_values := ["1 L"; "5 L"];
     AdminProducts.is_active := true; AdminProducts.featured_in_offers := false |}.


End Sample.

(** The store after the [orders] insert of [createSupabaseOrder]. *)
Definition with_new_order (o : Order.t) (s : Store.t) : Store.t :=
  Store.with_orders (fun l => l ++ [o]) s.

(** A price that is [null] or 0. *)
Definition null_or_zero (x : option Q) : Prop :=
  match x with
  | None => True
  | Some q => q == 0
  end.

(** A cart line without a price: its product row is missing, or the offer
    price and the list price of the product are both [null] or 0. *)
Definition no_price (l : Checkout.CartLine) : Prop :=
  match Checkout.products l with
  | None => True
  | Some p =>
      null_or_zero (Product.offer_price_per_litre p)
      /\ null_or_zero (Product.price_per_litre p)
  end.

(** The rows that the query of [applyCoupon] selects: the active coupons
    whose stored code is the upper-cased input. *)
Definition matching_coupons (code : string) (s : Store.t) : list Coupon.t :=
  filter (fun c => Coupon.code c = Js.toUpperCase code /\ Coupon.is_active c = true)
         (Store.coupons s).


(** The coupon codes of the store are kept in upper case. *)
Definition codes_in_upper_case (s : Store.t) : Prop :=
  Forall (fun c => Js.toUpperCase (Coupon.code c) = Coupon.code c) (Store.coupons s).

(** ** Footprints

    [preserves R c]: whatever the store, running [c] takes it to a store
    related to it by [R], whether [c] returns or throws. *)
Definition preserves {A} (R : Store.t -> Store.t -> Prop) (c : M A) : Prop :=
  forall s, R s (fst (run c s)).

(** [order_items] only grows, at its end. *)
Definition appends_order_items (s s' : Store.t) : Prop :=
  exists new, Store.order_items s' = Store.order_items s ++ new.

(** [orders] only grows, at its end, by rows whose payment status is
    'pending'. *)
Definition appends_pending_orders (s s' : Store.t) : Prop :=
  exists new,
    Store.orders s' = Store.orders s ++ new
    /\ Forall (fun o => Order.payment_status o = "pending") new.

(** Every table but [products] is the same. *)
Definition only_products (s s' : Store.t) : Prop :=
  Store.product_categories s' = Store.product_categories s
  /\ Store.cart_items s' = Store.cart_items s
  /\ Store.coupons s' = Store.coupons s
  /\ Store.orders s' = Store.orders s
  /\ Store.order_items s' = Store.order_items s
  /\ Store.reviews s' = Store.reviews s.

(** Every table but [cart_items] is the same. *)
Definition only_cart_items (s s' : Store.t) : Prop :=
  Store.products s' = Store.products s
  /\ Store.product_categories s' = Store.product_categories s
  /\ Store.coupons s' = Store.coupons s
  /\ Store.orders s' = Store.orders s
  /\ Store.order_items s' = Store.order_items s
  /\ Store.reviews s' = Store.reviews s.

(** ** The gate of the completion button *)

(** Among [acts] there is a hand-off with a reference that is not empty,
    made at least 3000 ms before [t]. *)
Definition handoff_before (acts : list PaymentConfirmation.Action) (t : Instant) : Prop :=
  exists ts ref,
    PaymentConfirmation.Window_open ts ref ∈ acts /\ ref <> "" /\ (ts + 3000 <= t)%Z.

(** Every completion among [acts] comes after such a hand-off. *)
Definition gated (acts : list PaymentConfirmation.Action) : Prop :=
  forall pre t post,
    acts = pre ++ PaymentConfirmation.Mutate t :: post -> handoff_before pre t.

(** What holds of the page after the actions [acts]: the completion button
    is enabled, and the timer is due, only 3000 ms or more after a
    hand-off. *)
Definition page_inv (p : PaymentConfirmation.Page)
    (acts : list PaymentConfirmation.Action) : Prop :=
  (PaymentConfirmation.canComplete p = true ->
   handoff_before acts (PaymentConfirmation.clock p))
  /\ (forall due, PaymentConfirmation.timer p = Some due -> handoff_before acts due).

(** ** Further notions *)

(** The sum of the [total_price] of order items. *)
Definition sum_items (l : list OrderItem.t) : Q :=
  foldr (fun it acc => OrderItem.total_price it + acc) 0 l.


(** The hand-offs and the completions among the actions of a run. *)
Definition is_mutate (a : PaymentConfirmation.Action) : bool :=
  match a with
  | PaymentConfirmation.Mutate _ => true
  | _ => false
  end.

Definition count_mutate (acts : list PaymentConfirmation.Action) : nat :=
  length (List.filter is_mutate acts).

Definition is_handoff (a : PaymentConfirmation.Action) : bool :=
  match a with
  | PaymentConfirmation.Window_open _ _ => true
  | _ => false
  end.

Definition count_handoff (acts : list PaymentConfirmation.Action) : nat :=
  length (List.filter is_handoff acts).

(** The answers of the store that report an error, among the events. *)
Definition is_failed_settle (ev : PaymentConfirmation.Event) : bool :=
  match ev with
  | PaymentConfirmation.Settle (Some _) => true
  | _ => false
  end.

Definition count_failed_settle (evs : list PaymentConfirmation.Event) : nat :=
  length (List.filter is_failed_settle evs).

(** How many completions the page can still start before the store
    answers: one when it is mounted and none is pending. *)
Definition completion_budget (p : PaymentConfirmation.Page) : nat :=
  if PaymentConfirmation.mounted p && negb (PaymentConfirmation.isPending p) then 1 else 0.

(** How many hand-offs the page can still make: one until the first. *)
Definition handoff_budget (p : PaymentConfirmation.Page) : nat :=
  if PaymentConfirmation.sending p then 0 else 1.

(** The store once the cart of a user is released. *)
Definition released (u : option Checkout.User) (s : Store.t) : Store.t :=
  match u with
  | Some u =>
      Store.with_cart_items (filter (fun it => CartItem.user_id it <> Checkout.id u)) s
  | None => s
  end.

(** The key of a cart row: [(user_id, product_id)]. *)
Definition cart_key (it : CartItem.t) : Id * Id :=
  (CartItem.user_id it, CartItem.product_id it).

(** The cart row that [addToCart] gives to the upsert. *)
Definition cart_row (st : ProductDetail.State) (u : Checkout.User) (p : Product.t) : CartItem.t :=
  {| CartItem.user_id := Checkout.id u;
     CartItem.product_id := ProductDetail.id st;
     CartItem.quantity_litres := ProductDetail.quantity st;
     CartItem.variant_selection := ProductDetail.selectedVariant st;
     CartItem.measurement_label := Js.or_null (Product.measurement_title p);
     CartItem.measurement_value := ProductDetail.selectedMeasurement st |}.

(** A product row whose variant and measurement data agree with its
    switches: the title and the values are there exactly when the switch
    is on, and the values are then not empty. *)
Definition consistent_options (p : Product.t) : Prop :=
  (Product.variant_enabled p = true <-> is_Some (Product.variant_title p))
  /\ (Product.variant_enabled p = true <-> is_Some (Product.variant_values p))
  /\ Product.variant_values p <> Some []
  /\ (Product.measurement_enabled p = true <-> is_Some (Product.measurement_title p))
  /\ (Product.measurement_enabled p = true <-> is_Some (Product.measurement_values p))
  /\ Product.measurement_values p <> Some [].

(** A variant option as the form keeps it once normalized: a label that is
    trimmed and not empty, and no empty image. *)
Definition normal_variant (v : VariantOption.t) : Prop :=
  Js.trim (VariantOption.label v) = VariantOption.label v
  /\ VariantOption.label v <> ""
  /\ VariantOption.image_url v <> Some "".

(** The variant labels of a form, up to the case of the letters. *)
Definition variant_keys (f : AdminProducts.ProductFormState) : list string :=
  (fun v => Js.toLowerCase (VariantOption.label v)) <$> AdminProducts.variant_values f.

(** A variant whose label is not blank. *)
Definition labelled (v : VariantOption.t) : Prop :=
  Js.trim (VariantOption.label v) <> "".

(** A slug as the category page makes them: letters [a-z] and digits, with
    single dashes between them and none at the ends.  [after_dash] says
    that a dash may not come next. *)
Fixpoint slug_body (after_dash : bool) (s : string) : bool :=
  match s with
  | EmptyString => negb after_dash
  | String c r =>
      if AdminCategories.is_slug_char c then slug_body false r
      else Ascii.eqb c "-" && negb after_dash && slug_body true r
  end.

Definition is_slug (s : string) : bool :=
  match s with
  | EmptyString => true
  | _ => slug_body true s
  end.

(** The same without the conditions on the ends. *)
Fixpoint dashed_body (after_dash : bool) (s : string) : bool :=
  match s with
  | EmptyString => true
  | String c r =>
      if AdminCategories.is_slug_char c then dashed_body false r
      else Ascii.eqb c "-" && negb after_dash && dashed_body true r
  end.

(** The categories that the check of [saveCategory] selects: those with
    the name or the slug of the form. *)
Definition same_name_or_slug (f : AdminCategories.FormData) (s : Store.t) : list Category.t :=
  filter (fun c => Category.name c = Js.trim (AdminCategories.name f)
                   \/ Category.slug c = Js.trim (AdminCategories.slug f))
         (Store.product_categories s).

(** The category row that [saveCategory] inserts. *)
Definition new_category (f : AdminCategories.FormData) (cid : Id) : Category.t :=
  {| Category.id := cid;
     Category.name := Js.trim (AdminCategories.name f);
     Category.slug := Js.trim (AdminCategories.slug f);
     Category.description := Js.or_null (Some (Js.trim (AdminCategories.description f)));
     Category.is_active := AdminCategories.is_active f;
     Category.updated_at := None |}.

(** ** The icons of the categories ([categoryIcons]) *)

Module CategoryIcons.

Inductive Icon :=
| Droplets | Wrench | Car | Cog | Zap | Thermometer | Package | Fuel
| Settings | Shield | Factory | Gauge.

(** [categoryIconMap], in the order of its entries. *)
Definition categoryIconMap : list (string * Icon) :=
  [ ("oil", Droplets); ("engine", Car); ("transmission", Cog); ("hydraulic", Settings);
    ("gear", Wrench); ("brake", Shield); ("coolant", Thermometer); ("grease", Package);
    ("fuel", Fuel); ("additive", Zap); ("fluid", Droplets); ("lubricant", Package);
    ("industrial", Factory); ("automotive", Car); ("performance", Gauge);
    ("efficiency", Zap); ("protection", Shield); ("maintenance", Wrench);
    ("system", Settings); ("equipment", Cog) ].

(** [getCategoryIcon]: the icon of the first keyword that the name
    contains, in lower case; [Package] when it contains none. *)
Definition getCategoryIcon (categoryName : string) : Icon :=
  let name := Js.toLowerCase categoryName in
  match List.find (fun '(keyword, _) => Js.includes name keyword) categoryIconMap with
  | Some (_, icon) => icon
  | None => Package
  end.

(** [getAvailableKeywords]. *)
Definition getAvailableKeywords : list string := fst <$> categoryIconMap.

End CategoryIcons.

(** * Properties *)

(** ** Pricing *)

Section Pricing.

Import Checkout.

Lemma truthy_false (q : Q) : Js.truthy q = false <-> q == 0.
Proof.
  unfold Js.truthy. rewrite negb_false_iff. apply Qeq_bool_iff.
Qed.

Lemma truthy_true (q : Q) : Js.truthy q = true <-> ~ q == 0.
Proof.
  unfold Js.truthy. rewrite negb_true_iff.
  split.
  - intros H E. apply Qeq_bool_iff in E. congruence.
  - intros H. destruct (Qeq_bool q 0) eqn:E; [|reflexivity].
    apply Qeq_bool_iff in E. contradiction.
Qed.

Lemma or_num_zero (q : Q) : Js.or_num (Some q) 0 == q.
Proof.
  unfold Js.or_num. destruct (Js.truthy q) eqn:E; [reflexivity|].
  apply truthy_false in E. symmetry. exact E.
Qed.

(** The expression [offer || list || 0] of the source is the effective unit
    price. *)
Lemma price_expression (l : CartLine) :
  Js.or_num
    (Js.or (products l ≫= Product.offer_price_per_litre)
           (products l ≫= Product.price_per_litre)) 0
  == effective_unit_price l.
Proof.
  unfold effective_unit_price.
  destruct (products l) as [p|]; simpl; [|reflexivity].
  destruct (Product.offer_price_per_litre p) as [o|],
           (Product.price_per_litre p) as [pr|]; simpl;
    unfold Js.or, Js.or_num, Js.truthy;
    repeat match goal with
           | |- context [Qeq_bool ?a 0] =>
               let E := fresh "E" in
               destruct (Qeq_bool a 0) eqn:E; simpl;
               try (apply Qeq_bool_iff in E)
           end;
    try reflexivity; try (symmetry; assumption).
Qed.

Lemma reduce_sum (f : CartLine -> Q) (l : list CartLine) (a : Q) :
  Js.reduce (fun sum item => sum + f item) a l == a + sum_lines f l.
Proof.
  unfold Js.reduce. revert a.
  induction l as [|x l IH]; intros a; simpl.
  - ring.
  - rewrite IH. ring.
Qed.

Lemma sum_lines_ext (f g : CartLine -> Q) (l : list CartLine) :
  (forall x, f x == g x) -> sum_lines f l == sum_lines g l.
Proof.
  intros H. induction l as [|x l IH]; simpl; [reflexivity|].
  rewrite IH, H. reflexivity.
Qed.

Lemma subtotal_sum (l : list CartLine) :
  subtotal (Some l)
  == sum_lines (fun x => effective_unit_price x * CartItem.quantity_litres (item x)) l.
Proof.
  unfold subtotal. cbn [fmap option_fmap option_map].
  rewrite or_num_zero, reduce_sum.
  rewrite Qplus_0_l. apply sum_lines_ext.
  intros x. rewrite price_expression. reflexivity.
Qed.

End Pricing.

Section EffectivePrice.

Import Checkout.

(** When the product has an offer price that is not zero, the effective
    unit price is the offer price, whatever the list price. *)
Lemma effective_unit_price_offer (l : CartLine) (p : Product.t) (o : Q) :
  products l = Some p -> Product.offer_price_per_litre p = Some o -> ~ o == 0 ->
  effective_unit_price l = o.
Proof.
  intros Hp Ho Hnz. unfold effective_unit_price. rewrite Hp, Ho.
  destruct (Qeq_bool o 0) eqn:E; [|reflexivity].
  apply Qeq_bool_iff in E. contradiction.
Qed.

(** Without an offer price (none, or zero) the effective unit price is the
    list price. *)
Lemma effective_unit_price_list (l : CartLine) (p : Product.t) (pr : Q) :
  products l = Some p ->
  (Product.offer_price_per_litre p = None
   \/ exists o, Product.offer_price_per_litre p = Some o /\ o == 0) ->
  Product.price_per_litre p = Some pr ->
  effective_unit_price l = pr.
Proof.
  intros Hp Ho Hpr. unfold effective_unit_price. rewrite Hp, Hpr.
  destruct Ho as [-> | (o & -> & Hz)]; [reflexivity|].
  apply Qeq_bool_iff in Hz. rewrite Hz. reflexivity.
Qed.

(** Where the offer price is lower than the list price (and not zero), the
    two readings of the effective unit price agree. *)
Lemma effective_unit_price_claimed (l : CartLine) (p : Product.t) (o pr : Q) :
  products l = Some p -> Product.offer_price_per_litre p = Some o ->
  Product.price_per_litre p = Some pr -> ~ o == 0 -> o < pr ->
  effective_unit_price l = claimed_unit_price l.
Proof.
  intros Hp Ho Hpr Hnz Hlt.
  rewrite (effective_unit_price_offer l p o Hp Ho Hnz).
  unfold claimed_unit_price. rewrite Hp, Ho, Hpr.
  destruct (Qlt_le_dec o pr) as [_|Hle]; [reflexivity|].
  exfalso. apply (Qlt_not_le _ _ Hlt Hle).
Qed.

(** C1 (as amended): for every cart line at checkout, the unit price used
    for the subtotal and the one snapshotted in the order item are the same
    effective unit price: the offer price whenever the product has a
    non-zero offer price (lower than the list price or not), otherwise the
    list price (0 when the line has no product or no price). The subtotal
    is the sum of effective unit price times quantity, and each order item
    carries that price and that price times the quantity of its line. *)
Theorem C1_effective_unit_price (cart : list CartLine) (order : Order.t) :
  subtotal (Some cart)
  == sum_lines (fun l => effective_unit_price l * CartItem.quantity_litres (item l)) cart
  /\ Forall2
       (fun l it =>
          OrderItem.price_per_litre it == effective_unit_price l
          /\ OrderItem.quantity_litres it = CartItem.quantity_litres (item l)
          /\ OrderItem.total_price it
             == effective_unit_price l * CartItem.quantity_litres (item l))
       cart (orderItems order cart).
Proof.
  split; [apply subtotal_sum|].
  unfold orderItems.
  induction cart as [|l cart IH]; [constructor|].
  rewrite fmap_cons. constructor; [|exact IH].
  cbn [OrderItem.price_per_litre OrderItem.quantity_litres OrderItem.total_price].
  repeat split.
  - apply price_expression.
  - rewrite price_expression. reflexivity.
Qed.

(** C1 as stated fails on a product with list price 100 and offer price
    120, one litre in the cart: the claim ignores the offer and charges
    100, the page charges 120, in the subtotal and in the order item. *)
Lemma C1_offer_above_list_is_charged :
  let l := Sample.line (Some 100) (Some 120) 1 in
  claimed_unit_price l == 100
  /\ subtotal (Some [l]) == 120
  /\ ~ subtotal (Some [l]) == claimed_unit_price l * CartItem.quantity_litres (item l)
  /\ ~ Forall2 (fun l it => OrderItem.price_per_litre it == claimed_unit_price l)
               [l] (orderItems (Sample.order 0 0 "pending") [l]).
Proof.
  cbv zeta. repeat split.
  - vm_compute. discriminate.
  - intros H. apply Forall2_cons_1 in H as [H _]. vm_compute in H. discriminate.
Qed.

End EffectivePrice.

(** ** Discount and total *)

Section Discount.

Import Checkout.

Lemma Math_min_le_l (x : Q) (b : Js.bound) : Js.Math_min x b <= x.
Proof.
  destruct b as [m|]; simpl; [apply Q.le_min_l | apply Qle_refl].
Qed.



(** The discount of a percentage coupon. *)
Lemma discount_percentage (c : Coupon.t) (sub : Q) :
  Coupon.discount_type c = "percentage" ->
  discount (Some c) sub
  = Js.Math_min (sub * Coupon.discount_value c / 100)
                (Js.or_Infinity (Coupon.max_discount_amount c)).
Proof.
  intros H. unfold discount. rewrite H. reflexivity.
Qed.




(** A max_discount_amount of 0 is read as no cap: 20% of 1000 with the cap
    set to 0 gives a discount of 200. *)
Lemma discount_cap_zero_is_no_cap :
  discount (Some (Sample.coupon "SAVE20" "percentage" 20 None (Some 0) None true)) 1000
  == 200.
Proof. reflexivity. Qed.

End Discount.

(** ** Order assembly *)

Section OrderAssembly.

Import Checkout.

(** The three ways [createSupabaseOrder] ends on a cart that is not empty. *)
Lemma createSupabaseOrder_order_fails (st : State) (e : Env) (s : Store.t)
    (u : User) (l : CartLine) (ls : list CartLine) (err : PostgrestError) :
  user st = Some u -> cartItems st = Some (l :: ls) -> orders_insert e = inr err ->
  run (createSupabaseOrder st e) s = (s, Throw (StoreError err)).
Proof.
  intros Hu Hc Ho. unfold run, createSupabaseOrder, bind, insert_order.
  rewrite Hu, Hc, Ho. reflexivity.
Qed.

Lemma createSupabaseOrder_items_fail (st : State) (e : Env) (s : Store.t)
    (u : User) (l : CartLine) (ls : list CartLine) (oid : Id) (err : PostgrestError) :
  user st = Some u -> cartItems st = Some (l :: ls) ->
  orders_insert e = inl oid -> order_items_insert e = Some err ->
  run (createSupabaseOrder st e) s
  = (with_new_order (order_row st e u oid) s, Throw (StoreError err)).
Proof.
  intros Hu Hc Ho Hi.
  unfold run, createSupabaseOrder, bind, insert_order, Backend.write.
  rewrite Hu, Hc, Ho, Hi. reflexivity.
Qed.

Lemma createSupabaseOrder_ok (st : State) (e : Env) (s : Store.t)
    (u : User) (l : CartLine) (ls : list CartLine) (oid : Id) :
  user st = Some u -> cartItems st = Some (l :: ls) ->
  orders_insert e = inl oid -> order_items_insert e = None ->
  run (createSupabaseOrder st e) s
  = (Store.with_order_items
       (fun rows => rows ++ orderItems (order_row st e u oid) (l :: ls))
       (with_new_order (order_row st e u oid) s),
     Return (order_row st e u oid)).
Proof.
  intros Hu Hc Ho Hi.
  unfold run, createSupabaseOrder, bind, insert_order, Backend.write.
  rewrite Hu, Hc, Ho, Hi. reflexivity.
Qed.

(** With a user, a valid address and a cart that is not empty,
    [placeOrder] is [createSupabaseOrder]. *)
Lemma placeOrder_proceeds (st : State) (e : Env) (s : Store.t)
    (u : User) (l : CartLine) (ls : list CartLine) :
  user st = Some u -> cartItems st = Some (l :: ls) ->
  (10 <= String.length (address st))%nat ->
  run (placeOrder st e) s = run (createSupabaseOrder st e) s.
Proof.
  intros Hu Hc Ha. unfold run, placeOrder, checkoutSchema_parse.
  rewrite Hu, Hc. apply Nat.leb_le in Ha. rewrite Ha. reflexivity.
Qed.

(** C6: for a logged-in user, placing an order with an address shorter
    than 10 characters fails with the validation error ('Address must be
    at least 10 characters'), and placing one with an empty cart (no cart
    loaded, or no line in it) fails with 'Cart is empty' when the address is
    valid; an empty cart fails in either case. Each of these failures leaves
    the whole store as it was: no order row and no order item row is
    written. *)
Theorem C6_rejected_order_writes_nothing (st : State) (e : Env) (s : Store.t) :
  is_Some (user st) ->
  ((String.length (address st) < 10)%nat ->
   run (placeOrder st e) s = (s, Throw AddressTooShort))
  /\ (cartItems st = None \/ cartItems st = Some [] ->
      ((10 <= String.length (address st))%nat ->
       run (placeOrder st e) s = (s, Throw CartIsEmpty))
      /\ (exists err, run (placeOrder st e) s = (s, Throw err))
      /\ run (createSupabaseOrder st e) s = (s, Throw CartIsEmpty)).
Proof.
  intros [u Hu]. unfold run, placeOrder, createSupabaseOrder, checkoutSchema_parse.
  rewrite Hu. split.
  - intros Hlt. apply Nat.leb_gt in Hlt. rewrite Hlt. reflexivity.
  - intros Hc. repeat split.
    + intros Hle. apply Nat.leb_le in Hle. rewrite Hle.
      destruct Hc as [-> | ->]; reflexivity.
    + destruct (10 <=? String.length (address st))%nat; simpl;
        [|eexists; reflexivity].
      destruct Hc as [-> | ->]; eexists; reflexivity.
    + destruct Hc as [-> | ->]; reflexivity.
Qed.

(** C6 on a short address with a full cart, and on an empty cart with a
    valid address. *)
Lemma C6_rejected_order_writes_nothing_witness :
  run (placeOrder (Sample.checkout "Salem" None (Some [Sample.line (Some 500) None 2]))
                  (Sample.env None)) Sample.store
  = (Sample.store, Throw AddressTooShort)
  /\ run (placeOrder (Sample.checkout "12 Mill Road, Salem" None (Some []))
                     (Sample.env None)) Sample.store
     = (Sample.store, Throw CartIsEmpty).
Proof.
  split.
  - destruct (C6_rejected_order_writes_nothing
                (Sample.checkout "Salem" None (Some [Sample.line (Some 500) None 2]))
                (Sample.env None) Sample.store) as [Hshort _].
    + exists Sample.alice. reflexivity.
    + apply Hshort. simpl. lia.
  - destruct (C6_rejected_order_writes_nothing
                (Sample.checkout "12 Mill Road, Salem" None (Some []))
                (Sample.env None) Sample.store) as [_ Hempty].
    + exists Sample.alice. reflexivity.
    + destruct Hempty as [Hvalid _]; [right; reflexivity|].
      apply Hvalid. simpl. lia.
Defined.

(** C7: the order row and the order item rows are written by two calls, one
    after the other. When the store accepts the [orders] insert and rejects
    the [order_items] insert, placing the order throws the error of the
    store, and the store then holds the new order row, pending and with
    pending payment, and not one item for it: the order items table is what
    it was, and so is every other table. Nothing deletes the order row. *)
Theorem C7_failed_items_leave_orphan_order (st : State) (e : Env) (s : Store.t)
    (u : User) (l : CartLine) (ls : list CartLine) (oid : Id) (err : PostgrestError) :
  user st = Some u -> cartItems st = Some (l :: ls) ->
  (10 <= String.length (address st))%nat ->
  orders_insert e = inl oid -> order_items_insert e = Some err ->
  (forall it, it ∈ Store.order_items s -> OrderItem.order_id it <> oid) ->
  exists s',
    run (placeOrder st e) s = (s', Throw (StoreError err))
    /\ Store.orders s' = Store.orders s ++ [order_row st e u oid]
    /\ Order.id (order_row st e u oid) = oid
    /\ Order.status (order_row st e u oid) = "pending"
    /\ Order.payment_status (order_row st e u oid) = "pending"
    /\ Store.order_items s' = Store.order_items s
    /\ filter (fun it => OrderItem.order_id it = oid) (Store.order_items s') = []
    /\ Store.products s' = Store.products s
    /\ Store.cart_items s' = Store.cart_items s
    /\ Store.coupons s' = Store.coupons s.
Proof.
  intros Hu Hc Ha Ho Hi Hfresh.
  exists (with_new_order (order_row st e u oid) s).
  rewrite (placeOrder_proceeds st e s u l ls Hu Hc Ha).
  rewrite (createSupabaseOrder_items_fail st e s u l ls oid err Hu Hc Ho Hi).
  repeat split.
  cbn [with_new_order Store.with_orders Store.order_items].
  apply elem_of_nil_inv. intros it [Hid Hit]%list_elem_of_filter.
  apply (Hfresh it Hit Hid).
Qed.

(** C7 on the sample store, where the store rejects the items of order
    [o1]. *)
Lemma C7_failed_items_leave_orphan_order_witness :
  exists s',
    run (placeOrder
           (Sample.checkout "12 Mill Road, Salem" None (Some [Sample.line (Some 500) None 2]))
           (Sample.env (Some "23503"))) Sample.store
    = (s', Throw (StoreError "23503"))
    /\ length (Store.orders s') = 2%nat
    /\ Store.order_items s' = Store.order_items Sample.store.
Proof.
  destruct (C7_failed_items_leave_orphan_order
              (Sample.checkout "12 Mill Road, Salem" None (Some [Sample.line (Some 500) None 2]))
              (Sample.env (Some "23503")) Sample.store Sample.alice
              (Sample.line (Some 500) None 2) [] "o1" "23503")
    as (s' & Hrun & Horders & _ & _ & _ & Hitems & _).
  - reflexivity.
  - reflexivity.
  - simpl. lia.
  - reflexivity.
  - reflexivity.
  - intros it Hit. simpl in Hit. apply list_elem_of_singleton in Hit. subst it.
    simpl. discriminate.
  - exists s'. split; [exact Hrun|]. split; [|exact Hitems].
    rewrite Horders. reflexivity.
Defined.

Lemma sum_lines_app (f : CartLine -> Q) (l1 l2 : list CartLine) :
  sum_lines f (l1 ++ l2) == sum_lines f l1 + sum_lines f l2.
Proof.
  induction l1 as [|x l1 IH]; simpl.
  - ring.
  - rewrite IH. ring.
Qed.

Lemma no_price_effective (l : CartLine) : no_price l -> effective_unit_price l == 0.
Proof.
  unfold no_price, effective_unit_price, null_or_zero.
  destruct (products l) as [p|]; [|reflexivity].
  destruct (Product.offer_price_per_litre p) as [o|],
           (Product.price_per_litre p) as [pr|]; simpl; intros [Ho Hp];
    try (apply Qeq_bool_iff in Ho; rewrite Ho); try assumption; reflexivity.
Qed.

(** On a line without a price the expression [offer || list || 0] is the
    literal 0. *)
Lemma no_price_expression (l : CartLine) :
  no_price l ->
  Js.or_num
    (Js.or (products l ≫= Product.offer_price_per_litre)
           (products l ≫= Product.price_per_litre)) 0
  = 0.
Proof.
  unfold no_price, null_or_zero.
  destruct (products l) as [p|]; simpl; [|reflexivity].
  destruct (Product.offer_price_per_litre p) as [o|],
           (Product.price_per_litre p) as [pr|]; simpl; intros [Ho Hp];
    unfold Js.or, Js.or_num;
    repeat match goal with
           | H : ?q == 0 |- context [Js.truthy ?q] =>
               rewrite (proj2 (truthy_false q) H)
           end; reflexivity.
Qed.

(** C10: a cart line whose product row is missing, or whose product has
    offer and list price both null or 0, does not make checkout fail. The
    line adds 0 to the subtotal, and when the store accepts both inserts the
    order is created and the order item written for that line has
    price_per_litre 0 and total_price 0. *)
Theorem C10_line_without_price (st : State) (e : Env) (s : Store.t) (u : User)
    (oid : Id) (l1 l2 : list CartLine) (l : CartLine) :
  user st = Some u -> cartItems st = Some (l1 ++ l :: l2) ->
  (10 <= String.length (address st))%nat ->
  orders_insert e = inl oid -> order_items_insert e = None ->
  no_price l ->
  subtotal (Some (l1 ++ l :: l2)) == subtotal (Some (l1 ++ l2))
  /\ exists s' it,
       run (placeOrder st e) s = (s', Return (order_row st e u oid))
       /\ Store.order_items s'
          = Store.order_items s ++ orderItems (order_row st e u oid) (l1 ++ l :: l2)
       /\ orderItems (order_row st e u oid) (l1 ++ l :: l2) !! length l1 = Some it
       /\ OrderItem.order_id it = oid
       /\ OrderItem.product_id it = CartItem.product_id (item l)
       /\ OrderItem.quantity_litres it = CartItem.quantity_litres (item l)
       /\ OrderItem.price_per_litre it = 0
       /\ OrderItem.total_price it == 0.
Proof.
  intros Hu Hc Ha Ho Hi Hnp. split.
  - rewrite !subtotal_sum, !sum_lines_app. simpl.
    rewrite (no_price_effective l Hnp). ring.
  - assert (exists x xs, l1 ++ l :: l2 = x :: xs) as (x & xs & Hx)
      by (destruct l1; simpl; eauto).
    rewrite Hx in Hc.
    eexists _, _.
    rewrite (placeOrder_proceeds st e s u x xs Hu Hc Ha).
    rewrite (createSupabaseOrder_ok st e s u x xs oid Hu Hc Ho Hi).
    rewrite <- Hx.
    split; [reflexivity|]. split; [reflexivity|].
    split.
    { unfold orderItems. rewrite list_lookup_fmap, list_lookup_middle by reflexivity.
      reflexivity. }
    cbn [OrderItem.order_id OrderItem.product_id OrderItem.quantity_litres
         OrderItem.price_per_litre OrderItem.total_price].
    rewrite (no_price_expression l Hnp).
    repeat (split; [reflexivity|]). ring.
Qed.

(** C10 on a cart of two lines, the second without a product row. *)
Lemma C10_line_without_price_witness :
  let cart := [Sample.line (Some 500) None 2; Sample.orphan_line 3] in
  subtotal (Some cart) == 1000
  /\ exists s' it,
       run (placeOrder (Sample.checkout "12 Mill Road, Salem" None (Some cart))
                       (Sample.env None)) Sample.store
       = (s', Return (order_row (Sample.checkout "12 Mill Road, Salem" None (Some cart))
                                (Sample.env None) Sample.alice "o1"))
       /\ Store.order_items s' !! 2%nat = Some it
       /\ OrderItem.price_per_litre it = 0
       /\ OrderItem.total_price it == 0.
Proof.
  intros cart.
  destruct (C10_line_without_price
              (Sample.checkout "12 Mill Road, Salem" None (Some cart))
              (Sample.env None) Sample.store Sample.alice "o1"
              [Sample.line (Some 500) None 2] [] (Sample.orphan_line 3))
    as (Hsub & s' & it & Hrun & Hitems & Hit & _ & _ & _ & Hprice & Htotal).
  - reflexivity.
  - reflexivity.
  - simpl. lia.
  - reflexivity.
  - reflexivity.
  - exact I.
  - split; [rewrite Hsub; reflexivity|].
    exists s', it. split; [exact Hrun|]. split; [|split; assumption].
    rewrite Hitems. exact Hit.
Defined.

End OrderAssembly.

(** ** Coupon validation *)

Section CouponValidation.

Import Checkout.









(** The comparison of the query is with the stored code as it stands: a
    coupon stored as [save10] is not found, whatever the case of the
    input. *)
Example stored_lower_case_code_not_found :
  let c := Sample.coupon "save10" "percentage" 10 None None None true in
  let s' :=
    {| Store.products := []; Store.product_categories := []; Store.cart_items := [];
       Store.coupons := [c]; Store.orders := []; Store.order_items := [];
       Store.reviews := [] |} in
  let st := {| user := Some Sample.alice; address := ""; couponCode := "save10";
               appliedCoupon := None;
               cartItems := Some [Sample.line (Some 500) None 2] |} in
  ~ codes_in_upper_case s'
  /\ run (applyCoupon st 2000%Z None) s' = (s', Throw InvalidCouponCode).
Proof.
  cbv zeta. split; [|reflexivity].
  intros H. apply Forall_cons_1 in H as [H _]. discriminate H.
Qed.

(** The order of the steps on the sample store at instant 2000: BIG200
    needs 500 and expired at instant 1000. Below the minimum the rejection
    is the minimum; above it, the expiry. An inactive or unknown code is
    invalid. *)
Example coupon_steps_in_order :
  let st code cart := {| user := Some Sample.alice; address := ""; couponCode := code;
                         appliedCoupon := None; cartItems := Some cart |} in
  snd (run (applyCoupon (st "big200" [Sample.line (Some 100) None 1]) 2000%Z None)
           Sample.store)
  = Throw (MinimumOrderAmount 500)
  /\ snd (run (applyCoupon (st "big200" [Sample.line (Some 500) None 2]) 2000%Z None)
              Sample.store)
     = Throw CouponHasExpired
  /\ snd (run (applyCoupon (st "old5" [Sample.line (Some 500) None 2]) 2000%Z None)
              Sample.store)
     = Throw InvalidCouponCode
  /\ snd (run (applyCoupon (st "none" [Sample.line (Some 500) None 2]) 2000%Z None)
              Sample.store)
     = Throw InvalidCouponCode.
Proof. repeat split. Qed.

End CouponValidation.

(** ** What the operations write *)

Section Footprint.

Context {R : Store.t -> Store.t -> Prop} `{!Reflexive R} `{!Transitive R}.

Lemma preserves_ret {A} (a : A) : preserves R (ret a).
Proof. intros s. reflexivity. Qed.

Lemma preserves_throw {A} (e : Exn) : preserves R (@throw A e).
Proof. intros s. reflexivity. Qed.

Lemma preserves_bind {A B} (c : M A) (k : A -> M B) :
  preserves R c -> (forall a, preserves R (k a)) -> preserves R (bind c k).
Proof.
  intros Hc Hk s. unfold run, bind.
  specialize (Hc s). unfold run in Hc.
  destruct (c s) as [s' [a|e]]; simpl in *; [|exact Hc].
  transitivity s'; [exact Hc|]. apply (Hk a s').
Qed.

Lemma preserves_select {A} (rows : Store.t -> list A) (r : Backend.resp) :
  preserves R (Backend.select rows r).
Proof. intros s. unfold run, Backend.select. destruct r; reflexivity. Qed.

Lemma preserves_write (w : Store.t -> Store.t) (r : Backend.resp) :
  (forall s, R s (w s)) -> preserves R (Backend.write w r).
Proof.
  intros Hw s. unfold run, Backend.write. destruct r; simpl; [reflexivity|apply Hw].
Qed.

End Footprint.

#[local] Instance appends_order_items_refl : Reflexive appends_order_items.
Proof. intros s. exists []. symmetry. apply app_nil_r. Qed.

#[local] Instance appends_order_items_trans : Transitive appends_order_items.
Proof.
  intros s1 s2 s3 [n1 H1] [n2 H2]. exists (n1 ++ n2).
  rewrite H2, H1. symmetry. apply app_assoc.
Qed.

#[local] Instance appends_pending_orders_refl : Reflexive appends_pending_orders.
Proof. intros s. exists []. split; [symmetry; apply app_nil_r | constructor]. Qed.

#[local] Instance appends_pending_orders_trans : Transitive appends_pending_orders.
Proof.
  intros s1 s2 s3 (n1 & H1 & P1) (n2 & H2 & P2). exists (n1 ++ n2). split.
  - rewrite H2, H1. symmetry. apply app_assoc.
  - apply Forall_app. split; assumption.
Qed.

#[local] Instance only_products_refl : Reflexive only_products.
Proof. intros s. repeat split. Qed.

#[local] Instance only_products_trans : Transitive only_products.
Proof.
  intros s1 s2 s3 (A1 & A2 & A3 & A4 & A5 & A6) (B1 & B2 & B3 & B4 & B5 & B6).
  repeat split; congruence.
Qed.

#[local] Instance only_cart_items_refl : Reflexive only_cart_items.
Proof. intros s. repeat split. Qed.

#[local] Instance only_cart_items_trans : Transitive only_cart_items.
Proof.
  intros s1 s2 s3 (A1 & A2 & A3 & A4 & A5 & A6) (B1 & B2 & B3 & B4 & B5 & B6).
  repeat split; congruence.
Qed.

Ltac unfold_ops :=
  unfold exec,
    Checkout.placeOrder, Checkout.createSupabaseOrder, Checkout.applyCoupon,
    PaymentConfirmation.completeMutation,
    ProductDetail.addToCart, ProductDetail.addReview,
    AdminProducts.saveProduct, AdminProducts.deleteProduct,
    AdminCategories.saveCategory, AdminCategories.deleteCategory.

(** Follow the structure of a page function: its binds, its branches and
    its calls to the store. *)
Ltac footprint_with write_tac :=
  unfold_ops;
  repeat first
    [ apply preserves_ret
    | apply preserves_throw
    | apply preserves_select
    | apply preserves_write; intros ?; write_tac
    | apply preserves_bind; [|intros ?]
    | match goal with
      | |- preserves _ (match ?x with _ => _ end) => destruct x
      | |- preserves _ (if ?b then _ else _) => destruct b
      | |- preserves _ (let _ := _ in _) => cbv zeta
      end ].

Section OrderTables.

Lemma insert_order_order_items (st : Checkout.State) (e : Checkout.Env) (u : Checkout.User) :
  preserves appends_order_items (Checkout.insert_order st e u).
Proof.
  intros s. unfold run, Checkout.insert_order.
  destruct (Checkout.orders_insert e); simpl; [|reflexivity].
  exists []. rewrite app_nil_r. reflexivity.
Qed.

Lemma insert_order_orders (st : Checkout.State) (e : Checkout.Env) (u : Checkout.User) :
  preserves appends_pending_orders (Checkout.insert_order st e u).
Proof.
  intros s. unfold run, Checkout.insert_order.
  destruct (Checkout.orders_insert e) as [oid|err]; simpl; [|reflexivity].
  eexists. split; [reflexivity|]. repeat constructor.
Qed.

Ltac order_items_write :=
  unfold AdminCategories.delete_category; simpl;
  first [ exists []; rewrite app_nil_r; reflexivity | eexists; reflexivity ].

Ltac orders_write :=
  unfold AdminCategories.delete_category; simpl;
  exists []; rewrite app_nil_r; split; [reflexivity|constructor].

(** Every operation of the pages leaves the rows of [order_items] in place
    and at most appends to them. *)
Lemma op_appends_order_items (op : Op) (s : Store.t) :
  appends_order_items s (exec op s).
Proof.
  revert s. destruct op.
  - change (preserves appends_order_items (Checkout.placeOrder st e)).
    footprint_with order_items_write. apply insert_order_order_items.
  - change (preserves appends_order_items (Checkout.applyCoupon st now r)).
    footprint_with order_items_write.
  - change (preserves appends_order_items (PaymentConfirmation.completeMutation user r)).
    footprint_with order_items_write.
  - change (preserves appends_order_items (ProductDetail.addToCart st r)).
    footprint_with order_items_write.
  - change (preserves appends_order_items (ProductDetail.addReview st r)).
    footprint_with order_items_write.
  - change (preserves appends_order_items (AdminProducts.saveProduct st e)).
    footprint_with order_items_write.
  - change (preserves appends_order_items (AdminProducts.deleteProduct productId r)).
    footprint_with order_items_write.
  - change (preserves appends_order_items (AdminCategories.saveCategory st e)).
    footprint_with order_items_write.
  - change (preserves appends_order_items (AdminCategories.deleteCategory categoryId e)).
    footprint_with order_items_write.
Qed.

(** Every operation of the pages leaves the rows of [orders] in place and
    at most appends rows whose payment status is 'pending'. *)
Lemma op_appends_pending_orders (op : Op) (s : Store.t) :
  appends_pending_orders s (exec op s).
Proof.
  revert s. destruct op.
  - change (preserves appends_pending_orders (Checkout.placeOrder st e)).
    footprint_with orders_write. apply insert_order_orders.
  - change (preserves appends_pending_orders (Checkout.applyCoupon st now r)).
    footprint_with orders_write.
  - change (preserves appends_pending_orders (PaymentConfirmation.completeMutation user r)).
    footprint_with orders_write.
  - change (preserves appends_pending_orders (ProductDetail.addToCart st r)).
    footprint_with orders_write.
  - change (preserves appends_pending_orders (ProductDetail.addReview st r)).
    footprint_with orders_write.
  - change (preserves appends_pending_orders (AdminProducts.saveProduct st e)).
    footprint_with orders_write.
  - change (preserves appends_pending_orders (AdminProducts.deleteProduct productId r)).
    footprint_with orders_write.
  - change (preserves appends_pending_orders (AdminCategories.saveCategory st e)).
    footprint_with orders_write.
  - change (preserves appends_pending_orders (AdminCategories.deleteCategory categoryId e)).
    footprint_with orders_write.
Qed.

Lemma exec_all_appends_order_items (ops : list Op) (s : Store.t) :
  appends_order_items s (exec_all ops s).
Proof.
  revert s. induction ops as [|op ops IH]; intros s; simpl; [reflexivity|].
  transitivity (exec op s); [apply op_appends_order_items | apply IH].
Qed.

Lemma exec_all_appends_pending_orders (ops : list Op) (s : Store.t) :
  appends_pending_orders s (exec_all ops s).
Proof.
  revert s. induction ops as [|op ops IH]; intros s; simpl; [reflexivity|].
  transitivity (exec op s); [apply op_appends_pending_orders | apply IH].
Qed.

(** Saving or deleting a product writes the [products] table only. *)
Lemma saveProduct_only_products (st : AdminProducts.State) (e : AdminProducts.Env) :
  preserves only_products (AdminProducts.saveProduct st e).
Proof. footprint_with ltac:(repeat split). Qed.

Lemma deleteProduct_only_products (productId : Id) (r : Backend.resp) :
  preserves only_products (AdminProducts.deleteProduct productId r).
Proof. footprint_with ltac:(repeat split). Qed.

(** Completing the payment writes the [cart_items] table only. *)
Lemma completeMutation_only_cart_items (u : option Checkout.User) (r : Backend.resp) :
  preserves only_cart_items (PaymentConfirmation.completeMutation u r).
Proof. footprint_with ltac:(repeat split). Qed.

End OrderTables.

Section CartRelease.

Import PaymentConfirmation.

Lemma completeMutation_run (u : Checkout.User) (s : Store.t) :
  run (completeMutation (Some u) None) s
  = (Store.with_cart_items
       (filter (fun it => CartItem.user_id it <> Checkout.id u)) s,
     Return ()).
Proof. reflexivity. Qed.

Lemma filter_idem {A} (P : A -> Prop) `{!forall x, Decision (P x)} (l : list A) :
  filter P (filter P l) = filter P l.
Proof.
  induction l as [|x l IH]; [reflexivity|].
  rewrite filter_cons. destruct (decide (P x)) as [Hx|Hx]; [|exact IH].
  rewrite filter_cons, decide_True by exact Hx. rewrite IH. reflexivity.
Qed.

Lemma filter_not_then (uid : Id) (l : list CartItem.t) :
  filter (fun it => CartItem.user_id it = uid)
         (filter (fun it => CartItem.user_id it <> uid) l) = [].
Proof.
  apply elem_of_nil_inv. intros it [Heq [Hne _]%list_elem_of_filter]%list_elem_of_filter.
  contradiction.
Qed.

(** C9: releasing the cart of a user, when the store accepts the delete,
    succeeds and leaves in [cart_items] exactly the rows of the other users,
    unchanged and in their order; no row of the user is left; and releasing
    again, on the cart that is now empty, succeeds and changes nothing. *)
Theorem C9_release_cart (u : Checkout.User) (s : Store.t) :
  let s' := fst (run (completeMutation (Some u) None) s) in
  snd (run (completeMutation (Some u) None) s) = Return ()
  /\ (forall it, it ∈ Store.cart_items s' <->
        it ∈ Store.cart_items s /\ CartItem.user_id it <> Checkout.id u)
  /\ filter (fun it => CartItem.user_id it = Checkout.id u) (Store.cart_items s') = []
  /\ filter (fun it => CartItem.user_id it <> Checkout.id u) (Store.cart_items s')
     = filter (fun it => CartItem.user_id it <> Checkout.id u) (Store.cart_items s)
  /\ only_cart_items s s'
  /\ run (completeMutation (Some u) None) s' = (s', Return ()).
Proof.
  cbv zeta. rewrite completeMutation_run. cbn [fst snd].
  split; [reflexivity|].
  split.
  { intros it. cbn [Store.with_cart_items Store.cart_items].
    rewrite list_elem_of_filter. tauto. }
  split; [apply filter_not_then|].
  split; [apply filter_idem|].
  split; [repeat split|].
  rewrite completeMutation_run. f_equal.
  unfold Store.with_cart_items. cbn [Store.cart_items Store.products
    Store.product_categories Store.coupons Store.orders Store.order_items Store.reviews].
  rewrite filter_idem. reflexivity.
Qed.

(** Releasing the cart of [u1] on the sample store keeps the one row of
    [u2]; a second release gives the same store. *)
Example release_cart_sample :
  let s' := fst (run (completeMutation (Some Sample.alice) None) Sample.store) in
  Store.cart_items s' = [Sample.cart_item "u2" "p1" 1]
  /\ fst (run (completeMutation (Some Sample.alice) None) s') = s'.
Proof. split; reflexivity. Qed.

End CartRelease.

Section Snapshots.

(** C3: the rows of [order_items] are never modified after their creation.
    Whatever operations of the pages run afterwards, in any order and with
    any answers of the store, the table is the rows it had, unchanged and
    in place, followed by the rows of later orders. In particular saving
    (updating or inserting) a product and deleting a product write the
    [products] table only. *)
Theorem C3_order_items_frozen (ops : list Op) (s : Store.t) :
  (exists new, Store.order_items (exec_all ops s) = Store.order_items s ++ new)
  /\ (forall st e, only_products s (exec (SaveProduct st e) s))
  /\ (forall productId r, only_products s (exec (DeleteProduct productId r) s)).
Proof.
  split; [apply exec_all_appends_order_items|].
  split.
  - intros st e. apply saveProduct_only_products.
  - intros productId r. apply deleteProduct_only_products.
Qed.

End Snapshots.

(** ** The payment confirmation page *)

Section PaymentGate.

Import PaymentConfirmation.

Lemma handoff_before_mono (acts more : list Action) (t t' : Instant) :
  (t <= t')%Z -> handoff_before acts t -> handoff_before (acts ++ more) t'.
Proof.
  intros Hle (ts & ref & Hin & Hne & Hts). exists ts, ref.
  split; [apply elem_of_app; left; exact Hin|]. split; [exact Hne|lia].
Qed.

Lemma page_inv_more (p : Page) (acts more : list Action) :
  page_inv p acts -> page_inv p (acts ++ more).
Proof.
  intros [Hc Ht]. split.
  - intros H. apply (handoff_before_mono acts more (clock p)); [lia|auto].
  - intros due H. apply (handoff_before_mono acts more due); [lia|eauto].
Qed.

Lemma gated_nil : gated [].
Proof. intros [|a pre] t post H; discriminate H. Qed.

(** A hand-off added to the actions leaves them gated. *)
Lemma gated_snoc_open (acts : list Action) (ts : Instant) (ref : string) :
  gated acts -> gated (acts ++ [Window_open ts ref]).
Proof.
  intros Hg pre t post Heq.
  destruct (decide (post = [])) as [->|Hpost].
  - apply app_inj_tail in Heq as [_ Heq]. discriminate Heq.
  - destruct (exists_last Hpost) as (post' & a & ->).
    change (pre ++ Mutate t :: post' ++ [a]) with (pre ++ (Mutate t :: post') ++ [a]) in Heq.
    rewrite app_assoc in Heq. apply app_inj_tail in Heq as [Heq _].
    apply (Hg pre t post' Heq).
Qed.

(** A completion added after a hand-off that is old enough leaves them
    gated. *)
Lemma gated_snoc_mutate (acts : list Action) (t : Instant) :
  gated acts -> handoff_before acts t -> gated (acts ++ [Mutate t]).
Proof.
  intros Hg Hh pre t' post Heq.
  destruct (decide (post = [])) as [->|Hpost].
  - apply app_inj_tail in Heq as [-> Heq]. injection Heq as <-. exact Hh.
  - destruct (exists_last Hpost) as (post' & a & ->).
    change (pre ++ Mutate t' :: post' ++ [a]) with (pre ++ (Mutate t' :: post') ++ [a]) in Heq.
    rewrite app_assoc in Heq. apply app_inj_tail in Heq as [Heq _].
    apply (Hg pre t' post' Heq).
Qed.

Lemma truthy_str_ne (v : string) : Js.truthy_str v = true -> v <> "".
Proof.
  unfold Js.truthy_str. intros H ->. discriminate H.
Qed.

(** One step keeps the invariant of the page and the gate of the actions. *)
Lemma step_gated (p p' : Page) (s s' : Store.t) (ev : Event) (acts new : list Action) :
  step (p, s) ev = (p', s', new) ->
  page_inv p acts -> gated acts ->
  page_inv p' (acts ++ new) /\ gated (acts ++ new).
Proof.
  intros Hstep Hinv Hg. unfold step in Hstep.
  destruct (negb (mounted p)).
  { injection Hstep as <- <- <-. rewrite app_nil_r. split; assumption. }
  destruct Hinv as [Hc Ht].
  destruct ev as [v| | |ms| |r].
  - injection Hstep as <- <- <-. rewrite app_nil_r. split; [split|]; assumption.
  - destruct (send_disabled p) eqn:Hd.
    + injection Hstep as <- <- <-. rewrite app_nil_r. split; [split|]; assumption.
    + injection Hstep as <- <- <-.
      apply orb_false_iff in Hd as [Hutr _]. apply negb_false_iff in Hutr.
      assert (handoff_before (acts ++ [Window_open (clock p) (utr p)]) (clock p + delay)%Z)
        as Hnew.
      { exists (clock p), (utr p). split; [apply elem_of_app; right; constructor|].
        split; [apply truthy_str_ne; exact Hutr | unfold delay; lia]. }
      split; [split|]; cbn [canComplete clock timer].
      * intros H. apply (handoff_before_mono acts _ (clock p)); [lia|auto].
      * intros due [= <-]. exact Hnew.
      * apply gated_snoc_open. exact Hg.
  - destruct (complete_disabled p) eqn:Hd.
    + injection Hstep as <- <- <-. rewrite app_nil_r. split; [split|]; assumption.
    + injection Hstep as <- <- <-.
      apply orb_false_iff in Hd as [Hcan _]. apply negb_false_iff in Hcan.
      split; [apply page_inv_more; split; assumption|].
      apply gated_snoc_mutate; auto.
  - injection Hstep as <- <- <-. rewrite app_nil_r.
    split; [split|]; cbn [canComplete clock timer]; [| |assumption].
    + intros H.
      pose proof (handoff_before_mono acts [] (clock p) (clock p + Z.max 0 ms)%Z
                    ltac:(lia) (Hc H)) as Hc'.
      rewrite app_nil_r in Hc'. exact Hc'.
    + exact Ht.
  - destruct (timer p) as [due|] eqn:Htimer.
    + destruct (due <=? clock p)%Z eqn:Hdue.
      * injection Hstep as <- <- <-. rewrite app_nil_r.
        split; [split|]; cbn [canComplete clock timer]; [| |assumption].
        -- intros _. apply Z.leb_le in Hdue.
           pose proof (handoff_before_mono acts [] due (clock p) Hdue (Ht due eq_refl))
             as Hc'.
           rewrite app_nil_r in Hc'. exact Hc'.
        -- intros d [=].
      * injection Hstep as <- <- <-. rewrite app_nil_r. split; [split|]; try assumption.
        rewrite Htimer. exact Ht.
    + injection Hstep as <- <- <-. rewrite app_nil_r. split; [split|]; try assumption.
      rewrite Htimer. exact Ht.
  - destruct (isPending p).
    + destruct (run (completeMutation (user p) r) s) as [s1 [a|e]];
        injection Hstep as <- <- <-; rewrite app_nil_r;
        (split; [split|]; cbn [canComplete clock timer]; [| |assumption]);
        try assumption.
      intros d [=].
    + injection Hstep as <- <- <-. rewrite app_nil_r. split; [split|]; assumption.
Qed.

Lemma steps_gated (evs : list Event) (p p' : Page) (s s' : Store.t)
    (acts new : list Action) :
  steps (p, s) evs = (p', s', new) ->
  page_inv p acts -> gated acts -> gated (acts ++ new).
Proof.
  revert p s acts new. induction evs as [|ev evs IH]; intros p s acts new Hsteps Hinv Hg.
  - injection Hsteps as <- <- <-. rewrite app_nil_r. exact Hg.
  - cbn [steps] in Hsteps.
    destruct (step (p, s) ev) as [[p1 s1] a1] eqn:H1.
    destruct (steps (p1, s1) evs) as [[p2 s2] a2] eqn:H2.
    injection Hsteps as <- <- <-.
    destruct (step_gated p p1 s s1 ev acts a1 H1 Hinv Hg) as [Hinv1 Hg1].
    rewrite app_assoc. apply (IH p1 s1 (acts ++ a1) a2 H2 Hinv1 Hg1).
Qed.

Lemma initial_inv (u : option Checkout.User) (t0 : Instant) : page_inv (initial u t0) [].
Proof. split; [intros H; discriminate H | intros due H; discriminate H]. Qed.

(** The store changes only when a pending completion settles. *)
Lemma step_store (p p' : Page) (s s' : Store.t) (ev : Event) (new : list Action) :
  step (p, s) ev = (p', s', new) -> isPending p = false ->
  s' = s /\ (isPending p' = true -> exists t, new = [Mutate t]).
Proof.
  intros Hstep Hp. unfold step in Hstep.
  destruct (negb (mounted p)).
  { injection Hstep as <- <- <-. split; [reflexivity|]. congruence. }
  destruct ev as [v| | |ms| |r]; rewrite ?Hp in Hstep;
    repeat match type of Hstep with
           | context [if ?b then _ else _] => destruct b
           | context [match timer p with _ => _ end] => destruct (timer p)
           end;
    injection Hstep as <- <- <-; (split; [reflexivity|]); cbn [isPending];
    try congruence.
  intros _. eexists. reflexivity.
Qed.

Lemma steps_store (evs : list Event) (p p' : Page) (s s' : Store.t) (acts : list Action) :
  steps (p, s) evs = (p', s', acts) -> isPending p = false ->
  (forall t, Mutate t ∉ acts) -> s' = s.
Proof.
  revert p s acts. induction evs as [|ev evs IH]; intros p s acts Hsteps Hp Hno.
  - injection Hsteps as <- <- <-. reflexivity.
  - cbn [steps] in Hsteps.
    destruct (step (p, s) ev) as [[p1 s1] a1] eqn:H1.
    destruct (steps (p1, s1) evs) as [[p2 s2] a2] eqn:H2.
    injection Hsteps as <- <- <-.
    destruct (step_store p p1 s s1 ev a1 H1 Hp) as [Hs1 Hpend]. subst s1.
    apply (IH p1 s a2 H2).
    + destruct (isPending p1) eqn:E; [|reflexivity].
      destruct (Hpend eq_refl) as [t ->].
      exfalso. apply (Hno t). apply elem_of_app. left. constructor.
    + intros t Hin. apply (Hno t). apply elem_of_app. right. exact Hin.
Qed.

(** C8: on every run of the payment confirmation page from its initial
    state, each firing of the completion (the call of the mutation that
    clears the cart) comes after a hand-off (the opening of the WhatsApp
    link) made with a transaction reference that was not empty, and at
    least 3000 ms after it; and without such a firing the store is never
    written. *)
Theorem C8_completion_is_gated (u : option Checkout.User) (t0 : Instant) (s : Store.t)
    (evs : list Event) :
  let '(_, s', acts) := steps (initial u t0, s) evs in
  (forall pre t post, acts = pre ++ Mutate t :: post ->
     exists ts ref, Window_open ts ref ∈ pre /\ ref <> "" /\ (ts + 3000 <= t)%Z)
  /\ ((forall t, Mutate t ∉ acts) -> s' = s).
Proof.
  destruct (steps (initial u t0, s) evs) as [[p' s'] acts] eqn:Hsteps.
  split.
  - apply (steps_gated evs _ _ _ _ [] acts Hsteps (initial_inv u t0) gated_nil).
  - intros Hno. apply (steps_store evs _ _ _ _ _ Hsteps eq_refl Hno).
Qed.

End PaymentGate.

Section PaymentRuns.

Import PaymentConfirmation.

(** C8 on a full run: the reference is typed and sent at instant 0, the
    timer fires at 3000, the completion is clicked and settles. *)
Lemma C8_completion_is_gated_witness :
  snd (steps (initial (Some Sample.alice) 0%Z, Sample.store)
             [Type_utr "UTR1"; Click_send; Elapse 3000; Timer_fires;
              Click_complete; Settle None])
  = [Window_open 0%Z "UTR1"; Mutate 3000%Z]
  /\ exists ts ref,
       Window_open ts ref ∈ [Window_open 0%Z "UTR1"] /\ ref <> "" /\ (ts + 3000 <= 3000)%Z.
Proof.
  pose proof (C8_completion_is_gated (Some Sample.alice) 0%Z Sample.store
                [Type_utr "UTR1"; Click_send; Elapse 3000; Timer_fires;
                 Click_complete; Settle None]) as H.
  set (r := steps _ _) in *.
  vm_compute in r. subst r. cbv beta iota zeta in H.
  split; [reflexivity|].
  destruct H as [H _].
  apply (H [Window_open 0%Z "UTR1"] 3000%Z []). reflexivity.
Defined.

(** The completion button does nothing before the hand-off, nor before
    the 3000 ms are over; and the WhatsApp button does nothing while the
    reference is empty. *)
Example completion_too_early :
  snd (steps (initial (Some Sample.alice) 0%Z, Sample.store)
             [Click_complete; Click_send; Type_utr "UTR1"; Click_send; Elapse 2999;
              Timer_fires; Click_complete; Settle None])
  = [Window_open 0%Z "UTR1"]
  /\ snd (fst (steps (initial (Some Sample.alice) 0%Z, Sample.store)
                     [Click_complete; Click_send; Type_utr "UTR1"; Click_send;
                      Elapse 2999; Timer_fires; Click_complete; Settle None]))
     = Sample.store.
Proof. split; reflexivity. Qed.

(** C4 as stated fails on the sample store, whose one order has payment
    status 'pending': after the whole confirmation run of its user, ending
    with the completion, the cart of the user is empty and the order row is
    what it was, its payment status still 'pending'. *)
Lemma C4_completion_leaves_payment_status :
  let s' := snd (fst (steps (initial (Some Sample.alice) 0%Z, Sample.store)
                            [Type_utr "UTR1"; Click_send; Elapse 3000; Timer_fires;
                             Click_complete; Settle None])) in
  s' = fst (run (completeMutation (Some Sample.alice) None) Sample.store)
  /\ filter (fun it => CartItem.user_id it = "u1") (Store.cart_items s') = []
  /\ Store.orders s' = Store.orders Sample.store
  /\ Order.payment_status <$> Store.orders s' = ["pending"]
  /\ ~ (exists o, o ∈ Store.orders s' /\ Order.payment_status o <> "pending").
Proof.
  cbv zeta. repeat split.
  intros (o & Ho & Hp). vm_compute in Ho.
  apply list_elem_of_singleton in Ho. subst o. apply Hp. reflexivity.
Qed.

(** C4 (as amended): the completion action deletes every [cart_items] row
    of the logged-in user and writes no other table, so that the orders and
    their payment status are what they were. No operation of the pages
    changes the payment status of an order that exists: the operations only
    append to [orders], and the one that does, the creation of the order,
    writes the payment status 'pending'. *)
Theorem C4_completion_clears_cart_only (u : Checkout.User) (s : Store.t) (ops : list Op) :
  let s' := fst (run (completeMutation (Some u) None) s) in
  filter (fun it => CartItem.user_id it = Checkout.id u) (Store.cart_items s') = []
  /\ only_cart_items s s'
  /\ Order.payment_status <$> Store.orders s' = Order.payment_status <$> Store.orders s
  /\ (forall r, Store.orders (fst (run (completeMutation (Some u) r) s)) = Store.orders s)
  /\ exists new,
       Store.orders (exec_all ops s) = Store.orders s ++ new
       /\ Forall (fun o => Order.payment_status o = "pending") new.
Proof.
  cbv zeta. split; [apply filter_not_then|].
  split; [apply completeMutation_only_cart_items|].
  split; [reflexivity|].
  split.
  - intros r. apply (completeMutation_only_cart_items (Some u) r s).
  - apply exec_all_appends_pending_orders.
Qed.

End PaymentRuns.

Section SnapshotRun.

(** An order is placed for one product at 500; the admin then raises the
    price to 900 and deletes the product; the order item still says 500. *)
Example order_item_survives_product_changes :
  let form :=
    {| AdminProducts.name := "Sunflower oil"; AdminProducts.description := "";
       AdminProducts.price_per_litre := Some 900;
       AdminProducts.offer_price_per_litre := None;
       AdminProducts.stock_quantity := Some 50%Z; AdminProducts.image_url := "";
       AdminProducts.category_id := ""; AdminProducts.variant_enabled := false;
       AdminProducts.variant_title := ""; AdminProducts.variant_values := [];
       AdminProducts.measurement_enabled := false;
       AdminProducts.measurement_title := ""; AdminProducts.measurement_values := [];
       AdminProducts.is_active := true; AdminProducts.featured_in_offers := false |} in
  let edit :=
    {| AdminProducts.editingProduct := Some (Sample.product "p1" "Sunflower oil" (Some 500) None);
       AdminProducts.formData := form |} in
  let env := {| AdminProducts.update_resp := None; AdminProducts.insert_resp := inl "p3" |} in
  let placed :=
    exec (PlaceOrder (Sample.checkout "12 Mill Road, Salem" None
                        (Some [Sample.line (Some 500) None 2]))
                     (Sample.env None)) Sample.store in
  let later := exec_all [SaveProduct edit env; DeleteProduct "p1" None] placed in
  Product.price_per_litre <$> Store.products (exec (SaveProduct edit env) placed) = [Some 900]
  /\ Store.products later = []
  /\ Store.order_items later = Store.order_items placed
  /\ OrderItem.price_per_litre <$> Store.order_items later = [500; 500].
Proof. repeat split. Qed.

End SnapshotRun.

(** * Further properties of the pages *)

(** ** Checkout: the order that is written *)

Section PlacedOrder.

Import Checkout.

Lemma orderItems_length (order : Order.t) (cart : list CartLine) :
  length (orderItems order cart) = length cart.
Proof. unfold orderItems. apply length_fmap. Qed.

Lemma orderItems_order_id (order : Order.t) (cart : list CartLine) :
  Forall (fun it => OrderItem.order_id it = Order.id order) (orderItems order cart).
Proof.
  unfold orderItems. induction cart as [|l cart IH]; [constructor|].
  rewrite fmap_cons. constructor; [reflexivity|exact IH].
Qed.

Lemma orderItems_product_ids (order : Order.t) (cart : list CartLine) :
  OrderItem.product_id <$> orderItems order cart
  = (fun l => CartItem.product_id (item l)) <$> cart.
Proof.
  unfold orderItems. induction cart as [|l cart IH]; [reflexivity|].
  rewrite !fmap_cons, IH. reflexivity.
Qed.

(** X1: when a logged-in user with a valid address and a cart that is not
    empty places an order, and the store accepts both inserts, the order
    returned is the row written: one new order, pending and with pending
    payment, for that user and address, and one order item for each cart
    line, in the order of the cart, each with the identifier of the new
    order. The cart itself is not touched: its rows are all still there. *)
Theorem placeOrder_creates_order_and_items (st : State) (e : Env) (s : Store.t)
    (u : User) (cart : list CartLine) (oid : Id) :
  user st = Some u -> cartItems st = Some cart -> cart <> [] ->
  (10 <= String.length (address st))%nat ->
  orders_insert e = inl oid -> order_items_insert e = None ->
  exists s' order,
    run (placeOrder st e) s = (s', Return order)
    /\ Order.id order = oid
    /\ Order.user_id order = id u
    /\ Order.shipping_address order = address st
    /\ Order.status order = "pending" /\ Order.payment_status order = "pending"
    /\ Store.orders s' = Store.orders s ++ [order]
    /\ Store.order_items s' = Store.order_items s ++ orderItems order cart
    /\ length (orderItems order cart) = length cart
    /\ Forall (fun it => OrderItem.order_id it = oid) (orderItems order cart)
    /\ OrderItem.product_id <$> orderItems order cart
       = (fun l => CartItem.product_id (item l)) <$> cart
    /\ Store.cart_items s' = Store.cart_items s
    /\ Store.products s' = Store.products s.
Proof.
  intros Hu Hc Hne Ha Ho Hi.
  destruct cart as [|l ls]; [contradiction|].
  eexists _, (order_row st e u oid).
  rewrite (placeOrder_proceeds st e s u l ls Hu Hc Ha).
  rewrite (createSupabaseOrder_ok st e s u l ls oid Hu Hc Ho Hi).
  repeat (split; [reflexivity|]).
  split; [apply orderItems_length|].
  split; [apply (orderItems_order_id (order_row st e u oid))|].
  split; [apply orderItems_product_ids|].
  split; reflexivity.
Qed.

Lemma placeOrder_creates_order_and_items_witness :
  exists s' order,
    run (placeOrder (Sample.checkout "12 Mill Road, Salem" None
                       (Some [Sample.line (Some 500) None 2; Sample.orphan_line 3]))
                    (Sample.env None)) Sample.store
    = (s', Return order)
    /\ length (Store.orders s') = 2%nat
    /\ length (Store.order_items s') = 3%nat
    /\ Store.cart_items s' = Store.cart_items Sample.store.
Proof.
  destruct (placeOrder_creates_order_and_items
              (Sample.checkout "12 Mill Road, Salem" None
                 (Some [Sample.line (Some 500) None 2; Sample.orphan_line 3]))
              (Sample.env None) Sample.store Sample.alice
              [Sample.line (Some 500) None 2; Sample.orphan_line 3] "o1")
    as (s' & order & Hrun & _ & _ & _ & _ & _ & Ho & Hi & _ & _ & _ & Hc & _).
  - reflexivity.
  - reflexivity.
  - discriminate.
  - simpl. lia.
  - reflexivity.
  - reflexivity.
  - exists s', order. split; [exact Hrun|].
    rewrite Ho, Hi, Hc. repeat split.
Defined.

Lemma sum_items_cons (it : OrderItem.t) (l : list OrderItem.t) :
  sum_items (it :: l) = OrderItem.total_price it + sum_items l.
Proof. reflexivity. Qed.

Lemma sum_items_orderItems (order : Order.t) (cart : list CartLine) :
  sum_items (orderItems order cart)
  == sum_lines (fun l => effective_unit_price l * CartItem.quantity_litres (item l)) cart.
Proof.
  unfold orderItems. induction cart as [|l cart IH]; [reflexivity|].
  rewrite fmap_cons, sum_items_cons. cbn [OrderItem.total_price].
  rewrite IH, price_expression. reflexivity.
Qed.

(** X2: the two writes of checkout agree: the [total_amount] of the order
    row is the sum of the [total_price] of the order items written for the
    same cart. *)
Theorem order_total_is_sum_of_items (st : State) (e : Env) (u : User) (oid : Id)
    (cart : list CartLine) :
  cartItems st = Some cart ->
  Order.total_amount (order_row st e u oid)
  == sum_items (orderItems (order_row st e u oid) cart).
Proof.
  intros Hc. cbn [order_row Order.total_amount]. rewrite Hc.
  rewrite subtotal_sum, sum_items_orderItems. reflexivity.
Qed.

Lemma order_total_is_sum_of_items_witness :
  sum_items (orderItems (order_row (Sample.checkout "12 Mill Road, Salem" None
                                      (Some [Sample.line (Some 500) (Some 450) 2;
                                             Sample.line (Some 80) None 5]))
                                   (Sample.env None) Sample.alice "o1")
                        [Sample.line (Some 500) (Some 450) 2; Sample.line (Some 80) None 5])
  == 1300.
Proof.
  rewrite <- (order_total_is_sum_of_items
                (Sample.checkout "12 Mill Road, Salem" None
                   (Some [Sample.line (Some 500) (Some 450) 2;
                          Sample.line (Some 80) None 5]))
                (Sample.env None) Sample.alice "o1" _ eq_refl).
  reflexivity.
Defined.

(** X3: [placeOrder] checks, in this order, the login, the address and the
    cart, and only then talks to the store. Without a user it throws
    'Please login' whatever the address and the cart; when the store
    rejects the [orders] insert it throws the error of the store; and
    whenever the store after [placeOrder] differs from the store before,
    the user was logged in, the address had 10 characters or more, the cart
    had a line and the store accepted the [orders] insert. *)
Theorem placeOrder_writes_only_after_guards (st : State) (e : Env) (s : Store.t) :
  (user st = None -> run (placeOrder st e) s = (s, Throw PleaseLogin))
  /\ (forall u l ls err,
        user st = Some u -> cartItems st = Some (l :: ls) ->
        (10 <= String.length (address st))%nat -> orders_insert e = inr err ->
        run (placeOrder st e) s = (s, Throw (StoreError err)))
  /\ (fst (run (placeOrder st e) s) <> s ->
      is_Some (user st)
      /\ (10 <= String.length (address st))%nat
      /\ (exists l ls, cartItems st = Some (l :: ls))
      /\ exists oid, orders_insert e = inl oid).
Proof.
  split; [|split].
  - intros Hu. unfold run, placeOrder. rewrite Hu. reflexivity.
  - intros u l ls err Hu Hc Ha Ho.
    rewrite (placeOrder_proceeds st e s u l ls Hu Hc Ha).
    apply (createSupabaseOrder_order_fails st e s u l ls err Hu Hc Ho).
  - unfold run, placeOrder, checkoutSchema_parse.
    destruct (user st) as [u|] eqn:Hu; [|intros H; contradiction H; reflexivity].
    destruct (10 <=? String.length (address st))%nat eqn:Ha; simpl;
      [|intros H; contradiction H; reflexivity].
    destruct (cartItems st) as [[|l ls]|] eqn:Hc;
      try (intros H; contradiction H; reflexivity).
    destruct (orders_insert e) as [oid|err] eqn:Ho.
    + intros _. split; [eexists; reflexivity|].
      split; [apply Nat.leb_le; exact Ha|].
      split; eauto.
    + pose proof (createSupabaseOrder_order_fails st e s u l ls err Hu Hc Ho) as Hf.
      unfold run in Hf. rewrite Hf. intros H. contradiction H. reflexivity.
Qed.

Lemma placeOrder_writes_only_after_guards_witness :
  (10 <= String.length "12 Mill Road, Salem")%nat
  /\ run (placeOrder {| user := None; address := ""; couponCode := "";
                        appliedCoupon := None; cartItems := None |}
                     (Sample.env None)) Sample.store
     = (Sample.store, Throw PleaseLogin).
Proof.
  destruct (placeOrder_writes_only_after_guards
              (Sample.checkout "12 Mill Road, Salem" None
                 (Some [Sample.line (Some 500) None 2]))
              (Sample.env None) Sample.store) as (_ & _ & H).
  destruct H as (_ & Ha & _).
  - vm_compute. discriminate.
  - split; [exact Ha|].
    apply (placeOrder_writes_only_after_guards
             {| user := None; address := ""; couponCode := "";
                appliedCoupon := None; cartItems := None |}
             (Sample.env None) Sample.store).
    reflexivity.
Defined.

End PlacedOrder.

(** ** Checkout: coupons and the cart query *)

Section CouponAnswers.

Import Checkout.

(** X4: a coupon that [applyCoupon] returns is a row of the store that is
    active, whose stored code is the upper-cased input, whose minimum order
    amount (if set and not 0) is at most the subtotal, and which has not
    expired; the backend answered without an error, and the store is what
    it was. *)
Theorem applyCoupon_returns_only_valid (st : State) (now : Instant) (r : Backend.resp)
    (s s' : Store.t) (c : Coupon.t) :
  run (applyCoupon st now r) s = (s', Return c) ->
  s' = s /\ r = None
  /\ c ∈ Store.coupons s
  /\ Coupon.is_active c = true
  /\ Coupon.code c = Js.toUpperCase (couponCode st)
  /\ (forall m, Coupon.min_order_amount c = Some m ->
        m == 0 \/ m <= subtotal (cartItems st))
  /\ (forall t, Coupon.valid_until c = Some t -> (now <= t)%Z).
Proof.
  unfold run, applyCoupon, bind, Backend.select.
  destruct r as [err|]; [intros H; discriminate H|].
  pose proof (list_elem_of_filter
                (fun c => Coupon.code c = Js.toUpperCase (couponCode st)
                          /\ Coupon.is_active c = true) (Store.coupons s)) as Hin.
  destruct (filter _ (Store.coupons s)) as [|c0 [|c1 rest]]; cbn [Backend.maybeSingle];
    try (intros H; discriminate H).
  destruct (Js.truthy_opt (Coupon.min_order_amount c0)
            && negb (Qle_bool (default 0 (Coupon.min_order_amount c0))
                              (subtotal (cartItems st)))) eqn:Hmin;
    [intros H; discriminate H|].
  destruct (match Coupon.valid_until c0 with
            | Some t => (t <? now)%Z
            | None => false
            end) eqn:Hexp; [intros H; discriminate H|].
  intros H. injection H as <- <-.
  destruct (proj1 (Hin c0) ltac:(constructor)) as [[Hcode Hact] Hmem].
  repeat (split; [try reflexivity; assumption|]).
  split.
  - intros m Hm. rewrite Hm in Hmin. cbn [Js.truthy_opt from_option] in Hmin.
    unfold Datatypes.id in Hmin.
    apply andb_false_iff in Hmin as [Hz|Hle].
    + left. apply truthy_false. exact Hz.
    + right. apply negb_false_iff in Hle. apply Qle_bool_iff. exact Hle.
  - intros t Ht. rewrite Ht in Hexp. apply Z.ltb_ge. exact Hexp.
Qed.

Lemma applyCoupon_returns_only_valid_witness :
  Sample.coupon "SAVE10" "percentage" 10 None None None true ∈ Store.coupons Sample.store.
Proof.
  apply (applyCoupon_returns_only_valid
           {| user := Some Sample.alice; address := ""; couponCode := "Save10";
              appliedCoupon := None; cartItems := Some [Sample.line (Some 500) None 2] |}
           2000%Z None Sample.store Sample.store).
  reflexivity.
Defined.

(** X5: the errors of the store during [applyCoupon]. An error of the
    backend is thrown as it is; and when two or more active coupons have
    the code, the single-row query fails and the error of the store is
    thrown: the code is then neither accepted nor reported as invalid. *)
Theorem applyCoupon_store_errors (st : State) (now : Instant) (s : Store.t) :
  (forall err, run (applyCoupon st now (Some err)) s = (s, Throw (StoreError err)))
  /\ ((2 <= length (matching_coupons (couponCode st) s))%nat ->
      run (applyCoupon st now None) s = (s, Throw (StoreError "PGRST116"))).
Proof.
  split; [reflexivity|].
  unfold matching_coupons, run, applyCoupon, bind, Backend.select.
  destruct (filter _ (Store.coupons s)) as [|c0 [|c1 rest]]; simpl; try lia.
  reflexivity.
Qed.

Lemma applyCoupon_store_errors_witness :
  let dup := Sample.coupon "TWICE" "fixed" 50 None None None true in
  let s := {| Store.products := []; Store.product_categories := [];
              Store.cart_items := []; Store.coupons := [dup; dup];
              Store.orders := []; Store.order_items := []; Store.reviews := [] |} in
  run (applyCoupon {| user := Some Sample.alice; address := ""; couponCode := "twice";
                      appliedCoupon := None; cartItems := None |} 0%Z None) s
  = (s, Throw (StoreError "PGRST116")).
Proof.
  intros dup s.
  apply (applyCoupon_store_errors
           {| user := Some Sample.alice; address := ""; couponCode := "twice";
              appliedCoupon := None; cartItems := None |} 0%Z s).
  simpl. lia.
Defined.

(** X6: for a percentage coupon with a percentage that is not negative and
    a cap that, when set, is not negative, on a subtotal that is not
    negative, the discount lies between 0 and the percentage of the
    subtotal, so that the total is at most the subtotal; and without a cap
    (none, or 0) the discount is exactly that percentage. *)
Theorem percentage_discount_bounds (c : Coupon.t) (sub : Q) :
  Coupon.discount_type c = "percentage" ->
  0 <= sub -> 0 <= Coupon.discount_value c ->
  (forall m, Coupon.max_discount_amount c = Some m -> 0 <= m) ->
  0 <= discount (Some c) sub
  /\ discount (Some c) sub <= sub * Coupon.discount_value c / 100
  /\ sub - discount (Some c) sub <= sub
  /\ (Js.truthy_opt (Coupon.max_discount_amount c) = false ->
      discount (Some c) sub = sub * Coupon.discount_value c / 100).
Proof.
  intros Hty Hsub Hv Hcap. rewrite (discount_percentage c sub Hty).
  assert (0 <= sub * Coupon.discount_value c / 100) as Hpct.
  { apply Qle_shift_div_l; [reflexivity|]. nra. }
  assert (0 <= Js.Math_min (sub * Coupon.discount_value c / 100)
                           (Js.or_Infinity (Coupon.max_discount_amount c))) as Hnn.
  { unfold Js.or_Infinity.
    destruct (Coupon.max_discount_amount c) as [m|] eqn:Hm; [|exact Hpct].
    destruct (Js.truthy m); [|exact Hpct].
    cbn [Js.Math_min]. apply Q.min_glb; [exact Hpct | apply (Hcap m eq_refl)]. }
  split; [exact Hnn|].
  split; [apply Math_min_le_l|].
  split; [lra|].
  intros Hno. unfold Js.or_Infinity.
  destruct (Coupon.max_discount_amount c) as [m|]; [|reflexivity].
  cbn [Js.truthy_opt] in Hno. rewrite Hno. reflexivity.
Qed.

Lemma percentage_discount_bounds_witness :
  0 <= discount (Some (Sample.coupon "SAVE20" "percentage" 20 None (Some 150) None true)) 1000
  /\ 1000 - discount (Some (Sample.coupon "SAVE20" "percentage" 20 None (Some 150) None true))
                     1000 <= 1000.
Proof.
  destruct (percentage_discount_bounds
              (Sample.coupon "SAVE20" "percentage" 20 None (Some 150) None true) 1000)
    as (H0 & _ & H1 & _).
  - reflexivity.
  - vm_compute. discriminate.
  - vm_compute. discriminate.
  - intros m [= <-]. vm_compute. discriminate.
  - split; assumption.
Defined.

End CouponAnswers.

Section CartQuery.

Import Checkout.

Lemma join_item (s : Store.t) (it : CartItem.t) : item (join s it) = it.
Proof. reflexivity. Qed.

Lemma join_product (s : Store.t) (it : CartItem.t) :
  match products (join s it) with
  | Some p => p ∈ Store.products s /\ Product.id p = CartItem.product_id it
  | None => forall p, p ∈ Store.products s -> Product.id p <> CartItem.product_id it
  end.
Proof.
  unfold join. cbn [products].
  pose proof (list_elem_of_filter
                (fun p => Product.id p = CartItem.product_id it) (Store.products s)) as Hin.
  destruct (filter _ (Store.products s)) as [|p rest]; cbn [head].
  - intros p Hp Hid. apply (elem_of_nil p). apply Hin. split; assumption.
  - destruct (proj1 (Hin p) ltac:(constructor)) as [Hid Hp]. split; assumption.
Qed.

(** X7: the cart query of the checkout page gives one line for each cart
    row of the user, in the order of the table, and no line of another
    user; the product joined to a line is a product row with the
    [product_id] of the line, and a line has no product exactly when no
    product row has that identifier. Without a user the cart is empty. *)
Theorem cart_query_lines (u : User) (s : Store.t) :
  cart_query None s = []
  /\ item <$> cart_query (Some u) s
     = filter (fun it => CartItem.user_id it = id u) (Store.cart_items s)
  /\ Forall
       (fun l =>
          CartItem.user_id (item l) = id u
          /\ item l ∈ Store.cart_items s
          /\ match products l with
             | Some p =>
                 p ∈ Store.products s /\ Product.id p = CartItem.product_id (item l)
             | None =>
                 forall p, p ∈ Store.products s ->
                           Product.id p <> CartItem.product_id (item l)
             end)
       (cart_query (Some u) s).
Proof.
  split; [reflexivity|]. unfold cart_query. split.
  - induction (filter _ (Store.cart_items s)) as [|it l IH]; [reflexivity|].
    rewrite !fmap_cons, IH. reflexivity.
  - apply Forall_forall. intros l Hl.
    apply list_elem_of_fmap in Hl as (it & -> & Hit).
    apply list_elem_of_filter in Hit as [Hu Hit].
    rewrite join_item. split; [exact Hu|]. split; [exact Hit|].
    apply join_product.
Qed.


End CartQuery.

(** ** Payment confirmation: what a visit of the page can do *)

Section PaymentVisit.

Import PaymentConfirmation.

Lemma count_handoff_app (a b : list Action) :
  count_handoff (a ++ b) = (count_handoff a + count_handoff b)%nat.
Proof. unfold count_handoff. rewrite List.filter_app, length_app. reflexivity. Qed.

Lemma count_mutate_app (a b : list Action) :
  count_mutate (a ++ b) = (count_mutate a + count_mutate b)%nat.
Proof. unfold count_mutate. rewrite List.filter_app, length_app. reflexivity. Qed.

(** A step spends the budget of hand-offs that it uses. *)
Lemma step_handoff_budget (p p' : Page) (s s' : Store.t) (ev : Event) (new : list Action) :
  step (p, s) ev = (p', s', new) ->
  (count_handoff new + handoff_budget p' <= handoff_budget p)%nat.
Proof.
  unfold step, handoff_budget, send_disabled, complete_disabled. intros H.
  destruct (negb (mounted p)); [injection H as <- <- <-; simpl; lia|].
  destruct ev as [v| | |ms| |r];
    repeat match type of H with
           | context [if ?b then _ else _] => destruct b eqn:?
           | context [match timer p with _ => _ end] => destruct (timer p)
           | context [match run ?c ?x with _ => _ end] =>
               destruct (run c x) as [? [?|?]]
           end;
    injection H as <- <- <-; cbn [sending count_handoff List.filter is_handoff length];
    destruct (sending p); simpl; lia.
Qed.

Lemma steps_handoff_budget (evs : list Event) (p p' : Page) (s s' : Store.t)
    (acts : list Action) :
  steps (p, s) evs = (p', s', acts) ->
  (count_handoff acts + handoff_budget p' <= handoff_budget p)%nat.
Proof.
  revert p s acts. induction evs as [|ev evs IH]; intros p s acts H.
  - injection H as <- <- <-. simpl. lia.
  - cbn [steps] in H.
    destruct (step (p, s) ev) as [[p1 s1] a1] eqn:H1.
    destruct (steps (p1, s1) evs) as [[p2 s2] a2] eqn:H2.
    injection H as <- <- <-.
    pose proof (step_handoff_budget _ _ _ _ _ _ H1).
    pose proof (IH _ _ _ H2).
    rewrite count_handoff_app. lia.
Qed.

(** X9: a visit of the payment confirmation page hands off at most once:
    whatever the user does, the WhatsApp link is opened at most one time,
    since the button is disabled from the first click on. *)
Theorem at_most_one_handoff (u : option Checkout.User) (t0 : Instant) (s : Store.t)
    (evs : list Event) :
  (count_handoff (snd (steps (initial u t0, s) evs)) <= 1)%nat.
Proof.
  destruct (steps (initial u t0, s) evs) as [[p' s'] acts] eqn:H.
  pose proof (steps_handoff_budget evs _ _ _ _ _ H) as Hb.
  cbn [snd]. unfold handoff_budget at 2 in Hb. cbn [initial sending] in Hb. lia.
Qed.

(** A step spends the budget of completions, which only a failed answer of
    the store gives back. *)
Lemma step_completion_budget (p p' : Page) (s s' : Store.t) (ev : Event) (new : list Action) :
  step (p, s) ev = (p', s', new) ->
  (count_mutate new + completion_budget p'
   <= completion_budget p + (if is_failed_settle ev then 1 else 0))%nat.
Proof.
  unfold step, completion_budget, send_disabled, complete_disabled. intros H.
  destruct (mounted p) eqn:Hm; cbn [negb] in H;
    [|injection H as <- <- <-; rewrite Hm; simpl; lia].
  destruct (isPending p) eqn:Hp;
    destruct ev as [v| | |ms| |[err|]];
    repeat match type of H with
           | context [if ?b then _ else _] => destruct b eqn:?
           | context [match timer p with _ => _ end] => destruct (timer p)
           | context [match user p with _ => _ end] => destruct (user p)
           end;
    try discriminate;
    unfold run, completeMutation, bind, Backend.write in H;
    repeat match type of H with
           | context [match user p with _ => _ end] => destruct (user p)
           end;
    injection H as <- <- <-; cbn; rewrite ?Hm, ?Hp; cbn; lia.
Qed.

Lemma steps_completion_budget (evs : list Event) (p p' : Page) (s s' : Store.t)
    (acts : list Action) :
  steps (p, s) evs = (p', s', acts) ->
  (count_mutate acts + completion_budget p'
   <= completion_budget p + count_failed_settle evs)%nat.
Proof.
  revert p s acts. induction evs as [|ev evs IH]; intros p s acts H.
  - injection H as <- <- <-. cbn. lia.
  - cbn [steps] in H.
    destruct (step (p, s) ev) as [[p1 s1] a1] eqn:H1.
    destruct (steps (p1, s1) evs) as [[p2 s2] a2] eqn:H2.
    injection H as <- <- <-.
    pose proof (step_completion_budget _ _ _ _ _ _ H1).
    pose proof (IH _ _ _ H2).
    rewrite count_mutate_app. unfold count_failed_settle in *.
    cbn [List.filter]. destruct (is_failed_settle ev); simpl in *; lia.
Qed.

(** X10: no double submission. On every run of the page, the completion
    is started at most once more than the store has answered with an
    error: while a completion is pending the button is disabled, and after
    one that succeeds the page is left. In particular, when the store never
    reports an error the completion is started at most once. *)
Theorem completion_started_once_per_failure (u : option Checkout.User) (t0 : Instant)
    (s : Store.t) (evs : list Event) :
  (count_mutate (snd (steps (initial u t0, s) evs)) <= 1 + count_failed_settle evs)%nat.
Proof.
  destruct (steps (initial u t0, s) evs) as [[p' s'] acts] eqn:H.
  pose proof (steps_completion_budget evs _ _ _ _ _ H) as Hb.
  cbn [snd]. unfold completion_budget at 2 in Hb. cbn in Hb. lia.
Qed.

Lemma released_idem (u : option Checkout.User) (s : Store.t) :
  released u (released u s) = released u s.
Proof.
  destruct u as [u|]; [|reflexivity]. unfold released, Store.with_cart_items.
  cbn [Store.cart_items Store.products Store.product_categories Store.coupons
       Store.orders Store.order_items Store.reviews].
  rewrite filter_idem. reflexivity.
Qed.

Lemma completeMutation_store (u : option Checkout.User) (r : Backend.resp) (s : Store.t) :
  fst (run (completeMutation u r) s) = s
  \/ fst (run (completeMutation u r) s) = released u s.
Proof.
  destruct u as [u|]; [destruct r as [err|]|]; [left|right|left]; reflexivity.
Qed.

Lemma step_released (p p' : Page) (s0 s s' : Store.t) (ev : Event) (new : list Action) :
  step (p, s) ev = (p', s', new) ->
  s = s0 \/ s = released (user p) s0 ->
  user p' = user p /\ (s' = s0 \/ s' = released (user p) s0).
Proof.
  unfold step. intros H Hs.
  destruct (negb (mounted p)); [injection H as <- <- <-; auto|].
  destruct ev as [v| | |ms| |r];
    repeat match type of H with
           | context [if ?b then _ else _] => destruct b eqn:?
           | context [match timer p with _ => _ end] => destruct (timer p)
           end;
    try (injection H as <- <- <-; auto).
  pose proof (completeMutation_store (user p) r s) as Hc.
  destruct (run (completeMutation (user p) r) s) as [s1 [a|e]];
    injection H as <- <- <-; cbn [fst user] in *; (split; [reflexivity|]);
    destruct Hc as [-> | ->]; auto;
    destruct Hs as [-> | ->]; auto; right; apply released_idem.
Qed.

(** X11: all that a visit of the payment confirmation page can do to the
    store is to release the cart of its user: after any run, the store is
    the store the visit began with, or that store without the cart rows of
    the user (and for a visitor who is not logged in, the store it began
    with). No order, order item, product or coupon is ever written. *)
Theorem payment_visit_only_releases_cart (u : option Checkout.User) (t0 : Instant)
    (s : Store.t) (evs : list Event) :
  let s' := snd (fst (steps (initial u t0, s) evs)) in
  s' = s \/ s' = released u s.
Proof.
  cbv zeta.
  assert (forall evs p s1 p' s' acts,
            steps (p, s1) evs = (p', s', acts) ->
            s1 = s \/ s1 = released (user p) s ->
            s' = s \/ s' = released (user p) s) as Hgen.
  { clear evs. induction evs as [|ev evs IH]; intros p s1 p' s' acts H Hs.
    - injection H as <- <- <-. exact Hs.
    - cbn [steps] in H.
      destruct (step (p, s1) ev) as [[p1 s2] a1] eqn:H1.
      destruct (steps (p1, s2) evs) as [[p2 s3] a2] eqn:H2.
      injection H as <- <- <-.
      destruct (step_released p p1 s s1 s2 ev a1 H1 Hs) as [Hu Hs2].
      rewrite <- Hu. apply (IH p1 s2 p2 s3 a2 H2). rewrite Hu. exact Hs2. }
  destruct (steps (initial u t0, s) evs) as [[p' s'] acts] eqn:H.
  apply (Hgen evs (initial u t0) s p' s' acts H). left. reflexivity.
Qed.

End PaymentVisit.

(** ** The product page: quantity, cart, selections *)

Section CartUpsert.

Import ProductDetail.

Lemma same_key_iff (a b : CartItem.t) : same_key a b = true <-> cart_key a = cart_key b.
Proof.
  unfold same_key, cart_key. rewrite bool_decide_eq_true. split.
  - intros [-> ->]. reflexivity.
  - intros [= -> ->]. split; reflexivity.
Qed.

(** The rows of the key of [row], and the other rows, after the upsert. *)
Lemma upsert_other (row : CartItem.t) (rows : list CartItem.t) :
  filter (fun it => cart_key it <> cart_key row) (upsert row rows)
  = filter (fun it => cart_key it <> cart_key row) rows.
Proof.
  unfold upsert. destruct (existsb (same_key row) rows).
  - induction rows as [|r rows IH]; [reflexivity|].
    rewrite fmap_cons, !filter_cons, IH.
    destruct (same_key row r) eqn:E.
    + apply same_key_iff in E.
      rewrite !decide_False by (intros H; apply H; congruence). reflexivity.
    + reflexivity.
  - rewrite filter_app, filter_cons, decide_False by (intros H; apply H; reflexivity).
    apply app_nil_r.
Qed.

Lemma upsert_keys (row : CartItem.t) (rows : list CartItem.t) :
  cart_key <$> upsert row rows
  = if existsb (same_key row) rows then cart_key <$> rows
    else (cart_key <$> rows) ++ [cart_key row].
Proof.
  unfold upsert. destruct (existsb (same_key row) rows).
  - induction rows as [|r rows IH]; [reflexivity|].
    rewrite !fmap_cons, IH. destruct (same_key row r) eqn:E; [|reflexivity].
    apply same_key_iff in E. rewrite E. reflexivity.
  - rewrite fmap_app. reflexivity.
Qed.

Lemma existsb_same_key (row : CartItem.t) (rows : list CartItem.t) :
  existsb (same_key row) rows = true <-> cart_key row ∈ cart_key <$> rows.
Proof.
  rewrite existsb_exists, list_elem_of_fmap. split.
  - intros (r & Hr & E). exists r. apply same_key_iff in E.
    split; [exact E | apply list_elem_of_In; exact Hr].
  - intros (r & E & Hr). exists r.
    split; [apply list_elem_of_In; exact Hr | apply same_key_iff; exact E].
Qed.

Lemma upsert_same (row : CartItem.t) (rows : list CartItem.t) :
  NoDup (cart_key <$> rows) ->
  filter (fun it => cart_key it = cart_key row) (upsert row rows) = [row].
Proof.
  intros Hnd. unfold upsert. destruct (existsb (same_key row) rows) eqn:Hex.
  - induction rows as [|r rows IH]; [discriminate Hex|].
    rewrite fmap_cons in Hnd. apply NoDup_cons in Hnd as [Hnotin Hnd].
    rewrite fmap_cons, filter_cons.
    destruct (same_key row r) eqn:E.
    + rewrite decide_True by reflexivity. f_equal.
      apply same_key_iff in E.
      apply elem_of_nil_inv. intros it [Hk Hit]%list_elem_of_filter.
      apply list_elem_of_fmap in Hit as (r' & -> & Hr').
      apply Hnotin. rewrite <- E. apply list_elem_of_fmap. exists r'.
      split; [|exact Hr'].
      destruct (same_key row r') eqn:E'; [apply same_key_iff in E'; exact E'|].
      symmetry. exact Hk.
    + rewrite decide_False.
      * apply IH; [exact Hnd|]. cbn [existsb] in Hex. rewrite E in Hex. exact Hex.
      * intros Hk. symmetry in Hk. apply same_key_iff in Hk. congruence.
  - rewrite filter_app, filter_cons, decide_True by reflexivity.
    assert (filter (fun it => cart_key it = cart_key row) rows = []) as ->; [|reflexivity].
    apply elem_of_nil_inv. intros it [Hk Hit]%list_elem_of_filter.
    assert (existsb (same_key row) rows = true); [|congruence].
    apply existsb_same_key. rewrite <- Hk. apply list_elem_of_fmap. eauto.
Qed.

(** X12: the upsert of the cart keeps one row for each pair of user and
    product. On rows whose keys are all different, the rows after the
    upsert still have keys that are all different; the row of the given
    key is the row given, alone; the rows of the other keys are what they
    were, in place; and the table grows by one row when the key is new and
    keeps its length when the key was there. *)
Theorem upsert_keeps_one_row_per_key (row : CartItem.t) (rows : list CartItem.t) :
  NoDup (cart_key <$> rows) ->
  NoDup (cart_key <$> upsert row rows)
  /\ filter (fun it => cart_key it = cart_key row) (upsert row rows) = [row]
  /\ filter (fun it => cart_key it <> cart_key row) (upsert row rows)
     = filter (fun it => cart_key it <> cart_key row) rows
  /\ length (upsert row rows)
     = if bool_decide (cart_key row ∈ cart_key <$> rows)
       then length rows else S (length rows).
Proof.
  intros Hnd. split; [|split; [|split]].
  - rewrite upsert_keys. destruct (existsb (same_key row) rows) eqn:Hex; [exact Hnd|].
    apply NoDup_app. split; [exact Hnd|]. split; [|apply NoDup_singleton].
    intros k Hk Hk'. apply list_elem_of_singleton in Hk'. subst k.
    apply existsb_same_key in Hk. congruence.
  - apply upsert_same. exact Hnd.
  - apply upsert_other.
  - rewrite <- (length_fmap cart_key (upsert row rows)), upsert_keys.
    destruct (existsb (same_key row) rows) eqn:Hex.
    + rewrite bool_decide_eq_true_2 by (apply existsb_same_key; exact Hex).
      apply length_fmap.
    + rewrite bool_decide_eq_false_2.
      * rewrite length_app, length_fmap. simpl. lia.
      * intros H. apply existsb_same_key in H. congruence.
Qed.

Lemma upsert_keeps_one_row_per_key_witness :
  filter (fun it => cart_key it = cart_key (Sample.cart_item "u1" "p1" 7))
         (upsert (Sample.cart_item "u1" "p1" 7) (Store.cart_items Sample.store))
  = [Sample.cart_item "u1" "p1" 7].
Proof.
  apply (upsert_keeps_one_row_per_key (Sample.cart_item "u1" "p1" 7)
           (Store.cart_items Sample.store)).
  apply (bool_decide_unpack _). vm_compute. exact I.
Defined.

End CartUpsert.

Section AddToCart.

Import ProductDetail.

Lemma variant_payload (v : option VariantOption.t) :
  (fun v => {| VariantOption.label := VariantOption.label v;
               VariantOption.image_url := VariantOption.image_url v |}) <$> v = v.
Proof. destruct v as [[l i]|]; reflexivity. Qed.

Lemma addToCart_ok (st : State) (s : Store.t) (u : Checkout.User) (p : Product.t) :
  user st = Some u -> product st = Some p -> selectionMissing st = false ->
  run (addToCart st None) s
  = (Store.with_cart_items (upsert (cart_row st u p)) s, Return ()).
Proof.
  intros Hu Hp Hsel. apply orb_false_iff in Hsel as [Hv Hm].
  unfold run, addToCart, bind, Backend.write. rewrite Hu, Hp, Hv, Hm.
  unfold cart_row. rewrite variant_payload. reflexivity.
Qed.

(** X13: adding to the cart succeeds exactly when the user is logged in,
    the product is loaded, no selection that the product asks for is
    missing, and the store accepts the upsert; nothing else is looked at:
    not the stock of the product, nor whether it is active. When it
    succeeds the cart of the store is upserted with the row of the page;
    when it throws, the store is what it was. *)
Theorem addToCart_outcome (st : State) (r : Backend.resp) (s : Store.t) :
  ((exists s', run (addToCart st r) s = (s', Return ()))
   <-> is_Some (user st) /\ is_Some (product st)
       /\ selectionMissing st = false /\ r = None)
  /\ (forall u p, user st = Some u -> product st = Some p ->
        selectionMissing st = false ->
        run (addToCart st None) s
        = (Store.with_cart_items (upsert (cart_row st u p)) s, Return ()))
  /\ (forall e s', run (addToCart st r) s = (s', Throw e) -> s' = s).
Proof.
  split; [|split].
  - split.
    + intros [s' H]. unfold run, addToCart, bind, Backend.write, selectionMissing in *.
      destruct (user st) as [u|]; [|discriminate H].
      destruct (product st) as [p|]; [|discriminate H].
      destruct (hasVariants st && _); [discriminate H|].
      destruct (hasMeasurements st && _); [discriminate H|].
      destruct r as [err|]; [discriminate H|].
      repeat split; eexists; reflexivity.
    + intros ([u Hu] & [p Hp] & Hsel & ->). eexists.
      apply (addToCart_ok st s u p Hu Hp Hsel).
  - intros u p. apply addToCart_ok.
  - intros e s'. unfold run, addToCart, bind, Backend.write.
    destruct (user st) as [u|]; [|intros [= <- _]; reflexivity].
    destruct (product st) as [p|]; [|intros [= <- _]; reflexivity].
    destruct (hasVariants st && _); [intros [= <- _]; reflexivity|].
    destruct (hasMeasurements st && _); [intros [= <- _]; reflexivity|].
    destruct r as [err|]; [intros [= <- _]; reflexivity|].
    intros H. discriminate H.
Qed.

Lemma addToCart_outcome_witness :
  let st := {| id := "p1"; user := Some Sample.alice;
               product := Some (Sample.product "p1" "Sunflower oil" (Some 500) None);
               quantity := 4; rating := 5%Z; comment := "";
               selectedVariant := None; selectedMeasurement := None |} in
  exists s', run (addToCart st None) Sample.store = (s', Return ())
             /\ Store.cart_items s'
                = [Sample.cart_item "u1" "p1" 4; Sample.cart_item "u2" "p1" 1;
                   Sample.cart_item "u1" "p2" 3].
Proof.
  intros st.
  destruct (addToCart_outcome st None Sample.store) as (_ & H & _).
  eexists. split.
  - apply (H Sample.alice (Sample.product "p1" "Sunflower oil" (Some 500) None));
      reflexivity.
  - reflexivity.
Defined.

Lemma setQuantity_ge_1 (q : Q) (ev : QuantityEvent) : 1 <= q -> 1 <= setQuantity q ev.
Proof.
  intros H. destruct ev as [| |parsed]; unfold setQuantity, Js.Math_max.
  - apply Q.le_max_l.
  - lra.
  - apply Q.le_max_l.
Qed.

(** X14: the quantity of the product page never falls below 1. Whatever
    the user does with the minus button, the plus button and the number
    input (text that is not a number, 0 or a negative number included),
    the quantity stays at 1 or more, and so does the quantity of the cart
    row that the page then writes. *)
Theorem quantity_at_least_one (evs : list QuantityEvent) (st : State)
    (u : Checkout.User) (p : Product.t) :
  1 <= fold_left setQuantity evs initialQuantity
  /\ 1 <= CartItem.quantity_litres
            (cart_row (with_quantity (fold_left setQuantity evs initialQuantity) st) u p).
Proof.
  assert (forall q, 1 <= q -> 1 <= fold_left setQuantity evs q) as H.
  { induction evs as [|ev evs IH]; intros q Hq; [exact Hq|].
    apply IH. apply setQuantity_ge_1. exact Hq. }
  split; apply H; unfold initialQuantity; lra.
Qed.

Example quantity_controls :
  fold_left setQuantity [Minus; Typed None; Typed (Some (-3)%Z); Typed (Some 0%Z)]
            initialQuantity == 1
  /\ fold_left setQuantity [Typed (Some 5%Z); Minus; Plus; Plus] initialQuantity == 6.
Proof. split; reflexivity. Qed.

End AddToCart.

Section Selections.

Import ProductDetail.

(** X15: the variant options that the product page offers are the stored
    options whose label is not blank, with the label trimmed: each has a
    label that is not empty and an image that is not the empty string, and
    there are at most as many as are stored. *)
Theorem parseVariantOptions_clean (values : option (list VariantOption.t)) :
  parseVariantOptions None = []
  /\ Forall (fun o =>
               VariantOption.label o <> ""
               /\ VariantOption.image_url o <> Some ""
               /\ exists v, v ∈ default [] values
                            /\ VariantOption.label o = Js.trim (VariantOption.label v))
            (parseVariantOptions values)
  /\ (length (parseVariantOptions values) <= length (default [] values))%nat.
Proof.
  split; [reflexivity|].
  destruct values as [vs|]; [|split; [constructor|reflexivity]].
  cbn [parseVariantOptions from_option]. unfold Datatypes.id. split.
  - apply Forall_forall. intros o Ho.
    apply list_elem_of_omap in Ho as (v & Hv & Hf).
    destruct (Js.truthy_str (Js.trim (VariantOption.label v))) eqn:Ht; [|discriminate Hf].
    injection Hf as <-. cbn [VariantOption.label VariantOption.image_url].
    split; [apply truthy_str_ne; exact Ht|].
    split; [|eauto].
    unfold Js.or_null, Js.or_str.
    destruct (VariantOption.image_url v) as [i|]; [|discriminate].
    destruct (Js.truthy_str i) eqn:Hi; [|discriminate].
    intros [= ->]. discriminate Hi.
  - induction vs as [|v vs IH]; [reflexivity|].
    cbn [omap list_omap]. destruct (Js.truthy_str _); simpl; lia.
Qed.

Lemma syncVariant_selects (st : State) :
  hasVariants st = true ->
  exists o, selectedVariant (syncVariant st) = Some o
            /\ VariantOption.label o ∈ VariantOption.label <$> variantOptions st.
Proof.
  intros Hv. cbn [syncVariant with_selection selectedVariant]. rewrite Hv. cbn [negb].
  assert (exists o, head (variantOptions st) = Some o
                    /\ VariantOption.label o ∈ VariantOption.label <$> variantOptions st)
    as Hhead.
  { unfold hasVariants in Hv. destruct (product st); [|discriminate Hv].
    apply andb_true_iff in Hv as [_ Hlen]. apply Nat.ltb_lt in Hlen.
    destruct (variantOptions st) as [|o os]; [simpl in Hlen; lia|].
    exists o. split; [reflexivity|]. rewrite fmap_cons. constructor. }
  destruct (selectedVariant st) as [prev|]; [|exact Hhead].
  destruct (existsb _ (variantOptions st)) eqn:Hex; [|exact Hhead].
  exists prev. split; [reflexivity|].
  apply existsb_exists in Hex as (o & Ho & Heq). apply String.eqb_eq in Heq.
  rewrite <- Heq. apply list_elem_of_fmap. exists o.
  split; [reflexivity | apply list_elem_of_In; exact Ho].
Qed.

Lemma or_null_head_falsy (l : list string) :
  l <> [] -> Js.truthy_str (default "" (Js.or_null (head l))) = false ->
  head l = Some "".
Proof.
  intros Hne. destruct l as [|v l]; [contradiction|]. cbn [head].
  unfold Js.or_null, Js.or_str. destruct (Js.truthy_str v) eqn:Hv.
  - cbn [from_option]. unfold Datatypes.id. congruence.
  - intros _. unfold Js.truthy_str in Hv.
    apply negb_false_iff, String.eqb_eq in Hv. rewrite Hv. reflexivity.
Qed.

Lemma syncMeasurement_selects (st : State) :
  hasMeasurements st = true ->
  Js.truthy_str (default "" (selectedMeasurement (syncMeasurement st))) = false ->
  head (measurementValues st) = Some "".
Proof.
  intros Hm. cbn [syncMeasurement with_selection selectedMeasurement]. rewrite Hm.
  cbn [negb].
  assert (measurementValues st <> []) as Hne.
  { unfold hasMeasurements in Hm. destruct (product st); [|discriminate Hm].
    apply andb_true_iff in Hm as [_ Hlen]. apply Nat.ltb_lt in Hlen.
    intros E. rewrite E in Hlen. simpl in Hlen. lia. }
  destruct (selectedMeasurement st) as [prev|]; [|apply (or_null_head_falsy _ Hne)].
  destruct (Js.truthy_str prev && _) eqn:Hkeep; [|apply (or_null_head_falsy _ Hne)].
  apply andb_true_iff in Hkeep as [Ht _]. cbn [from_option]. unfold Datatypes.id.
  congruence.
Qed.

(** X16: after the two selection effects of the product page have run, the
    selected variant is none when the product has no variants, and
    otherwise an option whose label is among the labels offered; and a
    selection is still missing (which disables the Add to Cart button) only
    when the product has measurements of which the first value is the empty
    string. *)
Theorem selection_after_effects (st : State) :
  let st' := syncMeasurement (syncVariant st) in
  (hasVariants st = false -> selectedVariant st' = None)
  /\ (hasVariants st = true ->
      exists o, selectedVariant st' = Some o
                /\ VariantOption.label o ∈ VariantOption.label <$> variantOptions st)
  /\ (selectionMissing st' = true ->
      hasMeasurements st = true /\ head (measurementValues st) = Some "").
Proof.
  cbv zeta.
  change (selectedVariant (syncMeasurement (syncVariant st)))
    with (selectedVariant (syncVariant st)).
  split; [|split].
  - intros Hv. cbn [syncVariant with_selection selectedVariant]. rewrite Hv. reflexivity.
  - apply syncVariant_selects.
  - unfold selectionMissing.
    change (selectedVariant (syncMeasurement (syncVariant st)))
      with (selectedVariant (syncVariant st)).
    change (hasVariants (syncMeasurement (syncVariant st))) with (hasVariants st).
    change (hasMeasurements (syncMeasurement (syncVariant st))) with (hasMeasurements st).
    change (selectedMeasurement (syncMeasurement (syncVariant st)))
      with (selectedMeasurement (syncMeasurement st)).
    intros H. apply orb_true_iff in H as [H|H].
    + apply andb_true_iff in H as [Hv Hnone].
      destruct (syncVariant_selects st Hv) as (o & Ho & _). rewrite Ho in Hnone.
      rewrite bool_decide_eq_true_2 in Hnone by (eexists; reflexivity).
      discriminate Hnone.
    + apply andb_true_iff in H as [Hm Hfalsy]. split; [exact Hm|].
      apply negb_true_iff in Hfalsy. apply (syncMeasurement_selects st Hm Hfalsy).
Qed.

Lemma selection_after_effects_witness :
  let p := {| Product.id := "p1"; Product.name := "Oil"; Product.description := None;
              Product.image_url := None; Product.price_per_litre := Some 500;
              Product.offer_price_per_litre := None; Product.stock_quantity := 5%Z;
              Product.category_id := None; Product.variant_enabled := true;
              Product.variant_title := Some "Pack";
              Product.variant_values :=
                Some [ {| VariantOption.label := " Tin "; VariantOption.image_url := None |};
                       {| VariantOption.label := "Pouch"; VariantOption.image_url := None |} ];
              Product.measurement_enabled := true; Product.measurement_title := Some "Size";
              Product.measurement_values := Some ["1 L"; "5 L"];
              Product.is_active := true; Product.featured_in_offers := false |} in
  let st := {| id := "p1"; user := Some Sample.alice; product := Some p;
               quantity := 1; rating := 5%Z; comment := "";
               selectedVariant := None; selectedMeasurement := None |} in
  (exists o, selectedVariant (syncMeasurement (syncVariant st)) = Some o
             /\ VariantOption.label o ∈ ["Tin"; "Pouch"])
  /\ selectionMissing (syncMeasurement (syncVariant st)) = false.
Proof.
  intros p st.
  destruct (selection_after_effects st) as (_ & Hv & Hm).
  split; [apply Hv; reflexivity|].
  destruct (selectionMissing (syncMeasurement (syncVariant st))) eqn:E; [|reflexivity].
  destruct (Hm eq_refl) as [_ H]. discriminate H.
Defined.

End Selections.

(** ** The product page: what is displayed *)

Section ProductView.

Import ProductDetail.

Lemma rating_sum_bounds (lo hi : Z) (l : list Review.t) (a : Q) :
  Forall (fun r => (lo <= Review.rating r <= hi)%Z) l ->
  a + inject_Z lo * inject_Z (Z.of_nat (length l))
  <= Js.reduce (fun acc r => acc + inject_Z (Review.rating r)) a l
  /\ Js.reduce (fun acc r => acc + inject_Z (Review.rating r)) a l
     <= a + inject_Z hi * inject_Z (Z.of_nat (length l)).
Proof.
  unfold Js.reduce. intros H. revert a.
  induction H as [|r l [Hlo Hhi] _ IH]; intros a.
  - cbn [fold_left length]. change (inject_Z (Z.of_nat 0)) with 0. split; lra.
  - cbn [fold_left length]. rewrite Nat2Z.inj_succ, <- Z.add_1_r, inject_Z_plus.
    destruct (IH (a + inject_Z (Review.rating r))) as [IH1 IH2].
    assert (inject_Z lo <= inject_Z (Review.rating r)) by (rewrite <- Zle_Qle; exact Hlo).
    assert (inject_Z (Review.rating r) <= inject_Z hi) by (rewrite <- Zle_Qle; exact Hhi).
    change (inject_Z 1) with 1. split; lra.
Qed.

(** X17: the average rating shown on the product page is 0 when there is
    no review (none loaded, or an empty list), and otherwise lies between
    the lowest and the highest rating: with ratings from 1 to 5, between 1
    and 5. *)
Theorem averageRating_bounds (lo hi : Z) (reviews : list Review.t) :
  averageRating None = 0 /\ averageRating (Some []) = 0
  /\ (reviews <> [] ->
      Forall (fun r => (lo <= Review.rating r <= hi)%Z) reviews ->
      inject_Z lo <= averageRating (Some reviews)
      /\ averageRating (Some reviews) <= inject_Z hi).
Proof.
  split; [reflexivity|]. split; [reflexivity|].
  intros Hne Hall. destruct reviews as [|r rs]; [contradiction|].
  unfold averageRating.
  destruct (rating_sum_bounds lo hi (r :: rs) 0 Hall) as [H1 H2].
  assert (0 < inject_Z (Z.of_nat (length (r :: rs)))) as Hpos.
  { change 0 with (inject_Z 0). rewrite <- Zlt_Qlt. simpl. lia. }
  split.
  - apply Qle_shift_div_l; [exact Hpos|]. lra.
  - apply Qle_shift_div_r; [exact Hpos|]. lra.
Qed.

Lemma averageRating_bounds_witness :
  1 <= averageRating (Some [ {| Review.product_id := "p1"; Review.user_id := "u1";
                                Review.rating := 5%Z; Review.comment := "good" |};
                             {| Review.product_id := "p1"; Review.user_id := "u2";
                                Review.rating := 2%Z; Review.comment := "" |} ])
  /\ averageRating (Some [ {| Review.product_id := "p1"; Review.user_id := "u1";
                              Review.rating := 5%Z; Review.comment := "good" |};
                           {| Review.product_id := "p1"; Review.user_id := "u2";
                              Review.rating := 2%Z; Review.comment := "" |} ]) <= 5.
Proof.
  apply (averageRating_bounds 1 5).
  - discriminate.
  - repeat constructor; simpl; lia.
Defined.

Lemma Math_round_bounds (x : Q) (lo hi : Z) :
  inject_Z lo <= x -> x <= inject_Z hi -> (lo <= Js.Math_round x <= hi)%Z.
Proof.
  intros Hlo Hhi. unfold Js.Math_round. split.
  - rewrite <- (Qfloor_Z lo). apply Qfloor_resp_le. lra.
  - assert (x + (1 # 2) < inject_Z (hi + 1)) as Hlt.
    { rewrite inject_Z_plus. change (inject_Z 1) with 1. lra. }
    assert (inject_Z (Qfloor (x + (1 # 2))) < inject_Z (hi + 1)) as Hf.
    { eapply Qle_lt_trans; [apply Qfloor_le | exact Hlt]. }
    rewrite <- Zlt_Qlt in Hf. lia.
Qed.

(** X18: the discount badge of the product page. When the product has an
    offer price above 0 and below the list price, the page shows the offer
    price as the price, strikes the list price through, and the percentage
    on the badge lies between 0 and 100. When the offer price is not below
    the list price there is no badge and no strike-through (the percentage
    is 0), and the price shown is still the offer price. *)
Theorem discount_badge (p : Product.t) (offer list_price : Q) :
  Product.offer_price_per_litre p = Some offer ->
  Product.price_per_litre p = Some list_price ->
  0 < offer ->
  effectivePrice p = Some offer
  /\ (hasDiscount p = true <-> offer < list_price)
  /\ (offer < list_price -> (0 <= discountPercentage p <= 100)%Z)
  /\ (list_price <= offer -> discountPercentage p = 0%Z).
Proof.
  intros Ho Hl Hpos.
  assert (Js.truthy offer = true) as Ht by (apply truthy_true; lra).
  assert (hasDiscount p = true <-> offer < list_price) as Hd.
  { unfold hasDiscount. rewrite Ho, Hl. cbn [Js.truthy_opt from_option].
    unfold Datatypes.id. rewrite Ht. cbn [andb]. rewrite negb_true_iff. split.
    - intros H. apply Qnot_le_lt. intros Hle. apply Qle_bool_iff in Hle. congruence.
    - intros H. destruct (Qle_bool list_price offer) eqn:E; [|reflexivity].
      apply Qle_bool_iff in E. lra. }
  split; [|split; [exact Hd|split]].
  - unfold effectivePrice. rewrite Ho. cbn [Js.or]. rewrite Ht. reflexivity.
  - intros Hlt. unfold discountPercentage. rewrite (proj2 Hd Hlt), Ho, Hl.
    cbn [from_option]. unfold Datatypes.id.
    assert (0 < list_price) as Hlp by lra.
    apply Math_round_bounds.
    + change (inject_Z 0) with 0.
      apply Qmult_le_0_compat; [|lra].
      apply Qle_shift_div_l; [exact Hlp|]. lra.
    + change (inject_Z 100) with 100.
      assert ((list_price - offer) / list_price <= 1) as H1.
      { apply Qle_shift_div_r; [exact Hlp|]. lra. }
      lra.
  - intros Hle. unfold discountPercentage.
    destruct (hasDiscount p); [|reflexivity].
    assert (offer < list_price) by (apply Hd; reflexivity). lra.
Qed.

Lemma discount_badge_witness :
  let p := Sample.product "p1" "Sunflower oil" (Some 500) (Some 450) in
  discountPercentage p = 10%Z /\ (0 <= discountPercentage p <= 100)%Z.
Proof.
  intros p. split; [reflexivity|].
  apply (discount_badge p 450 500); reflexivity.
Defined.

End ProductView.

(** ** The admin product page *)

Section SaveProduct.

Import AdminProducts.

Lemma truthy_trim (s : string) : Js.truthy_str (Js.trim s) = true -> Js.truthy_str s = true.
Proof. destruct s; [intros H; discriminate H | reflexivity]. Qed.

Lemma validate_ok (f : ProductFormState) :
  validate f = None ->
  Js.truthy_str (name f) = true
  /\ is_Some (price_per_litre f) /\ is_Some (stock_quantity f)
  /\ (variant_enabled f = true ->
      Js.truthy_str (variant_title f) = true /\ variant_values f <> [])
  /\ (measurement_enabled f = true ->
      Js.truthy_str (measurement_title f) = true /\ measurement_values f <> []).
Proof.
  unfold validate.
  destruct (Js.truthy_str (name f)); [|intros H; discriminate H].
  destruct (price_per_litre f) as [pr|]; [|intros H; discriminate H].
  destruct (stock_quantity f) as [st|]; [|intros H; discriminate H].
  rewrite !bool_decide_eq_true_2 by (eexists; reflexivity). cbn [negb orb].
  intros H. split; [reflexivity|]. split; [eexists; reflexivity|].
  split; [eexists; reflexivity|].
  destruct (variant_enabled f); cbn [andb] in H.
  - destruct (Js.truthy_str (Js.trim (variant_title f))) eqn:Ht; [|discriminate H].
    cbn [negb] in H. destruct (variant_values f) as [|v vs] eqn:Hv; [discriminate H|].
    cbn [length Nat.eqb] in H.
    split; [intros _; split; [apply truthy_trim; exact Ht | discriminate]|].
    destruct (measurement_enabled f); cbn [andb] in H; [|intros E; discriminate E].
    destruct (Js.truthy_str (Js.trim (measurement_title f))) eqn:Hm; [|discriminate H].
    cbn [negb] in H. destruct (measurement_values f); [discriminate H|].
    intros _. split; [apply truthy_trim; exact Hm | discriminate].
  - split; [intros E; discriminate E|].
    destruct (measurement_enabled f); cbn [andb] in H; [|intros E; discriminate E].
    destruct (Js.truthy_str (Js.trim (measurement_title f))) eqn:Hm; [|discriminate H].
    cbn [negb] in H. destruct (measurement_values f); [discriminate H|].
    intros _. split; [apply truthy_trim; exact Hm | discriminate].
Qed.

(** X19: a product row written from a form that passes the checks of the
    admin page is consistent: it has a name and a list price, and its
    variant title and values (and likewise its measurement title and
    values) are present exactly when the switch is on, the values being
    then not empty; data typed while the switch was on and left in the form
    is not saved once the switch is off. *)
Theorem saved_product_is_consistent (f : ProductFormState) (pid : Id) :
  validate f = None ->
  Product.name (payload f pid) <> ""
  /\ is_Some (Product.price_per_litre (payload f pid))
  /\ consistent_options (payload f pid).
Proof.
  intros Hv. destruct (validate_ok f Hv) as (Hn & Hp & _ & Hvar & Hmea).
  split; [apply truthy_str_ne; exact Hn|]. split; [exact Hp|].
  unfold consistent_options, payload.
  cbn [Product.variant_enabled Product.variant_title Product.variant_values
       Product.measurement_enabled Product.measurement_title Product.measurement_values].
  destruct (variant_enabled f) eqn:Eve; destruct (measurement_enabled f) eqn:Eme;
    cbn [andb];
    repeat match goal with
           | H : true = true -> _ |- _ => specialize (H eq_refl); destruct H as [? ?]
           | H : Js.truthy_str ?t = true |- context [Js.truthy_str ?t] => rewrite H
           | Hne : ?l <> [] |- context [(0 <? length ?l)%nat] =>
               let E := fresh in
               assert ((0 <? length l)%nat = true) as E
                 by (destruct l; [contradiction | reflexivity]);
               rewrite E
           end;
    repeat split; intros; try discriminate; try (eexists; reflexivity);
    try match goal with H : is_Some None |- _ => destruct H; discriminate end.
  - destruct (variant_values f); [contradiction | discriminate].
  - destruct (measurement_values f); [contradiction | discriminate].
  - destruct (variant_values f); [contradiction | discriminate].
  - destruct (measurement_values f); [contradiction | discriminate].
Qed.

Lemma saved_product_is_consistent_witness :
  Product.measurement_values (payload Sample.form "p7") = None
  /\ consistent_options (payload Sample.form "p7").
Proof.
  split; [reflexivity|].
  apply (saved_product_is_consistent Sample.form "p7"). reflexivity.
Defined.

Lemma saveProduct_update_run (st : State) (e : Env) (s : Store.t) (ep : Product.t) :
  validate (formData st) = None -> editingProduct st = Some ep -> update_resp e = None ->
  run (saveProduct st e) s
  = (Store.with_products
       (fmap (fun p => if bool_decide (Product.id p = Product.id ep)
                       then payload (formData st) (Product.id p) else p)) s,
     Return ()).
Proof.
  intros Hv He Hr. unfold run, saveProduct, bind, Backend.write.
  rewrite Hv, He, Hr. reflexivity.
Qed.

(** X20: saving an edited product, when the form is valid and the store
    accepts, rewrites in place the rows that have the identifier of the
    edited product and no other: the table keeps its length and its
    identifiers, in order; every row is either the row it was or, if it
    has that identifier, the row of the form; every other table is
    untouched. When no row has the identifier (the product was deleted
    meanwhile) the save still succeeds and the table is what it was. *)
Theorem saveProduct_update_in_place (st : State) (e : Env) (s : Store.t) (ep : Product.t) :
  validate (formData st) = None -> editingProduct st = Some ep -> update_resp e = None ->
  exists s',
    run (saveProduct st e) s = (s', Return ())
    /\ Product.id <$> Store.products s' = Product.id <$> Store.products s
    /\ (forall i p, Store.products s !! i = Some p ->
          Store.products s' !! i
          = Some (if bool_decide (Product.id p = Product.id ep)
                  then payload (formData st) (Product.id ep) else p))
    /\ only_products s s'
    /\ ((forall p, p ∈ Store.products s -> Product.id p <> Product.id ep) ->
        Store.products s' = Store.products s).
Proof.
  intros Hv He Hr. eexists. split; [apply (saveProduct_update_run st e s ep Hv He Hr)|].
  cbn [Store.with_products Store.products].
  split; [|split; [|split]].
  - rewrite <- list_fmap_compose. apply list_fmap_ext. intros i p _. cbn.
    destruct (bool_decide (Product.id p = Product.id ep)); reflexivity.
  - intros i p Hi. rewrite list_lookup_fmap, Hi. cbn.
    destruct (bool_decide (Product.id p = Product.id ep)) eqn:E; [|reflexivity].
    apply bool_decide_eq_true in E. rewrite E. reflexivity.
  - repeat split.
  - intros Hno. rewrite <- (list_fmap_id (Store.products s)) at 2.
    apply list_fmap_ext. intros i p Hi.
    rewrite bool_decide_eq_false_2; [reflexivity|].
    apply Hno. apply list_elem_of_lookup. eauto.
Qed.

Lemma saveProduct_update_in_place_witness :
  exists s',
    run (saveProduct {| editingProduct := Some (Sample.product "p1" "" None None);
                        formData := Sample.form |}
                     {| update_resp := None; insert_resp := inl "p3" |}) Sample.store
    = (s', Return ())
    /\ Product.price_per_litre <$> Store.products s' = [Some 900].
Proof.
  destruct (saveProduct_update_in_place
              {| editingProduct := Some (Sample.product "p1" "" None None);
                 formData := Sample.form |}
              {| update_resp := None; insert_resp := inl "p3" |} Sample.store
              (Sample.product "p1" "" None None))
    as (s' & Hrun & _ & Hrows & _); try reflexivity.
  exists s'. split; [exact Hrun|].
  pose proof (Hrows 0%nat _ eq_refl) as H0.
  destruct (Store.products s') as [|p [|q l]] eqn:E.
  - discriminate H0.
  - injection H0 as ->. reflexivity.
  - exfalso.
    pose proof (f_equal fst Hrun) as Hs. cbn in Hs. rewrite <- Hs in E. discriminate E.
Defined.

(** Saving a form that fails a check throws the error of the check and
    leaves the store as it was; saving a new product from a valid form,
    when the store accepts, appends the row of the form with the identifier
    that the store gives. *)
Lemma saveProduct_insert_appends (st : State) (e : Env) (s : Store.t) :
  (forall err, validate (formData st) = Some err ->
     run (saveProduct st e) s = (s, Throw err))
  /\ (forall pid, validate (formData st) = None -> editingProduct st = None ->
        insert_resp e = inl pid ->
        exists s',
          run (saveProduct st e) s = (s', Return ())
          /\ Store.products s' = Store.products s ++ [payload (formData st) pid]
          /\ only_products s s')
  /\ (forall err, validate (formData st) = None -> editingProduct st = None ->
        insert_resp e = inr err ->
        run (saveProduct st e) s = (s, Throw (StoreError err))).
Proof.
  split; [|split].
  - intros err Hv. unfold run, saveProduct. rewrite Hv. reflexivity.
  - intros pid Hv He Hi. eexists.
    unfold run, saveProduct, bind, Backend.write. rewrite Hv, He, Hi.
    split; [reflexivity|]. split; [reflexivity|]. repeat split.
  - intros err Hv He Hi. unfold run, saveProduct. rewrite Hv, He, Hi. reflexivity.
Qed.

End SaveProduct.

Section DeleteProduct.

Import AdminProducts.




End DeleteProduct.

Section VariantForm.

Import AdminProducts.

Lemma filter_from_delete {A} (index k : nat) (l : list A) :
  Js.filter_from (fun _ i => negb (i =? k + index)%nat) k l = delete index l.
Proof.
  revert index k. induction l as [|x l IH]; intros index k; [destruct index; reflexivity|].
  cbn [Js.filter_from]. destruct index as [|index].
  - rewrite Nat.add_0_r, Nat.eqb_refl. cbn [negb delete list_delete].
    clear IH. assert (forall j, (k < j)%nat ->
                        Js.filter_from (fun _ i => negb (i =? k)%nat) j l = l) as H.
    { induction l as [|y l IHl]; intros j Hj; [reflexivity|].
      cbn [Js.filter_from]. replace (j =? k)%nat with false
        by (symmetry; apply Nat.eqb_neq; lia).
      cbn [negb]. rewrite IHl by lia. reflexivity. }
    apply H. lia.
  - replace (k =? k + S index)%nat with false by (symmetry; apply Nat.eqb_neq; lia).
    cbn [negb delete list_delete]. f_equal.
    replace (k + S index)%nat with (S k + index)%nat by lia. apply IH.
Qed.

(** X22: removing a variant (or a measurement value) from the form by its
    index removes exactly the entry at that index: the entries before it
    stay, the entries after it move up by one, and an index beyond the end
    removes nothing. *)
Theorem remove_value_at_index (index : nat) (f : ProductFormState) :
  variant_values (removeVariantValue index f) = delete index (variant_values f)
  /\ measurement_values (removeMeasurementValue index f)
     = delete index (measurement_values f)
  /\ (forall j, (j < index)%nat ->
        variant_values (removeVariantValue index f) !! j = variant_values f !! j)
  /\ (forall j, (index <= j)%nat ->
        variant_values (removeVariantValue index f) !! j = variant_values f !! S j)
  /\ ((length (variant_values f) <= index)%nat -> removeVariantValue index f = f).
Proof.
  assert (variant_values (removeVariantValue index f) = delete index (variant_values f))
    as Hv by apply (filter_from_delete index 0).
  split; [exact Hv|].
  split; [apply (filter_from_delete index 0)|].
  split; [intros j Hj; rewrite Hv; apply list_lookup_delete_lt; exact Hj|].
  split; [intros j Hj; rewrite Hv; apply list_lookup_delete_ge; exact Hj|].
  intros Hlen. unfold removeVariantValue.
  change (Js.filter_indexed (fun _ i => negb (i =? index)%nat) (variant_values f))
    with (variant_values (removeVariantValue index f)).
  rewrite Hv.
  assert (delete index (variant_values f) = variant_values f) as ->.
  { apply list_eq. intros j. rewrite list_lookup_delete.
    destruct (decide (j < index)%nat); [reflexivity|].
    rewrite !lookup_ge_None_2 by lia. reflexivity. }
  destruct f; reflexivity.
Qed.

Lemma remove_value_at_index_witness :
  variant_values (removeVariantValue 0 Sample.form)
  = [ {| VariantOption.label := "Pouch"; VariantOption.image_url := None |} ]
  /\ removeVariantValue 2 Sample.form = Sample.form.
Proof.
  split; [reflexivity|].
  apply (remove_value_at_index 2 Sample.form). simpl. lia.
Defined.

End VariantForm.

(** ** The admin product page: the variants of the form *)

Section VariantLabels.

Import AdminProducts.

(** X23: adding a variant to the form never adds a blank label nor a
    label that the form already has, up to the case of its letters: labels
    that were all different up to case stay so, labels that were not empty
    stay so, the entries already there are not touched, and when the input
    is blank or its label is already there, neither the form nor the input
    changes. *)
Theorem addVariantValue_keeps_labels_distinct (variantValueInput : string)
    (f : ProductFormState) :
  let f' := fst (addVariantValue variantValueInput f) in
  (NoDup (variant_keys f) -> NoDup (variant_keys f'))
  /\ (Forall (fun v => VariantOption.label v <> "") (variant_values f) ->
      Forall (fun v => VariantOption.label v <> "") (variant_values f'))
  /\ (f' = f /\ snd (addVariantValue variantValueInput f) = variantValueInput
      \/ variant_values f'
         = variant_values f
           ++ [ {| VariantOption.label := Js.trim variantValueInput;
                   VariantOption.image_url := None |} ]
         /\ snd (addVariantValue variantValueInput f) = ""
         /\ Js.trim variantValueInput <> ""
         /\ Js.toLowerCase (Js.trim variantValueInput) ∉ variant_keys f)
  /\ (Js.trim variantValueInput = ""
      \/ Js.toLowerCase (Js.trim variantValueInput) ∈ variant_keys f ->
      addVariantValue variantValueInput f = (f, variantValueInput)).
Proof.
  cbv zeta. unfold addVariantValue.
  destruct (Js.truthy_str (Js.trim variantValueInput)) eqn:Ht; cbn [negb].
  2:{ cbn [fst snd]. repeat split; auto. }
  assert (existsb (fun variant =>
                     String.eqb (Js.toLowerCase (VariantOption.label variant))
                                (Js.toLowerCase (Js.trim variantValueInput)))
                  (variant_values f) = true
          <-> Js.toLowerCase (Js.trim variantValueInput) ∈ variant_keys f) as Hex.
  { unfold variant_keys. rewrite existsb_exists, list_elem_of_fmap. split.
    - intros (v & Hv & E). apply String.eqb_eq in E. exists v.
      split; [symmetry; exact E | apply list_elem_of_In; exact Hv].
    - intros (v & E & Hv). exists v.
      split; [apply list_elem_of_In; exact Hv | apply String.eqb_eq; symmetry; exact E]. }
  destruct (existsb _ (variant_values f)) eqn:Hdup; cbn [fst snd].
  { repeat split; auto. }
  assert (Js.toLowerCase (Js.trim variantValueInput) ∉ variant_keys f) as Hnew.
  { intros Hin. apply Hex in Hin. discriminate Hin. }
  pose proof (truthy_str_ne _ Ht) as Hne.
  split; [|split; [|split]].
  - intros Hnd. unfold variant_keys. cbn [with_variant_values variant_values].
    rewrite fmap_app. apply NoDup_app. split; [exact Hnd|].
    split; [|apply NoDup_singleton].
    intros k Hk Hk'. apply list_elem_of_singleton in Hk'. subst k. contradiction.
  - intros Hall. cbn [with_variant_values variant_values].
    apply Forall_app. split; [exact Hall|]. repeat constructor. exact Hne.
  - right. repeat split; assumption.
  - intros [Hblank|Hin]; [contradiction|]. contradiction.
Qed.

Example addVariantValue_duplicate :
  addVariantValue "  tin " Sample.form = (Sample.form, "  tin ")
  /\ variant_keys (fst (addVariantValue " Bottle " Sample.form)) = ["tin"; "pouch"; "bottle"].
Proof. split; reflexivity. Qed.

Lemma serializeVariantValues_id (vs : list VariantOption.t) : serializeVariantValues vs = vs.
Proof.
  unfold serializeVariantValues. induction vs as [|[l i] vs IH]; [reflexivity|].
  rewrite fmap_cons, IH. reflexivity.
Qed.

Lemma parse_length (vs : list VariantOption.t) :
  length (ProductDetail.parseVariantOptions (Some vs)) = length (filter labelled vs).
Proof.
  cbn [ProductDetail.parseVariantOptions].
  induction vs as [|v vs IH]; [reflexivity|].
  cbn [omap list_omap]. rewrite filter_cons. unfold labelled at 1.
  destruct (Js.truthy_str (Js.trim (VariantOption.label v))) eqn:Ht.
  - rewrite decide_True by (apply truthy_str_ne; exact Ht). cbn [length].
    f_equal. exact IH.
  - rewrite decide_False; [exact IH|].
    intros Hne. unfold Js.truthy_str in Ht.
    apply negb_false_iff, String.eqb_eq in Ht. contradiction.
Qed.

(** X24: which variants of a saved product the product page offers. For a
    product saved from a valid form with the variant switch on, the page
    offers as many options as the form has variants whose label is not
    blank, and it shows the variant selector exactly when there is one
    such variant: a variant whose label was edited to blanks is saved but
    never offered. *)
Theorem saved_variants_offered (f : ProductFormState) (pid : Id) (st : ProductDetail.State) :
  validate f = None -> variant_enabled f = true ->
  ProductDetail.product st = Some (payload f pid) ->
  ProductDetail.variantOptions st
  = ProductDetail.parseVariantOptions (Some (variant_values f))
  /\ length (ProductDetail.variantOptions st) = length (filter labelled (variant_values f))
  /\ (ProductDetail.hasVariants st = true <-> Exists labelled (variant_values f)).
Proof.
  intros Hv Hen Hp. destruct (validate_ok f Hv) as (_ & _ & _ & Hvar & _).
  destruct (Hvar Hen) as [_ Hne].
  assert (ProductDetail.variantOptions st
          = ProductDetail.parseVariantOptions (Some (variant_values f))) as Hopt.
  { unfold ProductDetail.variantOptions. rewrite Hp.
    cbn [mbind option_bind payload Product.variant_values]. rewrite Hen. cbn [andb].
    destruct (variant_values f) as [|v vs] eqn:E; [contradiction|].
    cbn [length Nat.ltb Nat.leb]. rewrite serializeVariantValues_id. reflexivity. }
  split; [exact Hopt|]. split; [rewrite Hopt; apply parse_length|].
  unfold ProductDetail.hasVariants. rewrite Hp.
  cbn [payload Product.variant_enabled]. rewrite Hen. cbn [andb].
  rewrite Hopt, parse_length, Nat.ltb_lt. split.
  - intros Hlen. destruct (filter labelled (variant_values f)) as [|v l] eqn:E;
      [simpl in Hlen; lia|].
    apply Exists_exists. exists v.
    assert (v ∈ filter labelled (variant_values f)) as Hin by (rewrite E; constructor).
    apply list_elem_of_filter in Hin as [Hl Hin]. split; assumption.
  - intros Hex. apply Exists_exists in Hex as (v & Hin & Hl).
    assert (v ∈ filter labelled (variant_values f)) as Hf
      by (apply list_elem_of_filter; split; assumption).
    destruct (filter labelled (variant_values f)); [inversion Hf | simpl; lia].
Qed.

Lemma saved_variants_offered_witness :
  let f := handleVariantLabelChange 0 "  " (removeVariantValue 1 Sample.form) in
  let st := {| ProductDetail.id := "p7"; ProductDetail.user := None;
               ProductDetail.product := Some (payload f "p7");
               ProductDetail.quantity := 1; ProductDetail.rating := 5%Z;
               ProductDetail.comment := ""; ProductDetail.selectedVariant := None;
               ProductDetail.selectedMeasurement := None |} in
  validate f = None
  /\ Product.variant_enabled (payload f "p7") = true
  /\ ProductDetail.hasVariants st = false.
Proof.
  intros f st. split; [reflexivity|]. split; [reflexivity|].
  destruct (saved_variants_offered f "p7" st) as (_ & _ & H); [reflexivity..|].
  apply not_true_is_false. intros E. apply H in E.
  apply Exists_exists in E as (v & Hin & Hl).
  apply list_elem_of_singleton in Hin. subst v. apply Hl. reflexivity.
Defined.

Lemma normalize_normal (vs : list VariantOption.t) :
  Forall normal_variant vs -> normalizeVariantValues (Some vs) = vs.
Proof.
  cbn [normalizeVariantValues]. induction 1 as [|v vs (Htrim & Hne & Himg) _ IH];
    [reflexivity|].
  cbn [omap list_omap]. rewrite Htrim.
  assert (Js.truthy_str (VariantOption.label v) = true) as ->.
  { unfold Js.truthy_str. apply negb_true_iff, String.eqb_neq. exact Hne. }
  rewrite IH. destruct v as [l [i|]]; cbn in *; [|reflexivity].
  unfold Js.or_null, Js.or_str.
  assert (Js.truthy_str i = true) as ->; [|reflexivity].
  unfold Js.truthy_str. apply negb_true_iff, String.eqb_neq. congruence.
Qed.

Lemma or_empty_or_null (s : string) : Js.or_empty (Js.or_null (Some s)) = s.
Proof.
  unfold Js.or_empty, Js.or_null, Js.or_str. destruct (Js.truthy_str s) eqn:E.
  - rewrite E. reflexivity.
  - unfold Js.truthy_str in E. apply negb_false_iff, String.eqb_eq in E.
    symmetry. exact E.
Qed.

(** X25: opening a saved product in the editor and saving it again without
    a change writes the same row. For a product saved from a valid form
    whose variants are normalized (labels trimmed and not empty, no empty
    image), the form that the editor fills from the row is itself valid and
    gives back the row. *)
Theorem edit_then_save_unchanged (f : ProductFormState) (pid : Id) :
  validate f = None -> Forall normal_variant (variant_values f) ->
  exists f',
    handleEdit (payload f pid) = Some f'
    /\ validate f' = None
    /\ payload f' pid = payload f pid.
Proof.
  intros Hv Hnorm. destruct (validate_ok f Hv) as (Hn & [pr Hp] & [sq Hs] & Hvar & Hmea).
  pose proof (normalize_normal _ Hnorm) as Hnormal.
  destruct f as [n d p o q img cat ve vt vv me mt mv act feat].
  cbn [name price_per_litre stock_quantity variant_enabled variant_title variant_values
       measurement_enabled measurement_title measurement_values] in *.
  subst p q.
  unfold handleEdit, payload.
  cbn [name description price_per_litre offer_price_per_litre stock_quantity image_url
       category_id variant_enabled variant_title variant_values measurement_enabled
       measurement_title measurement_values is_active featured_in_offers
       Product.name Product.description Product.price_per_litre
       Product.offer_price_per_litre Product.stock_quantity Product.image_url
       Product.category_id Product.variant_enabled Product.variant_title
       Product.variant_values Product.measurement_enabled Product.measurement_title
       Product.measurement_values Product.is_active Product.featured_in_offers].
  eexists. split; [reflexivity|].
  unfold validate.
  cbn [name description price_per_litre offer_price_per_litre stock_quantity image_url
       category_id variant_enabled variant_title variant_values measurement_enabled
       measurement_title measurement_values is_active featured_in_offers].
  rewrite !or_empty_or_null, Hn.
  rewrite !bool_decide_eq_true_2 by (eexists; reflexivity).
  cbn [negb orb from_option]. unfold Datatypes.id.
  assert (forall t, Js.truthy_str t = true -> Js.or_empty (Some t) = t) as Hoe.
  { intros t Ht. unfold Js.or_empty, Js.or_null, Js.or_str. rewrite Ht. reflexivity. }
  unfold validate in Hv.
  cbn [name price_per_litre stock_quantity variant_enabled variant_title variant_values
       measurement_enabled measurement_title measurement_values] in Hv.
  rewrite Hn in Hv. rewrite !bool_decide_eq_true_2 in Hv by (eexists; reflexivity).
  cbn [negb orb] in Hv.
  destruct ve, me; cbn [andb] in Hv |- *;
    repeat match goal with
           | H : true = true -> _ |- _ => specialize (H eq_refl); destruct H as [? ?]
           | H : false = true -> _ |- _ => clear H
           end;
    repeat match goal with
           | H : Js.truthy_str ?t = true |- _ => rewrite ?H in *; revert H
           end; intros;
    repeat match goal with
           | l : list _ |- _ =>
               match goal with
               | Hne : l <> [] |- _ => destruct l; [contradiction|]
               end
           end;
    cbn [length Nat.ltb Nat.leb Nat.eqb negb andb] in Hv |- *;
    rewrite ?serializeVariantValues_id, ?Hnormal;
    cbn [Js.or_empty Js.or_null Js.or_str from_option length Nat.ltb Nat.leb Nat.eqb
         negb andb];
    unfold Datatypes.id;
    repeat match goal with
           | H : Js.truthy_str ?t = true |- _ => rewrite ?H in *; revert H
           end; intros;
    cbn [length Nat.ltb Nat.leb Nat.eqb negb andb from_option] in Hv |- *;
    rewrite ?serializeVariantValues_id.
  all: repeat match goal with
             | H : Js.truthy_str ?t = true |- context [Js.or_empty (Some ?t)] =>
                 rewrite (Hoe t H)
             end.
  all: repeat match goal with
             | H : Js.truthy_str ?t = true |- context [Js.truthy_str ?t] => rewrite H
             end.
  all: split; [exact Hv || reflexivity | reflexivity].
Qed.

Lemma edit_then_save_unchanged_witness :
  exists f', handleEdit (payload Sample.form "p7") = Some f'
             /\ payload f' "p7" = payload Sample.form "p7".
Proof.
  destruct (edit_then_save_unchanged Sample.form "p7") as (f' & He & _ & Hp).
  - reflexivity.
  - repeat constructor; discriminate.
  - exists f'. split; assumption.
Defined.

End VariantLabels.

(** ** The admin category page *)

Section Slug.

Import AdminCategories.

Lemma slug_char_not_dash (c : ascii) : is_slug_char c = true -> Ascii.eqb c "-" = false.
Proof. destruct c as [[] [] [] [] [] [] [] []]; intros H; try reflexivity; discriminate H. Qed.

Lemma slug_char_lower (c : ascii) : is_slug_char c = true -> Js.lower_ascii c = c.
Proof. destruct c as [[] [] [] [] [] [] [] []]; intros H; try reflexivity; discriminate H. Qed.

Lemma replace_runs_dashed (b : bool) (s : string) : dashed_body b (replace_runs b s) = true.
Proof.
  revert b. induction s as [|c s IH]; intros b; [reflexivity|].
  cbn [replace_runs]. destruct (is_slug_char c) eqn:E.
  - cbn [dashed_body]. rewrite E. apply IH.
  - destruct b; [apply IH|]. cbn [dashed_body]. apply IH.
Qed.

Lemma strip_leading_dashed (b : bool) (s : string) :
  dashed_body b s = true -> dashed_body true (strip_leading_dashes s) = true.
Proof.
  revert b. induction s as [|c s IH]; intros b H; [reflexivity|].
  cbn [strip_leading_dashes]. cbn [dashed_body] in H.
  destruct (is_slug_char c) eqn:E.
  - rewrite (slug_char_not_dash c E). cbn [dashed_body]. rewrite E. exact H.
  - apply andb_true_iff in H as [H Hr]. apply andb_true_iff in H as [Hd _].
    rewrite Hd. apply (IH true Hr).
Qed.

Lemma strip_trailing_slug (b : bool) (s : string) :
  dashed_body b s = true ->
  strip_trailing_dashes s = "" \/ slug_body b (strip_trailing_dashes s) = true.
Proof.
  revert b. induction s as [|c s IH]; intros b H; [left; reflexivity|].
  cbn [dashed_body] in H. cbn [strip_trailing_dashes].
  destruct (is_slug_char c) eqn:E.
  - right. rewrite (slug_char_not_dash c E).
    destruct (IH false H) as [-> | Hs].
    + cbn [slug_body]. rewrite E. reflexivity.
    + destruct (strip_trailing_dashes s) as [|c' r'] eqn:Er.
      * cbn [slug_body]. rewrite E. reflexivity.
      * cbn [slug_body] in Hs |- *. rewrite E. exact Hs.
  - apply andb_true_iff in H as [H Hr]. apply andb_true_iff in H as [Hd Hb].
    rewrite Hd. destruct (IH true Hr) as [-> | Hs]; [left; reflexivity|].
    destruct (strip_trailing_dashes s) as [|c' r'] eqn:Er; [left; reflexivity|].
    right. cbn [slug_body] in Hs |- *. rewrite E, Hd, Hb. exact Hs.
Qed.

Lemma slug_body_dashed (b : bool) (s : string) :
  slug_body b s = true -> dashed_body b s = true.
Proof.
  revert b. induction s as [|c s IH]; intros b H; [reflexivity|].
  cbn [slug_body] in H. cbn [dashed_body]. destruct (is_slug_char c); [apply IH; exact H|].
  apply andb_true_iff in H as [H Hr]. rewrite H. apply (IH true Hr).
Qed.

Lemma dashed_lower (b : bool) (s : string) : dashed_body b s = true -> Js.toLowerCase s = s.
Proof.
  revert b. induction s as [|c s IH]; intros b H; [reflexivity|].
  cbn [dashed_body] in H. cbn [Js.toLowerCase]. destruct (is_slug_char c) eqn:E.
  - rewrite (slug_char_lower c E), (IH false H). reflexivity.
  - apply andb_true_iff in H as [H Hr]. apply andb_true_iff in H as [Hd _].
    apply Ascii.eqb_eq in Hd. subst c. rewrite (IH true Hr). reflexivity.
Qed.

Lemma dashed_replace_runs (b : bool) (s : string) :
  dashed_body b s = true -> replace_runs b s = s.
Proof.
  revert b. induction s as [|c s IH]; intros b H; [reflexivity|].
  cbn [dashed_body] in H. cbn [replace_runs]. destruct (is_slug_char c) eqn:E.
  - rewrite (IH false H). reflexivity.
  - apply andb_true_iff in H as [H Hr]. apply andb_true_iff in H as [Hd Hb].
    apply negb_true_iff in Hb. subst b. apply Ascii.eqb_eq in Hd. subst c.
    rewrite (IH true Hr). reflexivity.
Qed.

Lemma slug_strip_trailing (b : bool) (s : string) :
  slug_body b s = true -> strip_trailing_dashes s = s.
Proof.
  revert b. induction s as [|c s IH]; intros b H; [reflexivity|].
  cbn [slug_body] in H. cbn [strip_trailing_dashes]. destruct (is_slug_char c) eqn:E.
  - rewrite (IH false H), (slug_char_not_dash c E). destruct s; reflexivity.
  - apply andb_true_iff in H as [H Hr]. rewrite (IH true Hr).
    destruct s; [discriminate Hr | reflexivity].
Qed.

Lemma slug_strip_leading (s : string) :
  slug_body true s = true -> strip_leading_dashes s = s.
Proof.
  destruct s as [|c s]; [reflexivity|]. cbn [slug_body strip_leading_dashes].
  destruct (is_slug_char c) eqn:E; [rewrite (slug_char_not_dash c E); reflexivity|].
  rewrite andb_false_r. intros H. discriminate H.
Qed.

(** X26: the slug that the category page makes from a name is always a
    slug: only the letters a-z, digits and dashes, no dash at either end
    and no two dashes in a row; it may be empty. A string that is already
    such a slug is its own slug, so that making the slug of a slug changes
    nothing. *)
Theorem generateSlug_is_slug (name : string) :
  is_slug (generateSlug name) = true
  /\ (is_slug name = true -> generateSlug name = name)
  /\ generateSlug (generateSlug name) = generateSlug name.
Proof.
  assert (forall n, is_slug (generateSlug n) = true) as Hslug.
  { intros n. unfold generateSlug.
    pose proof (replace_runs_dashed false (Js.toLowerCase n)) as H1.
    apply strip_leading_dashed in H1. apply strip_trailing_slug in H1.
    destruct H1 as [-> | H1]; [reflexivity|].
    unfold is_slug. destruct (strip_trailing_dashes _); [reflexivity | exact H1]. }
  assert (forall n, is_slug n = true -> generateSlug n = n) as Hfix.
  { intros n Hn. destruct n as [|c n]; [reflexivity|]. cbn [is_slug] in Hn.
    unfold generateSlug.
    assert (dashed_body false (String c n) = true) as Hd.
    { pose proof (slug_body_dashed true _ Hn) as H. cbn [dashed_body] in H |- *.
      destruct (is_slug_char c); [exact H|].
      rewrite andb_false_r in H. discriminate H. }
    rewrite (dashed_lower false _ Hd), (dashed_replace_runs false _ Hd).
    rewrite (slug_strip_leading _ Hn). apply (slug_strip_trailing true _ Hn). }
  split; [apply Hslug|]. split; [apply Hfix|]. apply Hfix. apply Hslug.
Qed.

Lemma generateSlug_is_slug_witness :
  generateSlug "engine-oil-5w30" = "engine-oil-5w30".
Proof.
  destruct (generateSlug_is_slug "engine-oil-5w30") as (_ & H & _).
  apply H. reflexivity.
Defined.

Example generateSlug_samples :
  generateSlug "  Engine Oil (5W-30)!  " = "engine-oil-5w-30"
  /\ generateSlug "Brake  &  Clutch -- Fluid" = "brake-clutch-fluid"
  /\ generateSlug "***" = ""
  /\ slug (handleNameChange "Gear Oil" {| name := ""; slug := ""; description := "";
                                          is_active := true |}) = "gear-oil".
Proof. repeat split. Qed.

End Slug.

Section SaveCategory.

Import AdminCategories.

(** X27: creating a category. A blank name is refused before the store is
    asked. Otherwise the page looks for the categories with the same name
    or the same slug: when the store finds exactly one, the creation is
    refused as a duplicate and nothing is written; in every other case
    (none found, but also two or more found, or an error of that query)
    the check does not refuse: the insert is sent, and the outcome is
    the answer of the store to it, the new row or the error of the store
    (that of the unique constraint, for a name or slug that is taken). *)
Theorem saveCategory_duplicate_check (st : State) (e : Env) (s : Store.t) :
  editingCategory st = None ->
  (Js.trim (name (formData st)) = "" ->
   run (saveCategory st e) s = (s, Throw CategoryNameRequired))
  /\ (Js.trim (name (formData st)) <> "" ->
      (forall c, select_resp e = None -> same_name_or_slug (formData st) s = [c] ->
         run (saveCategory st e) s = (s, Throw CategoryExists))
      /\ (is_Some (select_resp e)
          \/ length (same_name_or_slug (formData st) s) <> 1%nat ->
          run (saveCategory st e) s
          = match write_resp e with
            | None =>
                (Store.with_product_categories
                   (fun rows => rows ++ [new_category (formData st) (insert_id e)]) s,
                 Return ())
            | Some err => (s, Throw (StoreError err))
            end)).
Proof.
  intros He. unfold run, saveCategory, bind, Backend.select, Backend.write,
    same_name_or_slug. rewrite He. split.
  - intros ->. reflexivity.
  - intros Hne.
    assert (Js.truthy_str (Js.trim (name (formData st))) = true) as ->.
    { unfold Js.truthy_str. apply negb_true_iff, String.eqb_neq. exact Hne. }
    cbn [negb]. split.
    + intros c -> ->. reflexivity.
    + intros Hpass. destruct (select_resp e) as [err|].
      { destruct (write_resp e); reflexivity. }
      destruct Hpass as [[x Hx]|Hlen]; [discriminate Hx|].
      destruct (filter _ (Store.product_categories s)) as [|c [|c' l]];
        cbn [Backend.single]; try (destruct (write_resp e); reflexivity).
      contradiction Hlen. reflexivity.
Qed.

Lemma saveCategory_duplicate_check_witness :
  let oil := {| Category.id := "c1"; Category.name := "Engine Oil";
                Category.slug := "engine-oil"; Category.description := None;
                Category.is_active := true; Category.updated_at := None |} in
  let gear := {| Category.id := "c2"; Category.name := "Gear Oil";
                 Category.slug := "gear-oil"; Category.description := None;
                 Category.is_active := true; Category.updated_at := None |} in
  let s := Store.with_product_categories (fun _ => [oil; gear]) Sample.store in
  let e := {| now := 0%Z; select_resp := None; write_resp := Some "23505";
              insert_id := "c3" |} in
  let form n sl := {| editingCategory := None;
                      formData := {| name := n; slug := sl; description := "";
                                     is_active := true |} |} in
  run (saveCategory (form "Engine Oil" "engine-oil-2") e) s = (s, Throw CategoryExists)
  /\ run (saveCategory (form "Engine Oil" "gear-oil") e) s
     = (s, Throw (StoreError "23505")).
Proof.
  intros oil gear s e form. split.
  - destruct (saveCategory_duplicate_check (form "Engine Oil" "engine-oil-2") e s eq_refl)
      as [_ H].
    destruct H as [H _]; [discriminate|]. apply (H oil); reflexivity.
  - destruct (saveCategory_duplicate_check (form "Engine Oil" "gear-oil") e s eq_refl)
      as [_ H].
    destruct H as [_ H]; [discriminate|]. rewrite H; [reflexivity|].
    right. vm_compute. discriminate.
Defined.

End SaveCategory.

Section DeleteCategory.

Import AdminCategories.

Lemma delete_category_products (categoryId : Id) (s : Store.t) :
  Forall (fun p => Product.category_id p <> Some categoryId)
         (Store.products (delete_category categoryId s))
  /\ Product.id <$> Store.products (delete_category categoryId s)
     = Product.id <$> Store.products s
  /\ Product.price_per_litre <$> Store.products (delete_category categoryId s)
     = Product.price_per_litre <$> Store.products s.
Proof.
  unfold delete_category. cbn [Store.with_products Store.with_product_categories
                               Store.products].
  split; [|split].
  - apply Forall_forall. intros p' Hp'. apply list_elem_of_fmap in Hp' as (p & -> & _).
    destruct (bool_decide (Product.category_id p = Some categoryId)) eqn:E.
    + discriminate.
    + apply bool_decide_eq_false in E. exact E.
  - rewrite <- list_fmap_compose. apply list_fmap_ext. intros i p _. cbn.
    destruct (bool_decide _); reflexivity.
  - rewrite <- list_fmap_compose. apply list_fmap_ext. intros i p _. cbn.
    destruct (bool_decide _); reflexivity.
Qed.

(** X28: deleting a category. When the query finds products of the
    category, the deletion is refused with their number and names and
    nothing is written. Whenever the deletion goes through, the store was
    willing, no category row with that identifier is left, and no product
    refers to the category any more (products that still did, which can
    only be when the query had failed, have lost their category through the
    foreign key); the products are otherwise what they were, identifiers
    and list prices in place, and carts, orders and coupons are
    untouched. *)
Theorem deleteCategory_leaves_no_reference (categoryId : Id) (e : Env) (s : Store.t) :
  (forall p ps, select_resp e = None ->
     filter (fun p => Product.category_id p = Some categoryId) (Store.products s) = p :: ps ->
     run (deleteCategory categoryId e) s
     = (s, Throw (CategoryInUse (S (length ps)) (Product.name <$> (p :: ps)))))
  /\ (forall s', run (deleteCategory categoryId e) s = (s', Return ()) ->
        write_resp e = None
        /\ (forall c, c ∈ Store.product_categories s' <->
              c ∈ Store.product_categories s /\ Category.id c <> categoryId)
        /\ Forall (fun p => Product.category_id p <> Some categoryId) (Store.products s')
        /\ Product.id <$> Store.products s' = Product.id <$> Store.products s
        /\ Product.price_per_litre <$> Store.products s'
           = Product.price_per_litre <$> Store.products s
        /\ Store.cart_items s' = Store.cart_items s
        /\ Store.orders s' = Store.orders s
        /\ Store.order_items s' = Store.order_items s
        /\ Store.coupons s' = Store.coupons s).
Proof.
  split.
  - intros p ps Hs Hf. unfold run, deleteCategory, bind, Backend.select.
    rewrite Hs, Hf. reflexivity.
  - intros s' H.
    assert (write_resp e = None /\ s' = delete_category categoryId s) as [Hw ->].
    { unfold run, deleteCategory, bind, Backend.select, Backend.write in H.
      destruct (select_resp e);
        [|destruct (filter _ (Store.products s)); [|discriminate H]];
        destruct (write_resp e); try discriminate H;
        injection H as <-; split; reflexivity. }
    split; [exact Hw|].
    destruct (delete_category_products categoryId s) as (H1 & H2 & H3).
    split.
    { intros c. unfold delete_category.
      cbn [Store.with_products Store.with_product_categories Store.product_categories].
      rewrite list_elem_of_filter. tauto. }
    split; [exact H1|]. split; [exact H2|]. split; [exact H3|].
    repeat split.
Qed.

Lemma deleteCategory_leaves_no_reference_witness :
  let cat := {| Category.id := "c1"; Category.name := "Engine Oil";
                Category.slug := "engine-oil"; Category.description := None;
                Category.is_active := true; Category.updated_at := None |} in
  let s := Store.with_product_categories (fun _ => [cat]) Sample.store in
  let e := {| now := 0%Z; select_resp := None; write_resp := None; insert_id := "c3" |} in
  Store.product_categories (fst (run (deleteCategory "c1" e) s)) = []
  /\ Store.cart_items (fst (run (deleteCategory "c1" e) s)) = Store.cart_items s.
Proof.
  intros cat s e.
  destruct (deleteCategory_leaves_no_reference "c1" e s) as [_ H].
  destruct (H (fst (run (deleteCategory "c1" e) s)) eq_refl)
    as (_ & Hc & _ & _ & _ & Hcart & _).
  split; [|exact Hcart].
  apply elem_of_nil_inv. intros c Hin. apply Hc in Hin as [Hin Hne].
  apply list_elem_of_singleton in Hin. subst c. apply Hne. reflexivity.
Defined.

End DeleteCategory.

(** ** The icons of the categories *)

Section Icons.

Import CategoryIcons.

Lemma lower_upper_ascii (c : ascii) : Js.lower_ascii (Js.upper_ascii c) = Js.lower_ascii c.
Proof. destruct c as [[] [] [] [] [] [] [] []]; reflexivity. Qed.

Lemma toLowerCase_toUpperCase (s : string) :
  Js.toLowerCase (Js.toUpperCase s) = Js.toLowerCase s.
Proof.
  induction s as [|c s IH]; [reflexivity|].
  cbn [Js.toUpperCase Js.toLowerCase]. rewrite lower_upper_ascii, IH. reflexivity.
Qed.

Lemma lower_lower_ascii (c : ascii) : Js.lower_ascii (Js.lower_ascii c) = Js.lower_ascii c.
Proof. destruct c as [[] [] [] [] [] [] [] []]; reflexivity. Qed.

Lemma toLowerCase_idem (s : string) : Js.toLowerCase (Js.toLowerCase s) = Js.toLowerCase s.
Proof.
  induction s as [|c s IH]; [reflexivity|].
  cbn [Js.toLowerCase]. rewrite lower_lower_ascii, IH. reflexivity.
Qed.

Lemma prefix_app (k b : string) : String.prefix k (k +:+ b) = true.
Proof.
  induction k as [|c k IH]; [destruct b; reflexivity|].
  change (String c k +:+ b) with (String c (k +:+ b)). cbn [String.prefix].
  destruct (ascii_dec c c) as [_|Hn]; [exact IH | contradiction Hn; reflexivity].
Qed.

Lemma includes_prefix (s sub : string) :
  String.prefix sub s = true -> Js.includes s sub = true.
Proof. intros H. destruct s; cbn [Js.includes]; rewrite H; reflexivity. Qed.

Lemma includes_app (a k b : string) : Js.includes (a +:+ k +:+ b) k = true.
Proof.
  induction a as [|c a IH].
  - change ("" +:+ k +:+ b) with (k +:+ b). apply includes_prefix, (prefix_app k b).
  - change (String c a +:+ k +:+ b) with (String c (a +:+ k +:+ b)).
    cbn [Js.includes]. rewrite IH. destruct (String.prefix k _); reflexivity.
Qed.

(** X29: the icon of a category does not depend on the case of the letters
    of its name, and a name that contains "oil", in any case and anywhere,
    gets the droplets, whatever other keyword it contains: "oil" is the
    first keyword of the table. The fallback and every icon of the table
    are the only answers. *)
Theorem getCategoryIcon_by_keyword (categoryName : string) :
  getCategoryIcon (Js.toUpperCase categoryName) = getCategoryIcon categoryName
  /\ getCategoryIcon (Js.toLowerCase categoryName) = getCategoryIcon categoryName
  /\ (forall a b, Js.toLowerCase categoryName = a +:+ "oil" +:+ b ->
        getCategoryIcon categoryName = Droplets)
  /\ (getCategoryIcon categoryName = Package
      \/ exists keyword,
           (keyword, getCategoryIcon categoryName) ∈ categoryIconMap
           /\ Js.includes (Js.toLowerCase categoryName) keyword = true).
Proof.
  split; [|split; [|split]].
  - unfold getCategoryIcon. rewrite toLowerCase_toUpperCase. reflexivity.
  - unfold getCategoryIcon. rewrite toLowerCase_idem. reflexivity.
  - intros a b E. unfold getCategoryIcon. rewrite E.
    cbn [categoryIconMap List.find]. rewrite (includes_app a "oil" b). reflexivity.
  - unfold getCategoryIcon.
    destruct (List.find _ categoryIconMap) as [[k i]|] eqn:E; [|left; reflexivity].
    right. exists k. apply find_some in E as [Hin Hinc].
    split; [apply list_elem_of_In; exact Hin | exact Hinc].
Qed.

Lemma getCategoryIcon_by_keyword_witness :
  getCategoryIcon "Engine OIL" = Droplets.
Proof.
  destruct (getCategoryIcon_by_keyword "Engine OIL") as (_ & _ & H & _).
  apply (H "engine " ""). reflexivity.
Defined.

End Icons.

(** ** Checkout works on what the page has loaded *)

Section LoadedCart.

Import Checkout.

(** X30: placing an order reads nothing from the store. Its outcome (the
    order returned, or the error thrown) is the same whatever the store
    holds at that moment: the prices and the products are those of the cart
    lines that the page had loaded, and the coupon is the one applied
    earlier, which is not validated again. So when a cart was loaded from a
    store and the products change afterwards, the order items written are
    those computed from the loaded lines. *)
Theorem placeOrder_reads_nothing (st : State) (e : Env) (s1 s2 : Store.t) :
  snd (run (placeOrder st e) s1) = snd (run (placeOrder st e) s2)
  /\ (forall u s0 order,
        user st = Some u -> cartItems st = Some (cart_query (Some u) s0) ->
        run (placeOrder st e) s1 = (fst (run (placeOrder st e) s1), Return order) ->
        Store.order_items (fst (run (placeOrder st e) s1))
        = Store.order_items s1 ++ orderItems order (cart_query (Some u) s0)
        /\ Order.total_amount order = subtotal (Some (cart_query (Some u) s0))
        /\ Order.discount_amount order
           = discount (appliedCoupon st) (subtotal (Some (cart_query (Some u) s0)))).
Proof.
  split.
  - unfold run, placeOrder, createSupabaseOrder, bind, insert_order, Backend.write.
    destruct (user st); [|reflexivity].
    destruct (negb _); [reflexivity|].
    destruct (cartItems st) as [[|l ls]|]; try reflexivity.
    destruct (orders_insert e); [|reflexivity].
    destruct (order_items_insert e); reflexivity.
  - intros u s0 order Hu Hc.
    unfold run, placeOrder, createSupabaseOrder, bind, insert_order, Backend.write, total.
    rewrite Hu, Hc.
    destruct (negb _); [intros H; discriminate H|].
    destruct (cart_query (Some u) s0) as [|l ls]; [intros H; discriminate H|].
    destruct (orders_insert e) as [oid|]; [|intros H; discriminate H].
    destruct (order_items_insert e); [intros H; discriminate H|].
    cbn [fst]. intros [= <-]. cbn [order_row Order.total_amount Order.discount_amount].
    rewrite Hc. repeat split.
Qed.

(** The cart is loaded while the oil costs 500; the admin then sets the
    price to 900; the order placed from the loaded cart charges 500. *)
Lemma placeOrder_reads_nothing_witness :
  let st := Sample.checkout "12 Mill Road, Salem" None
              (Some (cart_query (Some Sample.alice) Sample.store)) in
  let edit := {| AdminProducts.editingProduct :=
                   Some (Sample.product "p1" "Sunflower oil" (Some 500) None);
                 AdminProducts.formData := Sample.form |} in
  let env := {| AdminProducts.update_resp := None; AdminProducts.insert_resp := inl "p3" |} in
  let later := exec (SaveProduct edit env) Sample.store in
  Product.price_per_litre <$> Store.products later = [Some 900]
  /\ snd (run (placeOrder st (Sample.env None)) later)
     = snd (run (placeOrder st (Sample.env None)) Sample.store)
  /\ OrderItem.price_per_litre
     <$> Store.order_items (fst (run (placeOrder st (Sample.env None)) later))
     = [500; 500; 0].
Proof.
  intros st edit env later. split; [reflexivity|]. split; [|reflexivity].
  apply (placeOrder_reads_nothing st (Sample.env None) later Sample.store).
Defined.

End LoadedCart.
